(** * Storage gateway and OCM provider authorizer of reva: a shallow embedding

    The development follows two source files:
    - [internal/grpc/services/gateway/storageprovider.go]: the storage
      gateway (path classification, reference resolution, routing, transfer
      tokens);
    - [pkg/ocm/provider/authorizer/json/json.go]: the JSON provider
      authorizer.

    Go strings are byte strings and are modelled by [string]; Go [int64]
    values are modelled by [Z] with the wrap-around written out where the
    source multiplies; a Go function returning [(T, error)] returns a sum
    [T + error]; a Go panic is an explicit outcome. Remote calls (registry,
    storage providers), the clock and the libraries outside the repository
    ([net/url], [jwt-go], DNS) are oracles threaded through a state monad. *)

From Stdlib Require Import String Ascii List ZArith Lia Bool.
From stdpp Require Import base decidable option gmap strings.

Import ListNotations.
Local Open Scope string_scope.
Local Open Scope list_scope.

(** ** The Go [strings] package, as far as the sources use it *)

Module GoStrings.

(** [strings.HasPrefix(s, prefix)]. *)
Definition HasPrefix (s prefix : string) : bool := String.prefix prefix s.

(** [strings.TrimPrefix(s, prefix)]. *)
Definition TrimPrefix (s prefix : string) : string :=
  if HasPrefix s prefix
  then String.substring (String.length prefix)
                        (String.length s - String.length prefix) s
  else s.

(** [strings.TrimLeft(s, cutset)] for a cutset of one byte. *)
Fixpoint TrimLeft (s : string) (c : ascii) : string :=
  match s with
  | String a r => if Ascii.eqb a c then TrimLeft r c else s
  | EmptyString => EmptyString
  end.

(** [strings.TrimRight(s, cutset)] for a cutset of one byte. *)
Fixpoint TrimRight (s : string) (c : ascii) : string :=
  match s with
  | String a r =>
      match TrimRight r c with
      | EmptyString => if Ascii.eqb a c then EmptyString else String a EmptyString
      | r' => String a r'
      end
  | EmptyString => EmptyString
  end.

(** [strings.Trim(s, cutset)] for a cutset of one byte. *)
Definition Trim (s : string) (c : ascii) : string :=
  TrimRight (TrimLeft s c) c.

(** The text before and after the first occurrence of the byte [c]. *)
Fixpoint cut (s : string) (c : ascii) : option (string * string) :=
  match s with
  | EmptyString => None
  | String a r =>
      if Ascii.eqb a c then Some (EmptyString, r)
      else match cut r c with
           | Some (x, y) => Some (String a x, y)
           | None => None
           end
  end.

(** [strings.SplitN(s, sep, n)] for a separator of one byte and [n >= 0]:
    at most [n] substrings, the last one being the unsplit remainder. *)
Fixpoint SplitN (s : string) (sep : ascii) (n : nat) : list string :=
  match n with
  | O => []
  | S O => [s]
  | S n' =>
      match cut s sep with
      | Some (x, y) => x :: SplitN y sep n'
      | None => [s]
      end
  end.

(** [strings.Split(s, sep)] for a separator of one byte. *)
Definition Split (s : string) (sep : ascii) : list string :=
  SplitN s sep (S (String.length s)).

(** [strings.Join(elems, sep)]. *)
Fixpoint Join (elems : list string) (sep : string) : string :=
  match elems with
  | [] => ""
  | [x] => x
  | x :: rest => x ++ sep ++ Join rest sep
  end.


End GoStrings.

(** ** The Go [path] package: [Clean], [Join] and [Base]

    [Clean] is given on path elements: empty and [.] elements are dropped,
    a [..] element removes the element before it, is dropped at the root and
    is kept at the start of a path that is not rooted. *)

Module GoPath.

Definition slash : ascii := "/"%char.

Fixpoint clean_elems (rooted : bool) (elems stack : list string) : list string :=
  match elems with
  | [] => rev stack
  | e :: rest =>
      if String.eqb e "" then clean_elems rooted rest stack
      else if String.eqb e "." then clean_elems rooted rest stack
      else if String.eqb e ".." then
        match stack with
        | top :: below =>
            if String.eqb top ".." then clean_elems rooted rest (e :: stack)
            else clean_elems rooted rest below
        | [] =>
            if rooted then clean_elems rooted rest []
            else clean_elems rooted rest [e]
        end
      else clean_elems rooted rest (e :: stack)
  end.

Definition Clean (p : string) : string :=
  match p with
  | EmptyString => "."
  | String a _ =>
      let rooted := Ascii.eqb a slash in
      let out := GoStrings.Join (clean_elems rooted (GoStrings.Split p slash) []) "/" in
      if rooted then "/" ++ out
      else if String.eqb out "" then "." else out
  end.

(** The elements from the first one that is not empty. *)
Fixpoint drop_empty (elem : list string) : list string :=
  match elem with
  | [] => []
  | e :: rest => if String.eqb e "" then drop_empty rest else elem
  end.

Definition Join (elem : list string) : string :=
  match drop_empty elem with
  | [] => ""
  | l => Clean (GoStrings.Join l "/")
  end.

(** The text after the last slash of [p] ([p] itself without a slash). *)
Fixpoint after_last_slash (p : string) : string :=
  match p with
  | EmptyString => EmptyString
  | String a r =>
      match GoStrings.cut r slash with
      | Some _ => after_last_slash r
      | None => if Ascii.eqb a slash then r else p
      end
  end.

Definition Base (p : string) : string :=
  match p with
  | EmptyString => "."
  | _ =>
      match after_last_slash (GoStrings.TrimRight p slash) with
      | EmptyString => "/"
      | b => b
      end
  end.

End GoPath.

(** ** The storage gateway: messages, errors and the effect monad *)

Module Gateway.

(** *** Messages of the CS3 APIs used by the gateway *)

Inductive Code : Set :=
| CODE_INVALID | CODE_OK | CODE_CANCELLED | CODE_UNKNOWN
| CODE_INVALID_ARGUMENT | CODE_DEADLINE_EXCEEDED | CODE_NOT_FOUND
| CODE_ALREADY_EXISTS | CODE_PERMISSION_DENIED | CODE_RESOURCE_EXHAUSTED
| CODE_FAILED_PRECONDITION | CODE_ABORTED | CODE_OUT_OF_RANGE
| CODE_UNIMPLEMENTED | CODE_INTERNAL | CODE_UNAVAILABLE | CODE_DATA_LOSS
| CODE_UNAUTHENTICATED | CODE_INSUFFICIENT_STORAGE.

#[global] Instance Code_eq_dec : EqDecision Code.
Proof. solve_decision. Defined.

(** Every answer of the registry and of a provider carries its status:
    the code reads [res.Status.Code] without a nil check, and an answer
    without a status (a panic in Go) is outside this model. The resource
    info of an answer is a pointer that may be nil, and is an option. *)
Record Status : Set := mkStatus { code : Code; message : string }.

Inductive ResourceType : Set :=
| RESOURCE_TYPE_INVALID | RESOURCE_TYPE_FILE | RESOURCE_TYPE_CONTAINER
| RESOURCE_TYPE_REFERENCE | RESOURCE_TYPE_SYMLINK | RESOURCE_TYPE_INTERNAL.

#[global] Instance ResourceType_eq_dec : EqDecision ResourceType.
Proof. solve_decision. Defined.

Record ResourceId : Set := mkResourceId { StorageId : string; OpaqueId : string }.

(** A reference is a path, an id, or has no spec set. *)
Inductive Reference : Set :=
| Reference_Path (path : string)
| Reference_Id (id : ResourceId)
| Reference_unset.

Definition GetPath (ref : Reference) : string :=
  match ref with Reference_Path p => p | _ => "" end.

Definition GetId (ref : Reference) : option ResourceId :=
  match ref with Reference_Id id => Some id | _ => None end.

Record ResourceInfo : Set := mkResourceInfo {
  Type_ : ResourceType;
  Id : option ResourceId;
  Etag : string;
  MimeType : string;
  Mtime : Z;
  Path : string;
  Size : Z;
  Owner : string;
  Target : string
}.

(** [info.Path = p]. *)
Definition set_Path (info : ResourceInfo) (p : string) : ResourceInfo :=
  {| Type_ := Type_ info; Id := Id info; Etag := Etag info;
     MimeType := MimeType info; Mtime := Mtime info; Path := p;
     Size := Size info; Owner := Owner info; Target := Target info |}.

Record StatRequest : Set :=
  mkStatRequest { stat_Ref : Reference; stat_Keys : list string }.
Record StatResponse : Set :=
  mkStatResponse { stat_Status : Status; stat_Info : option ResourceInfo }.

Record ListContainerRequest : Set :=
  mkListContainerRequest { list_Ref : Reference; list_Keys : list string }.
Record ListContainerResponse : Set :=
  mkListContainerResponse { list_Status : Status; list_Infos : list ResourceInfo }.

Record CreateContainerRequest : Set := mkCreateContainerRequest { create_Ref : Reference }.
Record CreateContainerResponse : Set := mkCreateContainerResponse { create_Status : Status }.

Record DeleteRequest : Set := mkDeleteRequest { delete_Ref : Reference }.
Record DeleteResponse : Set := mkDeleteResponse { delete_Status : Status }.

Record MoveRequest : Set := mkMoveRequest { Source : Reference; Destination : Reference }.
Record MoveResponse : Set := mkMoveResponse { move_Status : Status }.

Record InitiateFileDownloadRequest : Set :=
  mkInitiateFileDownloadRequest { download_Ref : Reference }.
(** The storage provider's answer. *)
Record ProviderInitiateFileDownloadResponse : Set :=
  mkProviderInitiateFileDownloadResponse {
    pdl_Status : Status; pdl_DownloadEndpoint : string; pdl_Expose : bool }.
(** The gateway's answer. *)
Record InitiateFileDownloadResponse : Set :=
  mkInitiateFileDownloadResponse {
    download_Status : Status; DownloadEndpoint : string; download_Token : string }.

Record InitiateFileUploadRequest : Set :=
  mkInitiateFileUploadRequest { upload_Ref : Reference }.
Record ProviderInitiateFileUploadResponse : Set :=
  mkProviderInitiateFileUploadResponse {
    pul_Status : Status; pul_UploadEndpoint : string; pul_Expose : bool;
    pul_AvailableChecksums : list string }.
Record InitiateFileUploadResponse : Set :=
  mkInitiateFileUploadResponse {
    upload_Status : Status; UploadEndpoint : string;
    AvailableChecksums : list string; upload_Token : string }.

Record ProviderInfo : Set := mkProviderInfo { Address : string; ProviderPath : string }.
Record GetStorageProviderResponse : Set :=
  mkGetStorageProviderResponse { gsp_Status : Status; Provider : option ProviderInfo }.

(** The parts of a parsed [url.URL] the gateway reads, and its text
    ([u.String()]). *)
Record URL : Set := mkURL { Scheme : string; Opaque : string; URL_String : string }.

(** [transferClaims]: the standard claims the signer sets, and the target. *)
Record transferClaims : Set := mkTransferClaims {
  ExpiresAt : Z;
  Audience : string;
  IssuedAt : Z;
  claim_Target : string
}.

(** *** Errors *)

Inductive error : Set :=
| errors_New (msg : string)
| errors_Wrap (cause : error) (msg : string)
| errtypes_NotFound (msg : string)
| errtypes_PermissionDenied (msg : string)
| errtypes_NotSupported (msg : string)
| status_NewErrorFromCode (c : Code) (pkgname : string)
| external_error (msg : string).

(** [_, ok := err.(errtypes.IsNotFound)]: only [errtypes.NotFound] itself
    has the method; a wrapped error does not. *)
Definition IsNotFound (err : error) : bool :=
  match err with errtypes_NotFound _ => true | _ => false end.

(** Modelled from the spec: the constructors of [pkg/rgrpc/status], which
    is not among the files at hand. A status is a code and a message; the
    error given to [NewInternal] and [NewUnimplemented] is logged only. *)
Definition NewOK : Status := mkStatus CODE_OK "".
Definition NewNotFound (msg : string) : Status := mkStatus CODE_NOT_FOUND msg.
Definition NewInternal (err : error) (msg : string) : Status := mkStatus CODE_INTERNAL msg.
Definition NewInvalidArg (msg : string) : Status := mkStatus CODE_INVALID_ARGUMENT msg.
Definition NewUnimplemented (err : option error) (msg : string) : Status :=
  mkStatus CODE_UNIMPLEMENTED msg.

(** Text of protobuf messages ([ref.String()], [%+v]); it only feeds error
    and panic messages. *)
Definition Reference_String (ref : Reference) : string :=
  match ref with
  | Reference_Path p => "path:" ++ p
  | Reference_Id id => "id:" ++ StorageId id ++ "/" ++ OpaqueId id
  | Reference_unset => ""
  end.

Definition ResourceInfo_String (info : ResourceInfo) : string :=
  "path:" ++ Path info ++ " target:" ++ Target info.

(** Modelled from the spec: the gateway's configuration record is declared
    in a file that is not at hand; these are the options the code reads. *)
Record config : Set := mkConfig {
  ShareFolder : string;
  DataGatewayEndpoint : string;
  TransferExpires : Z;
  TransferSharedSecret : string;
  StorageRegistryEndpoint : string
}.

(** *** Remote calls and outcomes *)

(** A remote call made by the gateway; provider calls carry the address of
    the provider they go to. *)
Inductive Call : Set :=
| RegistryGetStorageProvider (ref : Reference)
| ProviderStat (addr : string) (req : StatRequest)
| ProviderListContainer (addr : string) (req : ListContainerRequest)
| ProviderCreateContainer (addr : string) (req : CreateContainerRequest)
| ProviderDelete (addr : string) (req : DeleteRequest)
| ProviderMove (addr : string) (req : MoveRequest)
| ProviderInitiateFileDownload (addr : string) (req : InitiateFileDownloadRequest)
| ProviderInitiateFileUpload (addr : string) (req : InitiateFileUploadRequest).

Definition is_registry_call (c : Call) : bool :=
  match c with RegistryGetStorageProvider _ => true | _ => false end.

Definition is_provider_stat (c : Call) : bool :=
  match c with ProviderStat _ _ => true | _ => false end.

(** What lies outside the gateway: the client pool, the registry, the
    storage providers, the clock and the libraries. [S] is the state of the
    outside world; every remote call may change it. *)
Record Backend (S : Type) : Type := mkBackend {
  pool_GetStorageRegistryClient : string -> S -> option error;
  registry_GetStorageProvider : Reference -> S -> (GetStorageProviderResponse + error) * S;
  pool_GetStorageProviderServiceClient : string -> S -> option error;
  provider_Stat : string -> StatRequest -> S -> (StatResponse + error) * S;
  provider_ListContainer :
    string -> ListContainerRequest -> S -> (ListContainerResponse + error) * S;
  provider_CreateContainer :
    string -> CreateContainerRequest -> S -> (CreateContainerResponse + error) * S;
  provider_Delete : string -> DeleteRequest -> S -> (DeleteResponse + error) * S;
  provider_Move : string -> MoveRequest -> S -> (MoveResponse + error) * S;
  provider_InitiateFileDownload :
    string -> InitiateFileDownloadRequest -> S ->
    (ProviderInitiateFileDownloadResponse + error) * S;
  provider_InitiateFileUpload :
    string -> InitiateFileUploadRequest -> S ->
    (ProviderInitiateFileUploadResponse + error) * S;
  (** [time.Now()], in nanoseconds since the Unix epoch *)
  time_Now : S -> Z * S;
  (** [url.Parse] *)
  url_Parse : string -> URL + error;
  (** [jwt.NewWithClaims(jwt.GetSigningMethod(alg), claims).SignedString(key)] *)
  jwt_SignedString : string -> transferClaims -> string -> string + error
}.

Arguments pool_GetStorageRegistryClient {S}.
Arguments registry_GetStorageProvider {S}.
Arguments pool_GetStorageProviderServiceClient {S}.
Arguments provider_Stat {S}.
Arguments provider_ListContainer {S}.
Arguments provider_CreateContainer {S}.
Arguments provider_Delete {S}.
Arguments provider_Move {S}.
Arguments provider_InitiateFileDownload {S}.
Arguments provider_InitiateFileUpload {S}.
Arguments time_Now {S}.
Arguments url_Parse {S}.
Arguments jwt_SignedString {S}.

(** The world a request runs in: the state of the outside and the remote
    calls made so far, oldest first. *)
Record World (S : Type) : Type := mkWorld { outside : S; calls : list Call }.
Arguments mkWorld {S}.
Arguments outside {S}.
Arguments calls {S}.

Inductive outcome (A : Type) : Type :=
| Returned (a : A)
| Panicked (msg : string).
Arguments Returned {A}.
Arguments Panicked {A}.

Definition M (S A : Type) : Type := World S -> outcome A * World S.

Definition ret {S A} (a : A) : M S A := fun w => (Returned a, w).

Definition bind {S A B} (m : M S A) (k : A -> M S B) : M S B :=
  fun w =>
    match m w with
    | (Returned a, w') => k a w'
    | (Panicked msg, w') => (Panicked msg, w')
    end.

Definition panic {S A} (msg : string) : M S A := fun w => (Panicked msg, w).

Definition lift {S A} (o : outcome A) : M S A := fun w => (o, w).

(** A remote call: recorded, then answered by the outside. *)
Definition remote {S R} (c : Call) (f : S -> R * S) : M S R :=
  fun w =>
    let (r, s') := f (outside w) in
    (Returned r, mkWorld s' (calls w ++ [c])).

(** A local effect on the outside that is not a remote call (the clock). *)
Definition local {S R} (f : S -> R * S) : M S R :=
  fun w =>
    let (r, s') := f (outside w) in
    (Returned r, mkWorld s' (calls w)).

(** A local read of the outside (the client pool). *)
Definition query {S R} (f : S -> R) : M S R :=
  fun w => (Returned (f (outside w)), w).

Definition nil_dereference : string :=
  "runtime error: invalid memory address or nil pointer dereference".

(** Reading a field through a pointer that may be nil. *)
Definition deref {S A} (p : option A) : M S A :=
  match p with
  | Some a => ret a
  | None => panic nil_dereference
  end.

Notation "x <- m ;; k" := (bind m (fun x => k))
  (at level 20, m at level 99, k at level 200, only parsing).

(** [int64] wrap-around. *)
Definition wrap64 (z : Z) : Z := ((z + 2 ^ 63) mod 2 ^ 64 - 2 ^ 63)%Z.

(** [time.Second] as a [time.Duration] (nanoseconds). *)
Definition Second : Z := 1000000000%Z.

(** [t.Add(d)] and [t.Unix()] on instants given in nanoseconds since the
    Unix epoch. *)
Definition time_Add (t d : Z) : Z := (t + d)%Z.
Definition time_Unix (t : Z) : Z := (t / Second)%Z.

(** The four shapes of a path. *)
Inductive Shape : Set := PlainPath | SharedFolder | ShareName | ShareChild.

#[global] Instance Shape_eq_dec : EqDecision Shape.
Proof. solve_decision. Defined.

(** *** The service *)

Record GetPathRequest : Set := mkGetPathRequest { getpath_ResourceId : ResourceId }.
Record GetPathResponse : Set :=
  mkGetPathResponse { getpath_Status : Status; getpath_Path : string }.

Section Svc.
Context {S : Type} (B : Backend S) (c : config).

Definition getHome : string := "/home".

Definition getSharedFolder : string :=
  GoPath.Join [getHome; ShareFolder c].

(** check if the path contains the prefix of the shared folder *)
Definition inSharedFolder (p : string) : bool :=
  GoStrings.HasPrefix p getSharedFolder.

Definition splitPath (p : string) : list string :=
  GoStrings.SplitN (GoStrings.Trim p "/"%char) "/"%char 4.

(** always validate that the path contains the share folder;
    split cannot be called with i<2 *)
Definition split (p : string) (i : nat) : outcome bool :=
  if (i <? 2)%nat then Panicked "split called with i < 2"
  else
    let parts := splitPath p in
    if (List.length parts <? 2)%nat
    then Panicked ("split: len(parts) < 2: path:" ++ p
                 ++ " parts:[" ++ GoStrings.Join parts " " ++ "]")
    else if negb (String.eqb (nth 1 parts "") (ShareFolder c)) then Returned false
    else if (List.length parts =? i)%nat && negb (String.eqb (nth (i - 1) parts "") "")
    then Returned true
    else Returned false.

Definition isSharedFolder (p : string) : outcome bool := split p 2.
Definition isShareName (p : string) : outcome bool := split p 3.
Definition isShareChild (p : string) : outcome bool := split p 4.

(** path must contain a share path with share children, if not it will
    panic. *)
Definition splitShare (p : string) : outcome (string * string) :=
  let parts := splitPath p in
  if negb (List.length parts =? 4)%nat
  then Panicked ("gateway: path for splitShare does not contain 4 elements:" ++ p)
  else Returned (GoPath.Join ["/"; nth 0 parts ""; nth 1 parts ""; nth 2 parts ""],
                 GoPath.Join ["/"; nth 3 parts ""]).

Definition findProvider (ref : Reference) : M S (ProviderInfo + error) :=
  e <- query (pool_GetStorageRegistryClient B (StorageRegistryEndpoint c)) ;;
  match e with
  | Some err => ret (inr (errors_Wrap err "gateway: error getting storage registry client"))
  | None =>
      r <- remote (RegistryGetStorageProvider ref) (registry_GetStorageProvider B ref) ;;
      match r with
      | inr err => ret (inr (errors_Wrap err "gateway: error calling GetStorageProvider"))
      | inl res =>
          if decide (code (gsp_Status res) <> CODE_OK) then
            if decide (code (gsp_Status res) = CODE_NOT_FOUND)
            then ret (inr (errtypes_NotFound
                             ("gateway: storage provider not found for reference:"
                                ++ Reference_String ref)))
            else ret (inr (status_NewErrorFromCode (code (gsp_Status res)) "gateway"))
          else
            match Provider res with
            | None => ret (inr (errors_New "gateway: provider is nil"))
            | Some p => ret (inl p)
            end
      end
  end.

(** The client of a provider is identified by the provider's address. *)
Definition getStorageProviderClient (p : ProviderInfo) : M S (string + error) :=
  e <- query (pool_GetStorageProviderServiceClient B (Address p)) ;;
  match e with
  | Some err => ret (inr (errors_Wrap err "gateway: error getting a storage provider client"))
  | None => ret (inl (Address p))
  end.

Definition find (ref : Reference) : M S (string + error) :=
  r <- findProvider ref ;;
  match r with
  | inr err => ret (inr err)
  | inl p => getStorageProviderClient p
  end.

Definition stat (req : StatRequest) : M S (StatResponse + error) :=
  r <- find (stat_Ref req) ;;
  match r with
  | inr err =>
      if IsNotFound err
      then ret (inl (mkStatResponse (NewNotFound "storage provider not found") None))
      else ret (inl (mkStatResponse (NewInternal err "error finding storage provider") None))
  | inl client => remote (ProviderStat client req) (provider_Stat B client req)
  end.

Definition getPath (ref : Reference) (keys : list string) : M S (string + error) :=
  if negb (String.eqb (GetPath ref) "") then ret (inl (GetPath ref))
  else
    match GetId ref with
    | Some id =>
        if negb (String.eqb (OpaqueId id) "") then
          r <- stat (mkStatRequest ref keys) ;;
          match r with
          | inr err =>
              ret (inr (errors_Wrap err ("gateway: error stating ref:" ++ Reference_String ref)))
          | inl res =>
              if decide (code (stat_Status res) <> CODE_OK)
              then ret (inr (status_NewErrorFromCode (code (stat_Status res)) "gateway"))
              else info <- deref (stat_Info res) ;; ret (inl (Path info))
          end
        else ret (inr (errors_New ("gateway: ref is invalid:" ++ Reference_String ref)))
    | None => ret (inr (errors_New ("gateway: ref is invalid:" ++ Reference_String ref)))
    end.

Definition handleCS3Ref (opaque : string) : M S (ResourceInfo + error) :=
  (* a cs3 ref has the following layout: <storage_id>/<opaque_id> *)
  let parts := GoStrings.SplitN opaque "/"%char 2 in
  if (List.length parts <? 2)%nat
  then ret (inr (errors_New
                   ("gateway: cs3 ref does not follow the layout storageid/opaqueid:" ++ opaque)))
  else
    let id := mkResourceId (nth 0 parts "") (nth 1 parts "") in
    let ref := Reference_Id id in
    r <- stat (mkStatRequest ref []) ;;
    match r with
    | inr err => ret (inr (errors_Wrap err "gateway: error calling stat"))
    | inl res =>
        if decide (code (stat_Status res) <> CODE_OK)
        then ret (inr (errors_New "gateway: error stating target reference"))
        else
          info <- deref (stat_Info res) ;;
          if decide (Type_ info = RESOURCE_TYPE_REFERENCE)
          then ret (inr (errors_New
                           "gateway: error the target of a reference cannot be another reference"))
          else ret (inl info)
    end.

Definition handleRef (targetURI : string) : M S (ResourceInfo + error) :=
  match url_Parse B targetURI with
  | inr err =>
      ret (inr (errors_Wrap err ("gateway: error parsing target uri:" ++ targetURI)))
  | inl uri =>
      if String.eqb (Scheme uri) "cs3" then handleCS3Ref (Opaque uri)
      else ret (inr (errors_New ("gateway: no reference handler for scheme:" ++ Scheme uri)))
  end.

Definition checkRef (ri : option ResourceInfo) : M S (ResourceInfo + error) :=
  info <- deref ri ;;
  if decide (Type_ info <> RESOURCE_TYPE_REFERENCE)
  then panic ("gateway: calling checkRef on a non reference type:" ++ ResourceInfo_String info)
  else
    (* reference types MUST have a target resource id. *)
    let target := Target info in
    if String.eqb target "" then ret (inr (errors_New "gateway: ref target is an empty uri"))
    else
      r <- handleRef target ;;
      match r with
      | inr err =>
          ret (inr (errors_Wrap err ("gateway: error handling ref target:" ++ target)))
      | inl newResourceInfo => ret (inl newResourceInfo)
      end.

(** Go's [a && b] and [a || b] on calls that may panic: the second call
    is made only when the first one does not decide. *)
Definition and_then (a b : outcome bool) : outcome bool :=
  match a with Returned true => b | _ => a end.
Definition or_else (a b : outcome bool) : outcome bool :=
  match a with Returned false => b | _ => a end.

Definition sign (target : string) : M S (string + error) :=
  let ttl := wrap64 (TransferExpires c * Second) in
  now1 <- local (time_Now B) ;;
  now2 <- local (time_Now B) ;;
  let claims :=
    {| ExpiresAt := time_Unix (time_Add now1 ttl);
       Audience := "reva";
       IssuedAt := time_Unix now2;
       claim_Target := target |} in
  match jwt_SignedString B "HS256" claims (TransferSharedSecret c) with
  | inr err => ret (inr (errors_Wrap err "error signing token with claims"))
  | inl tkn => ret (inl tkn)
  end.

(** **** Stat *)

Definition stat_status (st : Status) : StatResponse + error :=
  inl (mkStatResponse st None).

Definition Stat (req : StatRequest) : M S (StatResponse + error) :=
  r <- getPath (stat_Ref req) (stat_Keys req) ;;
  match r with
  | inr err => ret (stat_status (NewInternal err "gateway: error getting path for ref"))
  | inl p =>
      if negb (inSharedFolder p) then stat req
      else
        isFolder <- lift (isSharedFolder p) ;;
        if isFolder : bool then stat req
        else
          isName <- lift (isShareName p) ;;
          if isName : bool then
            (* we need to provide the info of the target, not the reference. *)
            r <- stat req ;;
            match r with
            | inr err => ret (stat_status (NewInternal err "gateway: error stating"))
            | inl res =>
                if decide (code (stat_Status res) <> CODE_OK) then
                  let err := status_NewErrorFromCode (code (stat_Status res)) "gateway" in
                  ret (stat_status (NewInternal err "gateway: error stating"))
                else
                  info <- deref (stat_Info res) ;;
                  if decide (Type_ info <> RESOURCE_TYPE_REFERENCE)
                  then panic ("gateway: a share name must be of type reference: ref:"
                                ++ Path info)
                  else
                    r <- checkRef (stat_Info res) ;;
                    match r with
                    | inr err =>
                        ret (stat_status
                               (NewInternal err ("gateway: error resolving reference:" ++ p)))
                    | inl ri =>
                        let orgPath := Path info in
                        ret (inl (mkStatResponse (stat_Status res)
                                                 (Some (set_Path ri orgPath))))
                    end
            end
          else
            isChild <- lift (isShareChild p) ;;
            if isChild : bool then
              sh <- lift (splitShare p) ;;
              let shareName := fst sh in
              let shareChild := snd sh in
              r <- stat (mkStatRequest (Reference_Path shareName) []) ;;
              match r with
              | inr err => ret (stat_status (NewInternal err "gateway: error stating"))
              | inl statRes =>
                  if decide (code (stat_Status statRes) <> CODE_OK) then
                    let err := status_NewErrorFromCode (code (stat_Status statRes)) "gateway" in
                    ret (stat_status (NewInternal err "gateway: error stating"))
                  else
                    r <- checkRef (stat_Info statRes) ;;
                    match r with
                    | inr err => ret (stat_status (NewInternal err "error stating"))
                    | inl ri =>
                        (* append child to target *)
                        let target := GoPath.Join [Path ri; shareChild] in
                        stat (mkStatRequest (Reference_Path target) (stat_Keys req))
                    end
              end
            else panic ("gateway: stating an unknown path:" ++ p)
  end.

(** **** CreateContainer *)

Definition create_status (st : Status) : CreateContainerResponse + error :=
  inl (mkCreateContainerResponse st).

Definition createContainer (req : CreateContainerRequest)
  : M S (CreateContainerResponse + error) :=
  r <- find (create_Ref req) ;;
  match r with
  | inr err =>
      if IsNotFound err
      then ret (create_status (NewNotFound "storage provider not found"))
      else ret (create_status (NewInternal err "error finding storage provider"))
  | inl client =>
      r <- remote (ProviderCreateContainer client req)
                  (provider_CreateContainer B client req) ;;
      match r with
      | inr err => ret (inr (errors_Wrap err "gateway: error calling CreateContainer"))
      | inl res => ret (inl res)
      end
  end.

Definition CreateContainer (req : CreateContainerRequest)
  : M S (CreateContainerResponse + error) :=
  r <- getPath (create_Ref req) [] ;;
  match r with
  | inr err => ret (create_status (NewInternal err "gateway: error gettng path for ref"))
  | inl p =>
      if negb (inSharedFolder p) then createContainer req
      else
        denied <- lift (or_else (isSharedFolder p) (isShareName p)) ;;
        if denied : bool then
          ret (create_status (NewInvalidArg "path points to share folder or share name"))
        else
          isChild <- lift (isShareChild p) ;;
          if isChild : bool then
            sh <- lift (splitShare p) ;;
            let shareName := fst sh in
            let shareChild := snd sh in
            r <- stat (mkStatRequest (Reference_Path shareName) []) ;;
            match r with
            | inr err =>
                ret (create_status (NewInternal err "gateway: error creating container"))
            | inl statRes =>
                if decide (code (stat_Status statRes) <> CODE_OK) then
                  let err := status_NewErrorFromCode (code (stat_Status statRes)) "gateway" in
                  ret (create_status (NewInternal err "gateway: error creating container"))
                else
                  info <- deref (stat_Info statRes) ;;
                  if decide (Type_ info <> RESOURCE_TYPE_REFERENCE) then
                    let err := errors_New ("gateway: expected reference: got:"
                                             ++ ResourceInfo_String info) in
                    ret (create_status (NewInternal err "gateway: error creating container"))
                  else
                    r <- checkRef (stat_Info statRes) ;;
                    match r with
                    | inr err =>
                        ret (create_status (NewInternal err "error creating container"))
                    | inl ri =>
                        (* append child to target *)
                        let target := GoPath.Join [Path ri; shareChild] in
                        createContainer (mkCreateContainerRequest (Reference_Path target))
                    end
            end
          else panic ("gateway: create container on unknown path:" ++ p)
  end.

(** **** Delete *)

Definition delete_status (st : Status) : DeleteResponse + error :=
  inl (mkDeleteResponse st).

Definition delete (req : DeleteRequest) : M S (DeleteResponse + error) :=
  r <- find (delete_Ref req) ;;
  match r with
  | inr err =>
      if IsNotFound err
      then ret (delete_status (NewNotFound "storage provider not found"))
      else ret (delete_status (NewInternal err "error finding storage provider"))
  | inl client =>
      r <- remote (ProviderDelete client req) (provider_Delete B client req) ;;
      match r with
      | inr err => ret (inr (errors_Wrap err "gateway: error calling Delete"))
      | inl res => ret (inl res)
      end
  end.

Definition Delete (req : DeleteRequest) : M S (DeleteResponse + error) :=
  r <- getPath (delete_Ref req) [] ;;
  match r with
  | inr err => ret (delete_status (NewInternal err "gateway: error gettng path for ref"))
  | inl p =>
      if negb (inSharedFolder p) then delete req
      else
        isFolder <- lift (isSharedFolder p) ;;
        if isFolder : bool then
          ret (delete_status (NewInvalidArg "path points to share folder or share name"))
        else
          isName <- lift (isShareName p) ;;
          if isName : bool then delete (mkDeleteRequest (Reference_Path p))
          else
            isChild <- lift (isShareChild p) ;;
            if isChild : bool then
              sh <- lift (splitShare p) ;;
              let shareName := fst sh in
              let shareChild := snd sh in
              r <- stat (mkStatRequest (Reference_Path shareName) []) ;;
              match r with
              | inr err => ret (delete_status (NewInternal err "gateway: error deleting"))
              | inl statRes =>
                  if decide (code (stat_Status statRes) <> CODE_OK) then
                    let err := status_NewErrorFromCode (code (stat_Status statRes)) "gateway" in
                    ret (delete_status (NewInternal err "gateway: error deleting"))
                  else
                    info <- deref (stat_Info statRes) ;;
                    if decide (Type_ info <> RESOURCE_TYPE_REFERENCE) then
                      let err := errors_New ("gateway: expected reference: got:"
                                               ++ ResourceInfo_String info) in
                      ret (delete_status (NewInternal err "gateway: error deleting"))
                    else
                      r <- checkRef (stat_Info statRes) ;;
                      match r with
                      | inr err =>
                          ret (delete_status (NewInternal err "error creating container"))
                      | inl ri =>
                          (* append child to target *)
                          let target := GoPath.Join [Path ri; shareChild] in
                          delete (mkDeleteRequest (Reference_Path target))
                      end
              end
            else panic ("gateway: delete called on unknown path:" ++ p)
  end.

(** **** Move *)

Definition move_status (st : Status) : MoveResponse + error :=
  inl (mkMoveResponse st).

Definition move (req : MoveRequest) : M S (MoveResponse + error) :=
  r <- findProvider (Source req) ;;
  match r with
  | inr err =>
      if IsNotFound err
      then ret (move_status (NewNotFound "source storage provider not found"))
      else ret (move_status (NewInternal err "error finding storage provider"))
  | inl srcP =>
      r <- findProvider (Destination req) ;;
      match r with
      | inr err =>
          if IsNotFound err
          then ret (move_status (NewNotFound "destination storage provider not found"))
          else ret (move_status (NewInternal err "error finding storage provider"))
      | inl dstP =>
          (* if providers are not the same we do not implement cross storage copy yet. *)
          if negb (String.eqb (Address srcP) (Address dstP)) then
            ret (move_status
                   (NewUnimplemented None "gateway: cross storage copy not yet implemented"))
          else
            r <- getStorageProviderClient srcP ;;
            match r with
            | inr err =>
                ret (move_status
                       (NewInternal err ("error connecting to storage provider="
                                           ++ Address srcP)))
            | inl client => remote (ProviderMove client req) (provider_Move B client req)
            end
      end
  end.

Definition Move (req : MoveRequest) : M S (MoveResponse + error) :=
  r <- getPath (Source req) [] ;;
  match r with
  | inr err => ret (move_status (NewInternal err "gateway: error gettng path for ref"))
  | inl p =>
      r <- getPath (Destination req) [] ;;
      match r with
      | inr err => ret (move_status (NewInternal err "gateway: error gettng path for ref"))
      | inl dp =>
          if negb (inSharedFolder p) && negb (inSharedFolder dp) then move req
          else
            (* allow renaming the share folder, the mount point, not the target. *)
            names <- lift (and_then (isShareName p) (isShareName dp)) ;;
            if names : bool then move req
            else
              children <- lift (and_then (isShareChild p) (isShareChild dp)) ;;
              if children : bool then
                sh <- lift (splitShare p) ;;
                dsh <- lift (splitShare dp) ;;
                let shareName := fst sh in
                let shareChild := snd sh in
                let dshareName := fst dsh in
                let dshareChild := snd dsh in
                if negb (String.eqb shareName dshareName) then
                  let err := errors_New "gateway: move: src and dst points to different targets" in
                  ret (move_status (NewInternal err "gateway: error moving"))
                else
                  r <- stat (mkStatRequest (Reference_Path shareName) []) ;;
                  match r with
                  | inr err => ret (move_status (NewInternal err "gateway: error moving"))
                  | inl statRes =>
                      if decide (code (stat_Status statRes) <> CODE_OK) then
                        let err :=
                          status_NewErrorFromCode (code (stat_Status statRes)) "gateway" in
                        ret (move_status (NewInternal err "gateway: error moving"))
                      else
                        info <- deref (stat_Info statRes) ;;
                        if decide (Type_ info <> RESOURCE_TYPE_REFERENCE) then
                          let err := errors_New ("gateway: expected reference: got:"
                                                   ++ ResourceInfo_String info) in
                          ret (move_status (NewInternal err "gateway: error deleting"))
                        else
                          r <- checkRef (stat_Info statRes) ;;
                          match r with
                          | inr err => ret (move_status (NewInternal err "error moving"))
                          | inl ri =>
                              let src := Reference_Path (GoPath.Join [Path ri; shareChild]) in
                              let dst := Reference_Path (GoPath.Join [Path ri; dshareChild]) in
                              move (mkMoveRequest src dst)
                          end
                  end
              else panic ("gateway: move called on unknown path:" ++ p)
      end
  end.

(** **** ListContainer *)

Definition list_status (st : Status) : ListContainerResponse + error :=
  inl (mkListContainerResponse st []).

Definition listContainer (req : ListContainerRequest)
  : M S (ListContainerResponse + error) :=
  r <- find (list_Ref req) ;;
  match r with
  | inr err =>
      if IsNotFound err
      then ret (list_status (NewNotFound "storage provider not found"))
      else ret (list_status (NewInternal err "error finding storage provider"))
  | inl client =>
      r <- remote (ProviderListContainer client req)
                  (provider_ListContainer B client req) ;;
      match r with
      | inr err => ret (inr (errors_Wrap err "gateway: error calling ListContainer"))
      | inl res => ret (inl res)
      end
  end.

(** The loop over the children of the shared folder: every child is
    resolved and gets the path [p/<base>]. The loop either returns a
    response early (left) or yields the new children (right). When
    [checkRef] fails its first result [info] is nil, and the message of
    the early response reads [info.Path]. *)
Fixpoint resolveSharedFolderChildren (p : string) (infos : list ResourceInfo)
  : M S (ListContainerResponse + list ResourceInfo) :=
  match infos with
  | [] => ret (inr [])
  | ref :: rest =>
      r <- checkRef (Some ref) ;;
      match r with
      | inr err =>
          info <- deref (@None ResourceInfo) ;;
          ret (inl (mkListContainerResponse
                      (NewInternal err ("gateway: error resolving reference:" ++ Path info))
                      []))
      | inl info =>
          let base := GoPath.Base (Path ref) in
          let info' := set_Path info (GoPath.Join [p; base]) in
          r <- resolveSharedFolderChildren p rest ;;
          match r with
          | inl early => ret (inl early)
          | inr rest' => ret (inr (info' :: rest'))
          end
      end
  end.

(** What the loop yields when every child resolves: [out] holds, for every
    reference of [refs] in order, the result of [checkRef] on it with the
    path replaced; every [checkRef] starts in the world the one before
    left, and [w'] is the world after the last. *)
Fixpoint resolved_children (p : string) (refs out : list ResourceInfo) (w w' : World S)
  : Prop :=
  match refs, out with
  | [], [] => w' = w
  | ref :: refs', info :: out' =>
      exists ri w1,
        checkRef (Some ref) w = (Returned (inl ri), w1) /\
        info = set_Path ri (GoPath.Join [p; GoPath.Base (Path ref)]) /\
        resolved_children p refs' out' w1 w'
  | _, _ => False
  end.

Definition ListContainer (req : ListContainerRequest)
  : M S (ListContainerResponse + error) :=
  r <- getPath (list_Ref req) (list_Keys req) ;;
  match r with
  | inr err => ret (list_status (NewInternal err "gateway: error getting path for ref"))
  | inl p =>
      if negb (inSharedFolder p) then listContainer req
      else
        isFolder <- lift (isSharedFolder p) ;;
        if isFolder : bool then
          r <- listContainer req ;;
          match r with
          | inr err =>
              ret (list_status (NewInternal err "gateway: error listing shared folder"))
          | inl lcr =>
              r <- resolveSharedFolderChildren p (list_Infos lcr) ;;
              match r with
              | inl early => ret (inl early)
              | inr infos => ret (inl (mkListContainerResponse (list_Status lcr) infos))
              end
          end
        else
          isName <- lift (isShareName p) ;;
          if isName : bool then
            (* we need to provide the info of the target, not the reference. *)
            r <- stat (mkStatRequest (Reference_Path p) []) ;;
            match r with
            | inr err => ret (list_status (NewInternal err "gateway: error stating share"))
            | inl res =>
                if decide (code (stat_Status res) <> CODE_OK) then
                  let err := status_NewErrorFromCode (code (stat_Status res)) "gateway" in
                  ret (list_status (NewInternal err "gateway: error stating share"))
                else
                  r <- checkRef (stat_Info res) ;;
                  match r with
                  | inr err =>
                      ret (list_status
                             (NewInternal err ("gateway: error resolving reference:" ++ p)))
                  | inl ri =>
                      if decide (Type_ ri <> RESOURCE_TYPE_CONTAINER)
                      then ret (list_status (NewInvalidArg "resource is not a container"))
                      else
                        let newReq :=
                          mkListContainerRequest (Reference_Path (Path ri)) (list_Keys req) in
                        r <- listContainer newReq ;;
                        match r with
                        | inr err =>
                            ret (list_status (NewInternal err "gateway: error listing"))
                        | inl newRes =>
                            if decide (code (list_Status newRes) <> CODE_OK) then
                              let err :=
                                status_NewErrorFromCode (code (list_Status newRes)) "gateway" in
                              ret (list_status (NewInternal err "gateway: error listing"))
                            else
                              (* paths needs to be converted *)
                              ret (inl (mkListContainerResponse
                                          (list_Status newRes)
                                          (map (fun info =>
                                                  set_Path info
                                                    (GoPath.Join [p; GoPath.Base (Path info)]))
                                               (list_Infos newRes))))
                        end
                  end
            end
          else
            isChild <- lift (isShareChild p) ;;
            if isChild : bool then
              sh <- lift (splitShare p) ;;
              let shareName := fst sh in
              let shareChild := snd sh in
              r <- stat (mkStatRequest (Reference_Path shareName) []) ;;
              match r with
              | inr err =>
                  ret (list_status (NewInternal err "gateway: error stating share child"))
              | inl res =>
                  if decide (code (stat_Status res) <> CODE_OK) then
                    let err := status_NewErrorFromCode (code (stat_Status res)) "gateway" in
                    ret (list_status (NewInternal err "gateway: error stating share child"))
                  else
                    r <- checkRef (stat_Info res) ;;
                    match r with
                    | inr err =>
                        ret (list_status
                               (NewInternal err ("gateway: error resolving reference:" ++ p)))
                    | inl ri =>
                        if decide (Type_ ri <> RESOURCE_TYPE_CONTAINER)
                        then ret (list_status (NewInvalidArg "resource is not a container"))
                        else
                          let target := GoPath.Join [Path ri; shareChild] in
                          let newReq :=
                            mkListContainerRequest (Reference_Path target) (list_Keys req) in
                          r <- listContainer newReq ;;
                          match r with
                          | inr err =>
                              ret (list_status (NewInternal err "gateway: error listing"))
                          | inl newRes =>
                              if decide (code (list_Status newRes) <> CODE_OK) then
                                let err :=
                                  status_NewErrorFromCode (code (list_Status newRes)) "gateway" in
                                ret (list_status (NewInternal err "gateway: error listing"))
                              else
                                (* paths needs to be converted *)
                                ret (inl (mkListContainerResponse
                                            (list_Status newRes)
                                            (map (fun info =>
                                                    set_Path info
                                                      (GoPath.Join
                                                         [shareName; shareChild;
                                                          GoPath.Base (Path info)]))
                                                 (list_Infos newRes))))
                          end
                    end
              end
            else panic ("gateway: stating an unknown path:" ++ p)
  end.

(** **** InitiateFileDownload *)

Definition download_status (st : Status) : InitiateFileDownloadResponse + error :=
  inl (mkInitiateFileDownloadResponse st "" "").

Definition initiateFileDownload (req : InitiateFileDownloadRequest)
  : M S (InitiateFileDownloadResponse + error) :=
  r <- find (download_Ref req) ;;
  match r with
  | inr err =>
      if IsNotFound err
      then ret (download_status (NewNotFound "storage provider not found"))
      else ret (download_status (NewInternal err "error finding storage provider"))
  | inl client =>
      r <- remote (ProviderInitiateFileDownload client req)
                  (provider_InitiateFileDownload B client req) ;;
      match r with
      | inr err => ret (inr (errors_Wrap err "gateway: error calling InitiateFileDownload"))
      | inl storageRes =>
          let res :=
            mkInitiateFileDownloadResponse
              (pdl_Status storageRes) (pdl_DownloadEndpoint storageRes) "" in
          if pdl_Expose storageRes then ret (inl res)
          else
            (* sign the download location and pass it to the data gateway *)
            match url_Parse B (DownloadEndpoint res) with
            | inr err =>
                ret (download_status (NewInternal err "wrong format for download endpoint"))
            | inl u =>
                let target := URL_String u in
                t <- sign target ;;
                match t with
                | inr err =>
                    ret (download_status
                           (NewInternal err "error creating signature for download"))
                | inl token =>
                    ret (inl (mkInitiateFileDownloadResponse
                                (download_Status res) (DataGatewayEndpoint c) token))
                end
            end
      end
  end.

Definition InitiateFileDownload (req : InitiateFileDownloadRequest)
  : M S (InitiateFileDownloadResponse + error) :=
  r <- stat (mkStatRequest (download_Ref req) []) ;;
  match r with
  | inr err =>
      ret (download_status
             (NewInternal err ("gateway: error stating ref:"
                                 ++ Reference_String (download_Ref req))))
  | inl statRes =>
      if decide (code (stat_Status statRes) <> CODE_OK) then
        if decide (code (stat_Status statRes) = CODE_NOT_FOUND)
        then ret (download_status (NewNotFound "gateway: file not found"))
        else
          let err := status_NewErrorFromCode (code (stat_Status statRes)) "gateway" in
          ret (download_status (NewInternal err "gateway: error stating ref"))
      else
        r <- getPath (download_Ref req) [] ;;
        match r with
        | inr err =>
            ret (download_status (NewInternal err "gateway: error gettng path for ref"))
        | inl p =>
            if negb (inSharedFolder p) then initiateFileDownload req
            else
              denied <- lift (or_else (isSharedFolder p) (isShareName p)) ;;
              if denied : bool then
                ret (download_status
                       (NewInvalidArg "path points to share folder or share name"))
              else
                isChild <- lift (isShareChild p) ;;
                if isChild : bool then
                  sh <- lift (splitShare p) ;;
                  let shareName := fst sh in
                  let shareChild := snd sh in
                  r <- stat (mkStatRequest (Reference_Path shareName) []) ;;
                  match r with
                  | inr err =>
                      ret (download_status
                             (NewInternal err "gateway: error creating container"))
                  | inl statRes =>
                      if decide (code (stat_Status statRes) <> CODE_OK) then
                        let err :=
                          status_NewErrorFromCode (code (stat_Status statRes)) "gateway" in
                        ret (download_status
                               (NewInternal err "gateway: error creating container"))
                      else
                        info <- deref (stat_Info statRes) ;;
                        if decide (Type_ info <> RESOURCE_TYPE_REFERENCE) then
                          let err := errors_New ("gateway: expected reference: got:"
                                                   ++ ResourceInfo_String info) in
                          ret (download_status
                                 (NewInternal err "gateway: error creating container"))
                        else
                          r <- checkRef (stat_Info statRes) ;;
                          match r with
                          | inr err =>
                              ret (download_status
                                     (NewInternal err "error creating container"))
                          | inl ri =>
                              (* append child to target *)
                              let target := GoPath.Join [Path ri; shareChild] in
                              initiateFileDownload
                                (mkInitiateFileDownloadRequest (Reference_Path target))
                          end
                  end
                else panic ("gateway: download: unknown path:" ++ p)
        end
  end.

(** **** InitiateFileUpload *)

Definition upload_status (st : Status) : InitiateFileUploadResponse + error :=
  inl (mkInitiateFileUploadResponse st "" [] "").

Definition initiateFileUpload (req : InitiateFileUploadRequest)
  : M S (InitiateFileUploadResponse + error) :=
  r <- find (upload_Ref req) ;;
  match r with
  | inr err =>
      if IsNotFound err
      then ret (upload_status (NewNotFound "storage provider not found"))
      else ret (upload_status (NewInternal err "error finding storage provider"))
  | inl client =>
      r <- remote (ProviderInitiateFileUpload client req)
                  (provider_InitiateFileUpload B client req) ;;
      match r with
      | inr err => ret (inr (errors_Wrap err "gateway: error calling InitiateFileUpload"))
      | inl storageRes =>
          if decide (code (pul_Status storageRes) <> CODE_OK) then
            let err := status_NewErrorFromCode (code (pul_Status storageRes)) "gateway" in
            ret (upload_status (NewInternal err "error initiating upload"))
          else
            let res :=
              mkInitiateFileUploadResponse
                (pul_Status storageRes) (pul_UploadEndpoint storageRes)
                (pul_AvailableChecksums storageRes) "" in
            if pul_Expose storageRes then ret (inl res)
            else
              (* sign the upload location and pass it to the data gateway *)
              match url_Parse B (UploadEndpoint res) with
              | inr err =>
                  ret (upload_status (NewInternal err "wrong format for upload endpoint"))
              | inl u =>
                  let target := URL_String u in
                  t <- sign target ;;
                  match t with
                  | inr err =>
                      ret (upload_status
                             (NewInternal err "error creating signature for download"))
                  | inl token =>
                      ret (inl (mkInitiateFileUploadResponse
                                  (upload_Status res) (DataGatewayEndpoint c)
                                  (AvailableChecksums res) token))
                  end
              end
      end
  end.

Definition InitiateFileUpload (req : InitiateFileUploadRequest)
  : M S (InitiateFileUploadResponse + error) :=
  r <- getPath (upload_Ref req) [] ;;
  match r with
  | inr err => ret (upload_status (NewInternal err "gateway: error gettng path for ref"))
  | inl p =>
      if negb (inSharedFolder p) then initiateFileUpload req
      else
        denied <- lift (or_else (isSharedFolder p) (isShareName p)) ;;
        if denied : bool then
          ret (upload_status (NewInvalidArg "path points to share folder or share name"))
        else
          isChild <- lift (isShareChild p) ;;
          if isChild : bool then
            sh <- lift (splitShare p) ;;
            let shareName := fst sh in
            let shareChild := snd sh in
            r <- stat (mkStatRequest (Reference_Path shareName) []) ;;
            match r with
            | inr err => ret (upload_status (NewInternal err "gateway: error uploading"))
            | inl statRes =>
                if decide (code (stat_Status statRes) <> CODE_OK) then
                  let err := status_NewErrorFromCode (code (stat_Status statRes)) "gateway" in
                  ret (upload_status (NewInternal err "gateway: error uploading"))
                else
                  info <- deref (stat_Info statRes) ;;
                  if decide (Type_ info <> RESOURCE_TYPE_REFERENCE) then
                    let err := errors_New ("gateway: expected reference: got:"
                                             ++ ResourceInfo_String info) in
                    ret (upload_status (NewInternal err "gateway: error uploading"))
                  else
                    r <- checkRef (stat_Info statRes) ;;
                    match r with
                    | inr err =>
                        ret (upload_status (NewInternal err "error creating container"))
                    | inl ri =>
                        (* append child to target *)
                        let target := GoPath.Join [Path ri; shareChild] in
                        initiateFileUpload
                          (mkInitiateFileUploadRequest (Reference_Path target))
                    end
            end
          else panic ("gateway: upload: unknown path:" ++ p)
  end.

(** **** The classification every share-aware operation runs

    [Stat], [ListContainer], [CreateContainer], [Delete] and the two
    transfer operations test the effective path in this order;
    [Returned None] is the case in which they fall through to their
    final panic. *)

Definition classify (p : string) : outcome (option Shape) :=
  if negb (inSharedFolder p) then Returned (Some PlainPath)
  else
    match isSharedFolder p with
    | Panicked msg => Panicked msg
    | Returned true => Returned (Some SharedFolder)
    | Returned false =>
        match isShareName p with
        | Panicked msg => Panicked msg
        | Returned true => Returned (Some ShareName)
        | Returned false =>
            match isShareChild p with
            | Panicked msg => Panicked msg
            | Returned true => Returned (Some ShareChild)
            | Returned false => Returned None
            end
        end
    end.

(** **** GetPath

    The resource id of the request is set. *)

Definition GetPath_rpc (req : GetPathRequest) : M S (GetPathResponse + error) :=
  let ref := Reference_Id (getpath_ResourceId req) in
  r <- stat (mkStatRequest ref []) ;;
  match r with
  | inr err =>
      ret (inr (errors_Wrap err ("gateway: error stating ref:" ++ Reference_String ref)))
  | inl res =>
      if decide (code (stat_Status res) <> CODE_OK)
      then ret (inr (status_NewErrorFromCode (code (stat_Status res)) "gateway"))
      else
        (* res.GetInfo().GetPath() reads through a nil info as the empty path *)
        ret (inl (mkGetPathResponse
                    (stat_Status res)
                    match stat_Info res with Some info => Path info | None => "" end))
  end.

End Svc.

End Gateway.

(** ** The JSON provider authorizer *)

Module Authorizer.

Import Gateway (outcome, Returned, Panicked, nil_dereference).

(** Messages of the OCM provider API. Pointers that the code reads without
    a check are options. *)
Record ServiceType : Set := mkServiceType { type_Name : string; type_Description : string }.

Record ServiceEndpoint : Set := mkServiceEndpoint {
  endpoint_Type : option ServiceType;
  endpoint_Name : string;
  endpoint_Path : string;
  IsMonitored : bool
}.

Record Service : Set := mkService {
  Endpoint : option ServiceEndpoint;
  ApiVersion : string;
  Host : string
}.

Record ProviderInfo : Set := mkProviderInfo {
  Name : string;
  FullName : string;
  Description : string;
  Organization : string;
  Domain : string;
  Homepage : string;
  Email : string;
  Services : list Service
}.

Inductive error : Set :=
| errors_Wrap (cause : error) (msg : string)
| errtypes_NotFound (msg : string)
| errtypes_NotSupported (msg : string)
| external_error (msg : string).

Record config : Set := mkConfig {
  Providers : string;
  VerifyRequestHostname : bool
}.

Definition config_init (c : config) : config :=
  if String.eqb (Providers c) ""
  then mkConfig "/etc/revad/ocm-providers.json" (VerifyRequestHostname c)
  else c.

(** [providerIPs] is a pointer to a [sync.Map] from host names to the
    addresses they resolve to; [None] is the nil pointer. *)
Record authorizer : Type := mkAuthorizer {
  providers : list ProviderInfo;
  providerIPs : option (gmap string (list string));
  conf : config
}.

(** [m.Load(key)] and [m.Store(key, value)] on a [*sync.Map]. *)
Definition Load (m : option (gmap string (list string))) (key : string)
  : outcome (option (list string)) :=
  match m with
  | None => Panicked nil_dereference
  | Some m => Returned (m !! key)
  end.

Definition Store (m : option (gmap string (list string))) (key : string)
           (value : list string) : outcome (option (gmap string (list string))) :=
  match m with
  | None => Panicked nil_dereference
  | Some m => Returned (Some (<[key := value]> m))
  end.

Section New.
(** The configuration map and the libraries that decode it, read the
    providers file and parse it. *)
Context {ConfMap : Type}
        (mapstructure_Decode : ConfMap -> config + error)
        (ioutil_ReadFile : string -> string + error)
        (json_Unmarshal : string -> list ProviderInfo + error).

(** New returns a new authorizer object. *)
Definition New (m : ConfMap) : authorizer + error :=
  match mapstructure_Decode m with
  | inr err => inr (errors_Wrap err "error decoding conf")
  | inl c0 =>
      let c := config_init c0 in
      match ioutil_ReadFile (Providers c) with
      | inr err => inr err
      | inl f =>
          match json_Unmarshal f with
          | inr err => inr err
          | inl providers =>
              inl {| providers := providers; providerIPs := None; conf := c |}
          end
      end
  end.
End New.

Fixpoint getOCMHost_loop (services : list Service) : outcome (string + error) :=
  match services with
  | [] => Returned (inr (errtypes_NotFound "OCM Host"))
  | s :: rest =>
      match Endpoint s with
      | None => Panicked nil_dereference
      | Some e =>
          match endpoint_Type e with
          | None => Panicked nil_dereference
          | Some t =>
              if String.eqb (type_Name t) "OCM" then
                let ocmHost := GoStrings.TrimPrefix (Host s) "https://" in
                let ocmHost := GoStrings.TrimPrefix ocmHost "http://" in
                Returned (inl ocmHost)
              else getOCMHost_loop rest
          end
      end
  end.

Definition getOCMHost (originProvider : ProviderInfo) : outcome (string + error) :=
  getOCMHost_loop (Services originProvider).

(** The loop over the allow-list: the flag is set when a domain matches. *)
Fixpoint domainListed (ps : list ProviderInfo) (domain : string) (authorized : bool) : bool :=
  match ps with
  | [] => authorized
  | p :: rest =>
      domainListed rest domain (if String.eqb (Domain p) domain then true else authorized)
  end.

(** The loop over the resolved addresses. *)
Fixpoint ipListed (ipList : list string) (host : string) (authorized : bool) : bool :=
  match ipList with
  | [] => authorized
  | ip :: rest => ipListed rest host (if String.eqb ip host then true else authorized)
  end.

Section IsProviderAllowed.
(** [net.LookupIP], with the addresses as text. *)
Context (net_LookupIP : string -> list string + error).

(** The result is the returned error ([None] is nil) or a panic, and the
    authorizer with the cache as the call leaves it. *)
Definition IsProviderAllowed (a : authorizer) (provider : ProviderInfo)
  : outcome (option error) * authorizer :=
  let providerAuthorized :=
    if negb (String.eqb (Domain provider) "")
    then domainListed (providers a) (Domain provider) false
    else true in
  if negb providerAuthorized
  then (Returned (Some (errtypes_NotFound (Domain provider))), a)
  else if negb (VerifyRequestHostname (conf a)) then (Returned None, a)
  else if (List.length (Services provider) =? 0)%nat
  then (Returned (Some (errtypes_NotSupported "No IP provided")), a)
  else
    match getOCMHost provider with
    | Panicked msg => (Panicked msg, a)
    | Returned (inr err) =>
        (Returned (Some (errors_Wrap err "json: ocm host not specified for mesh provider")), a)
    | Returned (inl ocmHost) =>
        let check (ipList : list string) (a' : authorizer) :=
          match Services provider with
          | [] => (Panicked "runtime error: index out of range [0] with length 0", a')
          | s0 :: _ =>
              if negb (ipListed ipList (Host s0) false)
              then (Returned (Some (errtypes_NotFound "OCM Host")), a')
              else (Returned None, a')
          end in
        match Load (providerIPs a) ocmHost with
        | Panicked msg => (Panicked msg, a)
        | Returned (Some hostIPs) => check hostIPs a
        | Returned None =>
            match net_LookupIP ocmHost with
            | inr err =>
                (Returned (Some (errors_Wrap err "json: error looking up client IP")), a)
            | inl addr =>
                let ipList := addr in
                match Store (providerIPs a) ocmHost ipList with
                | Panicked msg => (Panicked msg, a)
                | Returned m =>
                    check ipList
                          {| providers := providers a; providerIPs := m; conf := conf a |}
                end
            end
        end
    end.
End IsProviderAllowed.



Definition ListAllProviders (a : authorizer) : list ProviderInfo + error :=
  inl (providers a).

End Authorizer.

(** ** The in-memory invite manager

    [pkg/ocm/invite/manager/memory]: the tokens handed out and, per inviting
    user, the remote users that accepted an invite. The two [sync.Map]s are
    finite maps; the clock reading is an argument, and so is the user that
    [user.ContextMustGetUser] returns. The remote user handed to
    [AcceptInvite] is not nil, so that the lists hold users and no nil
    entry; a nil remote user is outside this model. *)

Module InviteManager.

Import Gateway (outcome, Returned, Panicked, nil_dereference).

Record UserId : Set := mkUserId { Idp : string; OpaqueId : string }.

Record User : Set := mkUser {
  Id : option UserId;
  Username : string;
  Mail : string;
  DisplayName : string
}.

Record Timestamp : Set := mkTimestamp { Seconds : Z; Nanos : Z }.

Record InviteToken : Set := mkInviteToken {
  Token : string;
  token_UserId : option UserId;
  Expiration : option Timestamp;
  Description : string
}.

(** The getters of the generated messages answer on nil receivers. *)
Definition GetOpaqueId (id : option UserId) : string :=
  match id with Some u => OpaqueId u | None => "" end.

Definition GetIdp (id : option UserId) : string :=
  match id with Some u => Idp u | None => "" end.

Definition GetToken (t : option InviteToken) : string :=
  match t with Some t => Token t | None => "" end.

Inductive error : Set :=
| errors_New (msg : string)
| errors_Wrap (cause : error) (msg : string)
| errtypes_NotFound (msg : string)
| external_error (msg : string).

Record config : Set := mkConfig { config_Expiration : string }.

Record manager : Type := mkManager {
  Invites : gmap string InviteToken;
  AcceptedUsers : gmap string (list User);
  Config : config
}.

(** [uint64(x)] of an [int64]. *)
Definition uint64 (x : Z) : Z := (x mod 2 ^ 64)%Z.

Section New.
(** The configuration map, the library that decodes it, and the default of
    the token package. *)
Context {ConfMap : Type}
        (mapstructure_Decode : ConfMap -> config + error)
        (DefaultExpirationTime : string).

Definition config_init (c : config) : config :=
  if String.eqb (config_Expiration c) "" then mkConfig DefaultExpirationTime else c.

(** New returns a new invite manager. *)
Definition New (m : ConfMap) : manager + error :=
  match mapstructure_Decode m with
  | inr err => inr (errors_Wrap err "error creating a new manager")
  | inl c => inl {| Invites := ∅; AcceptedUsers := ∅; Config := config_init c |}
  end.
End New.

Section GenerateToken.
(** [token.CreateToken(expiration, userID)]. *)
Context (token_CreateToken : string -> option UserId -> InviteToken + error).

Definition GenerateToken (m : manager) (ctxUser : User) : (InviteToken + error) * manager :=
  match token_CreateToken (config_Expiration (Config m)) (Id ctxUser) with
  | inr err => (inr (errors_Wrap err "memory: error creating token"), m)
  | inl inviteToken =>
      (inl inviteToken,
       {| Invites := <[Token inviteToken := inviteToken]> (Invites m);
          AcceptedUsers := AcceptedUsers m;
          Config := Config m |})
  end.
End GenerateToken.

(** [now] is [time.Now().Unix()]. *)
Definition getTokenIfValid (m : manager) (now : Z) (token : option InviteToken)
  : outcome (InviteToken + error) :=
  match Invites m !! GetToken token with
  | None => Returned (inr (errors_New "memory: invalid token"))
  | Some inviteToken =>
      match Expiration inviteToken with
      | None => Panicked nil_dereference
      | Some expiration =>
          if (uint64 now >? Seconds expiration)%Z
          then Returned (inr (errors_New "memory: token expired"))
          else Returned (inl inviteToken)
      end
  end.

(** The loop of [AcceptInvite] over the users accepted so far: whether one of
    them has the opaque id and the idp of [remoteUser]. Every round reads
    [remoteUser.Id.OpaqueId]. *)
Fixpoint alreadyAccepted (acceptedUsers : list User) (remoteUser : User) : outcome bool :=
  match acceptedUsers with
  | [] => Returned false
  | acceptedUser :: rest =>
      match Id remoteUser with
      | None => Panicked nil_dereference
      | Some rid =>
          if String.eqb (GetOpaqueId (Id acceptedUser)) (OpaqueId rid)
             && String.eqb (GetIdp (Id acceptedUser)) (Idp rid)
          then Returned true
          else alreadyAccepted rest remoteUser
      end
  end.

Definition AcceptInvite (m : manager) (now : Z) (invite : option InviteToken)
           (remoteUser : User) : outcome (option error) * manager :=
  match getTokenIfValid m now invite with
  | Panicked msg => (Panicked msg, m)
  | Returned (inr err) => (Returned (Some err), m)
  | Returned (inl inviteToken) =>
      let currUser := GetOpaqueId (token_UserId inviteToken) in
      match AcceptedUsers m !! currUser with
      | Some acceptedUsers =>
          match alreadyAccepted acceptedUsers remoteUser with
          | Panicked msg => (Panicked msg, m)
          | Returned true =>
              (Returned (Some (errors_New "memory: user already added to accepted users")), m)
          | Returned false =>
              (Returned None,
               {| Invites := Invites m;
                  AcceptedUsers := <[currUser := acceptedUsers ++ [remoteUser]]> (AcceptedUsers m);
                  Config := Config m |})
          end
      | None =>
          (Returned None,
           {| Invites := Invites m;
              AcceptedUsers := <[currUser := [remoteUser]]> (AcceptedUsers m);
              Config := Config m |})
      end
  end.

(** The loop of [GetRemoteUser]; the final error reads [remoteUserID.OpaqueId]
    as every round does. *)
Fixpoint findRemoteUser (acceptedUsers : list User) (remoteUserID : option UserId)
  : outcome (User + error) :=
  match remoteUserID with
  | None => Panicked nil_dereference
  | Some rid =>
      match acceptedUsers with
      | [] => Returned (inr (errtypes_NotFound (OpaqueId rid)))
      | acceptedUser :: rest =>
          if String.eqb (GetOpaqueId (Id acceptedUser)) (OpaqueId rid)
             && (String.eqb (Idp rid) ""
                 || String.eqb (GetIdp (Id acceptedUser)) (Idp rid))
          then Returned (inl acceptedUser)
          else findRemoteUser rest remoteUserID
      end
  end.

(** [ctxUser] is the user of the request context. *)
Definition GetRemoteUser (m : manager) (ctxUser : User) (remoteUserID : option UserId)
  : outcome (User + error) :=
  let currUser := GetOpaqueId (Id ctxUser) in
  match AcceptedUsers m !! currUser with
  | None =>
      match remoteUserID with
      | None => Panicked nil_dereference
      | Some rid => Returned (inr (errtypes_NotFound (OpaqueId rid)))
      end
  | Some acceptedUsers => findRemoteUser acceptedUsers remoteUserID
  end.

End InviteManager.


(** ** The invite manager that keeps its model in a file

    [pkg/ocm/invite/manager/json]: the same tokens and accepted users, held
    in two maps that [loadOrCreate] allocates and written to a file after
    every change. The messages, users and tokens are those of the manager
    above; [json.Marshal] and [ioutil.WriteFile] are parameters, and the
    file system is a state that [ioutil.WriteFile] changes. *)

Module InviteFile.

Import Gateway (outcome, Returned, Panicked, nil_dereference).
Import InviteManager (UserId(..), User(..), Timestamp(..), InviteToken(..), error(..),
                      Id, Token, token_UserId, Expiration, Seconds,
                      GetOpaqueId, GetToken, uint64, alreadyAccepted, findRemoteUser).

Record inviteModel : Type := mkInviteModel {
  File : string;
  Invites : gmap string InviteToken;
  AcceptedUsers : gmap string (list User)
}.

Record config : Set := mkConfig {
  config_File : string;
  config_Expiration : string
}.

Record manager : Type := mkManager {
  manager_config : config;
  model : inviteModel
}.

Section Files.
Context {FS : Type}
        (json_Marshal : inviteModel -> string + error)
        (ioutil_WriteFile : string -> string -> FS -> option error * FS)
        (token_CreateToken : string -> option UserId -> InviteToken + error).

Definition Save (m : inviteModel) (fs : FS) : option error * FS :=
  match json_Marshal m with
  | inr err => (Some (errors_Wrap err "error encoding invite data to json"), fs)
  | inl data =>
      match ioutil_WriteFile (File m) data fs with
      | (Some err, fs') =>
          (Some (errors_Wrap err ("error writing invite data to file: " ++ File m)), fs')
      | (None, fs') => (None, fs')
      end
  end.

Definition GenerateToken (m : manager) (contexUser : User) (fs : FS)
  : (InviteToken + error) * manager * FS :=
  match token_CreateToken (config_Expiration (manager_config m)) (Id contexUser) with
  | inr err => (inr err, m, fs)
  | inl inviteToken =>
      (* Store token data *)
      let m' :=
        {| manager_config := manager_config m;
           model := {| File := File (model m);
                       Invites :=
                         <[Token inviteToken := inviteToken]> (Invites (model m));
                       AcceptedUsers := AcceptedUsers (model m) |} |} in
      match Save (model m') fs with
      | (Some err, fs') => (inr (errors_Wrap err "error saving model"), m', fs')
      | (None, fs') => (inl inviteToken, m', fs')
      end
  end.

(** [now] is [time.Now().Unix()]. *)
Definition getTokenIfValid (m : manager) (now : Z) (token : option InviteToken)
  : outcome (InviteToken + error) :=
  match Invites (model m) !! GetToken token with
  | None => Returned (inr (errors_New "json: invalid token"))
  | Some inviteToken =>
      match Expiration inviteToken with
      | None => Panicked nil_dereference
      | Some expiration =>
          if (uint64 now >? Seconds expiration)%Z
          then Returned (inr (errors_New "json: token expired"))
          else Returned (inl inviteToken)
      end
  end.

(** A key that the map does not hold reads as the nil slice. *)
Definition accepted_of (m : manager) (userKey : string) : list User :=
  match AcceptedUsers (model m) !! userKey with
  | Some users => users
  | None => []
  end.

Definition AcceptInvite (m : manager) (now : Z) (invite : option InviteToken)
           (remoteUser : User) (fs : FS) : outcome (option error) * manager * FS :=
  match getTokenIfValid m now invite with
  | Panicked msg => (Panicked msg, m, fs)
  | Returned (inr err) => (Returned (Some err), m, fs)
  | Returned (inl inviteToken) =>
      (* Add to the list of accepted users *)
      let userKey := GetOpaqueId (token_UserId inviteToken) in
      match alreadyAccepted (accepted_of m userKey) remoteUser with
      | Panicked msg => (Panicked msg, m, fs)
      | Returned true =>
          (Returned (Some (errors_New "json: user already added to accepted users")), m, fs)
      | Returned false =>
          let m' :=
            {| manager_config := manager_config m;
               model := {| File := File (model m);
                           Invites := Invites (model m);
                           AcceptedUsers :=
                             <[userKey := accepted_of m userKey ++ [remoteUser]]>
                               (AcceptedUsers (model m)) |} |} in
          match Save (model m') fs with
          | (Some err, fs') =>
              (Returned (Some (errors_Wrap err "json: error saving model")), m', fs')
          | (None, fs') => (Returned None, m', fs')
          end
      end
  end.

Definition GetRemoteUser (m : manager) (ctxUser : User)
           (remoteUserID : option UserId) : outcome (User + error) :=
  let userKey := GetOpaqueId (Id ctxUser) in
  findRemoteUser (accepted_of m userKey) remoteUserID.
End Files.

End InviteFile.
(** ** A small deployment for the examples

    One registry, a home provider that holds the share folder with two
    mount points, and two storage providers. The libraries are replaced by
    small stand-ins: a URL parser for the forms [scheme:opaque] and
    [scheme://host/path], and a token codec that writes the key and the
    claims in a self-delimiting text. *)

Module Scenario.

Import Gateway.

Definition cfg : config :=
  {| ShareFolder := "MyShares";
     DataGatewayEndpoint := "https://datagateway.example/data";
     TransferExpires := 3600;
     TransferSharedSecret := "s3cr3t";
     StorageRegistryEndpoint := "registry.example:9142" |}.

(** *** URL parsing: scheme and opaque part *)

Definition is_letter (a : ascii) : bool :=
  let n := nat_of_ascii a in
  ((97 <=? n) && (n <=? 122) || (65 <=? n) && (n <=? 90))%nat.

Definition is_scheme_char (a : ascii) : bool :=
  let n := nat_of_ascii a in
  ((48 <=? n) && (n <=? 57) || (n =? 43) || (n =? 45) || (n =? 46))%nat.

Definition is_control (a : ascii) : bool :=
  let n := nat_of_ascii a in ((n <? 32) || (n =? 127))%nat.

Fixpoint has_control (s : string) : bool :=
  match s with
  | EmptyString => false
  | String a r => is_control a || has_control r
  end.

(** [getScheme]: the scheme and the rest, [None] for a missing scheme
    before a colon. [first] tells whether the byte is the first one. *)
Fixpoint getScheme (first : bool) (raw : string) : option (string * string) :=
  match raw with
  | EmptyString => Some ("", "")
  | String a r =>
      if is_letter a then
        match getScheme false r with
        | Some (EmptyString, _) => Some ("", raw)
        | Some (sch, rest) => Some (String a sch, rest)
        | None => Some ("", raw)
        end
      else if is_scheme_char a then
        if first then Some ("", raw)
        else
          match getScheme false r with
          | Some (EmptyString, _) => Some ("", raw)
          | Some (sch, rest) => Some (String a sch, rest)
          | None => Some ("", raw)
          end
      else if Ascii.eqb a ":"%char then
        if first then None else Some (":", r)
      else Some ("", raw)
  end.

(** The scheme without the colon that closes it. *)
Definition scheme_of (raw : string) : option (string * string) :=
  match getScheme true raw with
  | None => None
  | Some (EmptyString, rest) => Some ("", raw)
  | Some (sch, rest) =>
      Some (String.substring 0 (String.length sch - 1) sch, rest)
  end.

Definition parse_url (raw : string) : URL + error :=
  if has_control raw then inr (external_error "net/url: invalid control character in URL")
  else
    match scheme_of raw with
    | None => inr (external_error "missing protocol scheme")
    | Some (sch, rest) =>
        if negb (GoStrings.HasPrefix rest "/") && negb (String.eqb sch "")
        then inl (mkURL sch rest raw)
        else inl (mkURL sch "" raw)
    end.

(** *** Token codec *)

Fixpoint unary (n : nat) : string :=
  match n with
  | O => "."
  | S k => String "1" (unary k)
  end.

Fixpoint read_unary (s : string) : option (nat * string) :=
  match s with
  | String a r =>
      if Ascii.eqb a "1"%char then
        match read_unary r with
        | Some (n, r') => Some (S n, r')
        | None => None
        end
      else if Ascii.eqb a "."%char then Some (O, r)
      else None
  | EmptyString => None
  end.

Definition write_Z (z : Z) : string :=
  (if (z <? 0)%Z then "-" else "+") ++ unary (Z.abs_nat z).

Definition read_Z (s : string) : option (Z * string) :=
  match s with
  | String a r =>
      match read_unary r with
      | Some (n, r') =>
          if Ascii.eqb a "-"%char then Some ((- Z.of_nat n)%Z, r')
          else if Ascii.eqb a "+"%char then Some (Z.of_nat n, r')
          else None
      | None => None
      end
  | EmptyString => None
  end.

Fixpoint split_at (n : nat) (s : string) : option (string * string) :=
  match n with
  | O => Some ("", s)
  | S k =>
      match s with
      | String a r =>
          match split_at k r with
          | Some (x, y) => Some (String a x, y)
          | None => None
          end
      | EmptyString => None
      end
  end.

Definition write_string (s : string) : string := unary (String.length s) ++ s.

Definition read_string (s : string) : option (string * string) :=
  match read_unary s with
  | Some (n, r) => split_at n r
  | None => None
  end.

Definition write_claims (cl : transferClaims) : string :=
  write_Z (ExpiresAt cl) ++ write_Z (IssuedAt cl)
    ++ write_string (Audience cl) ++ write_string (claim_Target cl).

Definition read_claims (s : string) : option transferClaims :=
  match read_Z s with
  | Some (e, s1) =>
      match read_Z s1 with
      | Some (i, s2) =>
          match read_string s2 with
          | Some (aud, s3) =>
              match read_string s3 with
              | Some (tgt, EmptyString) => Some (mkTransferClaims e aud i tgt)
              | _ => None
              end
          | None => None
          end
      | None => None
      end
  | None => None
  end.

Definition sign_token (alg : string) (cl : transferClaims) (key : string) : string + error :=
  if String.eqb alg "HS256" then inl (write_string key ++ write_claims cl)%string
  else inr (external_error "signing method is not available").

(** The verifier of the data gateway: the claims of a token written under
    [key]. *)
Definition verify_token (key tok : string) : option transferClaims :=
  match read_string tok with
  | Some (k, payload) => if String.eqb k key then read_claims payload else None
  | None => None
  end.

(** *** Registry and providers *)

Definition ok : Status := mkStatus CODE_OK "".

Definition info (t : ResourceType) (path target : string) : ResourceInfo :=
  {| Type_ := t; Id := None; Etag := "etag"; MimeType := "httpd/unix-directory";
     Mtime := 0; Path := path; Size := 0; Owner := "einstein"; Target := target |}.

Definition registry (ref : Reference) : GetStorageProviderResponse :=
  match ref with
  | Reference_Path p =>
      if GoStrings.HasPrefix p "/home" then
        mkGetStorageProviderResponse ok (Some (mkProviderInfo "home.example:9000" "/home"))
      else if GoStrings.HasPrefix p "/eos/user/a" then
        mkGetStorageProviderResponse ok (Some (mkProviderInfo "p1.example:9000" "/eos/user/a"))
      else if GoStrings.HasPrefix p "/eos/user/b" then
        mkGetStorageProviderResponse ok (Some (mkProviderInfo "p2.example:9000" "/eos/user/b"))
      else mkGetStorageProviderResponse (mkStatus CODE_NOT_FOUND "") None
  | Reference_Id id =>
      if String.eqb (StorageId id) "abc" then
        mkGetStorageProviderResponse ok (Some (mkProviderInfo "p2.example:9000" "/eos/user/b"))
      else mkGetStorageProviderResponse (mkStatus CODE_NOT_FOUND "") None
  | Reference_unset => mkGetStorageProviderResponse (mkStatus CODE_NOT_FOUND "") None
  end.

Definition photos : ResourceInfo :=
  info RESOURCE_TYPE_REFERENCE "/home/MyShares/photos" "cs3:abc/def".
Definition chain : ResourceInfo :=
  info RESOURCE_TYPE_REFERENCE "/home/MyShares/chain" "cs3:abc/ref".
Definition photos_target : ResourceInfo :=
  info RESOURCE_TYPE_CONTAINER "/eos/user/b/photos" "".
Definition chain_target : ResourceInfo :=
  info RESOURCE_TYPE_REFERENCE "/eos/user/b/ref" "cs3:abc/def".

Definition stat_of (req : StatRequest) : StatResponse :=
  match stat_Ref req with
  | Reference_Path p =>
      if String.eqb p "/home/MyShares"
      then mkStatResponse ok (Some (info RESOURCE_TYPE_CONTAINER "/home/MyShares" ""))
      else if String.eqb p "/home/MyShares/photos" || String.eqb p "/home/MyShares/photos/"
      then mkStatResponse ok (Some photos)
      else if String.eqb p "/home/MyShares/chain"
      then mkStatResponse ok (Some chain)
      else if GoStrings.HasPrefix p "/eos/user/"
      then mkStatResponse ok (Some (info RESOURCE_TYPE_FILE p ""))
      else mkStatResponse (mkStatus CODE_NOT_FOUND "") None
  | Reference_Id id =>
      if String.eqb (OpaqueId id) "def" then mkStatResponse ok (Some photos_target)
      else if String.eqb (OpaqueId id) "ref" then mkStatResponse ok (Some chain_target)
      else mkStatResponse (mkStatus CODE_NOT_FOUND "") None
  | Reference_unset => mkStatResponse (mkStatus CODE_NOT_FOUND "") None
  end.

Definition list_of (req : ListContainerRequest) : ListContainerResponse :=
  match list_Ref req with
  | Reference_Path p =>
      if String.eqb p "/home/MyShares" then mkListContainerResponse ok [chain; photos]
      else mkListContainerResponse ok []
  | _ => mkListContainerResponse (mkStatus CODE_NOT_FOUND "") []
  end.

Definition download_of (req : InitiateFileDownloadRequest)
  : ProviderInitiateFileDownloadResponse :=
  match download_Ref req with
  | Reference_Path p =>
      if String.eqb p "/eos/user/a/public"
      then mkProviderInitiateFileDownloadResponse ok "https://data.p1/blob/pub" true
      else if String.eqb p "/eos/user/a/broken"
      then mkProviderInitiateFileDownloadResponse ok ":data.p1/blob" false
      else mkProviderInitiateFileDownloadResponse ok "https://data.p1/blob/xyz" false
  | _ => mkProviderInitiateFileDownloadResponse (mkStatus CODE_NOT_FOUND "") "" false
  end.

Definition upload_of (req : InitiateFileUploadRequest)
  : ProviderInitiateFileUploadResponse :=
  match upload_Ref req with
  | Reference_Path p =>
      if String.eqb p "/eos/user/a/public"
      then mkProviderInitiateFileUploadResponse ok "https://data.p1/blob/pub" true ["md5"]
      else if String.eqb p "/eos/user/a/broken"
      then mkProviderInitiateFileUploadResponse ok ":data.p1/blob" false ["md5"]
      else mkProviderInitiateFileUploadResponse ok "https://data.p1/blob/xyz" false ["md5"]
  | _ => mkProviderInitiateFileUploadResponse (mkStatus CODE_NOT_FOUND "") "" false []
  end.

(** The state of the outside is the clock, in nanoseconds; every reading
    advances it by a microsecond. *)
Definition backend : Backend Z :=
  {| pool_GetStorageRegistryClient := fun _ _ => None;
     registry_GetStorageProvider := fun ref s => (inl (registry ref), s);
     pool_GetStorageProviderServiceClient := fun _ _ => None;
     provider_Stat := fun _ req s => (inl (stat_of req), s);
     provider_ListContainer := fun _ req s => (inl (list_of req), s);
     provider_CreateContainer := fun _ _ s => (inl (mkCreateContainerResponse ok), s);
     provider_Delete := fun _ _ s => (inl (mkDeleteResponse ok), s);
     provider_Move := fun _ _ s => (inl (mkMoveResponse ok), s);
     provider_InitiateFileDownload := fun _ req s => (inl (download_of req), s);
     provider_InitiateFileUpload := fun _ req s => (inl (upload_of req), s);
     time_Now := fun s => (s, (s + 1000)%Z);
     url_Parse := parse_url;
     jwt_SignedString := sign_token |}.

(** The world at [t] nanoseconds, before any remote call. *)
Definition world_at (t : Z) : World Z := mkWorld t [].

Definition stat_of_path (p : string) : StatRequest := mkStatRequest (Reference_Path p) [].

Definition move_across : MoveRequest :=
  mkMoveRequest (Reference_Path "/eos/user/a/f") (Reference_Path "/eos/user/b/f").

Definition download_of_path (p : string) : InitiateFileDownloadRequest :=
  mkInitiateFileDownloadRequest (Reference_Path p).

End Scenario.

(** ** An authorizer for the examples

    The configuration map holds the one option [verify_request_hostname];
    the providers file lists one provider. *)

Module AuthScenario.

Import Authorizer.

Definition ocm_service (host : string) : Service :=
  {| Endpoint := Some (mkServiceEndpoint (Some (mkServiceType "OCM" "Open Cloud Mesh"))
                                         "ocm" "/ocm" true);
     ApiVersion := "0.0.1";
     Host := host |}.

Definition webdav_service (host : string) : Service :=
  {| Endpoint := Some (mkServiceEndpoint (Some (mkServiceType "Webdav" "Webdav"))
                                         "webdav" "/remote.php/webdav" true);
     ApiVersion := "0.0.1";
     Host := host |}.

Definition provider_of (domain : string) (services : list Service) : ProviderInfo :=
  {| Name := "cernbox"; FullName := "CERNBox"; Description := "";
     Organization := "CERN"; Domain := domain; Homepage := ""; Email := "";
     Services := services |}.

Definition cernbox : ProviderInfo :=
  provider_of "cernbox.cern.ch" [ocm_service "https://cernbox.cern.ch"].

(** A provider with an empty domain and no OCM service. *)
Definition webdav_only : ProviderInfo :=
  provider_of "" [webdav_service "https://files.example.org"].

Definition decode (verify : bool) : config + error := inl (mkConfig "" verify).

Definition read_file (path : string) : string + error :=
  if String.eqb path "/etc/revad/ocm-providers.json" then inl "[cernbox]"
  else inr (external_error "no such file or directory").

Definition unmarshal (f : string) : list ProviderInfo + error := inl [cernbox].

Definition lookup (host : string) : list string + error := inl ["188.184.0.1"].

Definition built (verify : bool) : authorizer :=
  {| providers := [cernbox]; providerIPs := None;
     conf := mkConfig "/etc/revad/ocm-providers.json" verify |}.

End AuthScenario.

(** ** A deployment whose references all resolve

    The deployment above with one mount point, [photos], in the share
    folder, a file below its target, and a home provider that also holds a
    plain folder where a mount point is expected. *)

Module Resolving.

Import Gateway Scenario.

Definition beach : ResourceInfo :=
  info RESOURCE_TYPE_FILE "/eos/user/b/photos/beach.png" "".

(** A folder of the share folder that is no reference. *)
Definition notes : ResourceInfo :=
  info RESOURCE_TYPE_CONTAINER "/home/MyShares/notes" "".

Definition stat_of (req : StatRequest) : StatResponse :=
  match stat_Ref req with
  | Reference_Path p =>
      if String.eqb p "/home/MyShares/notes" then mkStatResponse ok (Some notes)
      else if String.eqb p "/home/MyShares/photos/beach.png"
      then mkStatResponse ok (Some (info RESOURCE_TYPE_FILE p ""))
      else Scenario.stat_of req
  | _ => Scenario.stat_of req
  end.

Definition list_of (req : ListContainerRequest) : ListContainerResponse :=
  match list_Ref req with
  | Reference_Path p =>
      if String.eqb p "/home/MyShares" then mkListContainerResponse ok [photos]
      else if String.eqb p "/eos/user/b/photos" then mkListContainerResponse ok [beach]
      else mkListContainerResponse ok []
  | _ => mkListContainerResponse (mkStatus CODE_NOT_FOUND "") []
  end.

Definition backend : Backend Z :=
  {| pool_GetStorageRegistryClient := pool_GetStorageRegistryClient Scenario.backend;
     registry_GetStorageProvider := registry_GetStorageProvider Scenario.backend;
     pool_GetStorageProviderServiceClient :=
       pool_GetStorageProviderServiceClient Scenario.backend;
     provider_Stat := fun _ req s => (inl (stat_of req), s);
     provider_ListContainer := fun _ req s => (inl (list_of req), s);
     provider_CreateContainer := provider_CreateContainer Scenario.backend;
     provider_Delete := provider_Delete Scenario.backend;
     provider_Move := provider_Move Scenario.backend;
     provider_InitiateFileDownload := provider_InitiateFileDownload Scenario.backend;
     provider_InitiateFileUpload := provider_InitiateFileUpload Scenario.backend;
     time_Now := time_Now Scenario.backend;
     url_Parse := url_Parse Scenario.backend;
     jwt_SignedString := jwt_SignedString Scenario.backend |}.

Definition list_of_path (p : string) : ListContainerRequest :=
  mkListContainerRequest (Reference_Path p) [].

Definition move_of_paths (src dst : string) : MoveRequest :=
  mkMoveRequest (Reference_Path src) (Reference_Path dst).

(** The calls of a stat of the path [p] that the provider at [address]
    answers, and of a stat of the id [abc/def]. *)
Definition stat_calls_of (address p : string) : list Call :=
  [RegistryGetStorageProvider (Reference_Path p);
   ProviderStat address (mkStatRequest (Reference_Path p) [])].

Definition resolve_calls : list Call :=
  [RegistryGetStorageProvider (Reference_Id (mkResourceId "abc" "def"));
   ProviderStat "p2.example:9000"
     (mkStatRequest (Reference_Id (mkResourceId "abc" "def")) [])].

End Resolving.

(** ** A provider as a request presents it *)

Module RequestScenario.

Import Authorizer AuthScenario.

(** The first service carries the address of the client, the OCM service
    the host name. *)
Definition client : ProviderInfo :=
  provider_of "cernbox.cern.ch"
              [webdav_service "188.184.0.1"; ocm_service "https://cernbox.cern.ch"].

End RequestScenario.

(** ** Invites for the examples *)

Module InviteScenario.

Import InviteManager.

Definition alice : User :=
  mkUser (Some (mkUserId "cern.ch" "alice")) "alice" "alice@cern.ch" "Alice".

Definition bob : User :=
  mkUser (Some (mkUserId "example.org" "bob")) "bob" "bob@example.org" "Bob".

(** A token of [alice] that expires at second 2000. *)
Definition tok1 : InviteToken :=
  mkInviteToken "tok1" (Id alice) (Some (mkTimestamp 2000 0)) "".

Definition create_token (expiration : string) (id : option UserId) : InviteToken + error :=
  inl (mkInviteToken "tok1" id (Some (mkTimestamp 2000 0)) "").

Definition empty : manager :=
  {| Invites := ∅; AcceptedUsers := ∅; Config := mkConfig "24h" |}.

(** The manager after [alice] has generated her token. *)
Definition invited : manager :=
  {| Invites := {[ "tok1" := tok1 ]}; AcceptedUsers := ∅; Config := mkConfig "24h" |}.

(** The manager after [bob] has accepted it. *)
Definition accepted : manager :=
  {| Invites := {[ "tok1" := tok1 ]};
     AcceptedUsers := <[ "alice" := [bob] ]> ∅;
     Config := mkConfig "24h" |}.

Definition carol : User :=
  mkUser (Some (mkUserId "example.org" "carol")) "carol" "carol@example.org" "Carol".

(** The manager after [carol] has accepted it too. *)
Definition accepted_two : manager :=
  {| Invites := {[ "tok1" := tok1 ]};
     AcceptedUsers := <[ "alice" := [bob; carol] ]> (<[ "alice" := [bob] ]> ∅);
     Config := mkConfig "24h" |}.

End InviteScenario.

(** ** An invite file on a full disk *)

Module InviteFileScenario.

Import InviteManager (error(..)).
Import InviteFile InviteScenario.




Definition invited : manager :=
  {| manager_config := mkConfig "/var/tmp/reva/ocm-invites.json" "24h";
     model := {| File := "/var/tmp/reva/ocm-invites.json";
                 Invites := {[ "tok1" := tok1 ]};
                 AcceptedUsers := ∅ |} |}.

(** The manager after [bob] has been appended. *)
Definition accepted : manager :=
  {| manager_config := mkConfig "/var/tmp/reva/ocm-invites.json" "24h";
     model := {| File := "/var/tmp/reva/ocm-invites.json";
                 Invites := {[ "tok1" := tok1 ]};
                 AcceptedUsers := <[ "alice" := [bob] ]> ∅ |} |}.

End InviteFileScenario.

(** * Properties of the gateway *)

Section MonadFacts.
Import Gateway.
Context {S : Type}.

Lemma bind_Returned {A B} (m : M S A) (k : A -> M S B) w a w' :
  m w = (Returned a, w') -> bind m k w = k a w'.
Proof. intros H. unfold bind. now rewrite H. Qed.

Lemma bind_Panicked {A B} (m : M S A) (k : A -> M S B) w msg w' :
  m w = (Panicked msg, w') -> bind m k w = (Panicked msg, w').
Proof. intros H. unfold bind. now rewrite H. Qed.

Lemma lift_run {A} (o : outcome A) (w : World S) : lift o w = (o, w).
Proof. reflexivity. Qed.

Lemma bind_ret {A B} (a : A) (k : A -> M S B) (w : World S) : bind (ret a) k w = k a w.
Proof. reflexivity. Qed.
End MonadFacts.

(** ** Path classification *)

Section Classification.
Import Gateway.
Variable c : config.



Lemma classify_Plain p :
  classify c p = Returned (Some PlainPath) <-> inSharedFolder c p = false.
Proof.
  unfold classify. destruct (inSharedFolder c p); cbn [negb]; split; try easy.
  destruct (isSharedFolder c p) as [[|]|]; try discriminate.
  destruct (isShareName c p) as [[|]|]; try discriminate.
  destruct (isShareChild c p) as [[|]|]; discriminate.
Qed.

Lemma classify_SharedFolder p :
  classify c p = Returned (Some SharedFolder) <->
  inSharedFolder c p = true /\ isSharedFolder c p = Returned true.
Proof.
  unfold classify. destruct (inSharedFolder c p); cbn [negb].
  - destruct (isSharedFolder c p) as [[|]|]; [easy| |split; [discriminate|easy]].
    destruct (isShareName c p) as [[|]|]; [split; [discriminate|easy]| |split; [discriminate|easy]].
    destruct (isShareChild c p) as [[|]|]; split; try discriminate; easy.
  - split; [discriminate|easy].
Qed.

Lemma classify_ShareName p :
  classify c p = Returned (Some ShareName) <->
  inSharedFolder c p = true /\ isSharedFolder c p = Returned false /\
  isShareName c p = Returned true.
Proof.
  unfold classify. destruct (inSharedFolder c p); cbn [negb].
  - destruct (isSharedFolder c p) as [[|]|]; try (split; [discriminate|intros (_ & ? & _); discriminate]).
    destruct (isShareName c p) as [[|]|]; [easy| |split; [discriminate|intros (_ & _ & ?); discriminate]].
    destruct (isShareChild c p) as [[|]|]; (split; [discriminate|intros (_ & _ & ?); discriminate]).
  - split; [discriminate|intros (? & _); discriminate].
Qed.

Lemma classify_ShareChild p :
  classify c p = Returned (Some ShareChild) <->
  inSharedFolder c p = true /\ isSharedFolder c p = Returned false /\
  isShareName c p = Returned false /\ isShareChild c p = Returned true.
Proof.
  unfold classify. destruct (inSharedFolder c p); cbn [negb].
  - destruct (isSharedFolder c p) as [[|]|];
      try (split; [discriminate|intros (_ & ? & _); discriminate]).
    destruct (isShareName c p) as [[|]|];
      try (split; [discriminate|intros (_ & _ & ? & _); discriminate]).
    destruct (isShareChild c p) as [[|]|]; [easy| |];
      (split; [discriminate|intros (_ & _ & _ & ?); discriminate]).
  - split; [discriminate|intros (? & _); discriminate].
Qed.

Lemma classify_None p :
  classify c p = Returned None <->
  inSharedFolder c p = true /\ isSharedFolder c p = Returned false /\
  isShareName c p = Returned false /\ isShareChild c p = Returned false.
Proof.
  unfold classify. destruct (inSharedFolder c p); cbn [negb].
  - destruct (isSharedFolder c p) as [[|]|];
      try (split; [discriminate|intros (_ & ? & _); discriminate]).
    destruct (isShareName c p) as [[|]|];
      try (split; [discriminate|intros (_ & _ & ? & _); discriminate]).
    destruct (isShareChild c p) as [[|]|]; [| easy |];
      (split; [discriminate|intros (_ & _ & _ & ?); discriminate]).
  - split; [discriminate|intros (? & _); discriminate].
Qed.

(** A path with the shared folder as prefix whose second element is not
    the share folder's name has none of the four shapes. *)
Lemma classify_second_element p :
  inSharedFolder c p = true ->
  (2 <= List.length (splitPath p))%nat ->
  nth 1 (splitPath p) "" <> ShareFolder c ->
  classify c p = Returned None.
Proof.
  intros Hin Hlen Hne. apply classify_None. split; [assumption|].
  assert (Hs : forall i, (2 <= i)%nat -> split c p i = Returned false).
  { intros i Hi. unfold split.
    destruct (Nat.ltb_spec i 2); [lia|].
    destruct (Nat.ltb_spec (List.length (splitPath p)) 2) as [Hl|Hl].
    - lia.
    - apply String.eqb_neq in Hne. now rewrite Hne. }
  unfold isSharedFolder, isShareName, isShareChild.
  repeat split; apply Hs; lia.
Qed.

(** The shared folder begins with a slash, so a path inside it is not
    empty. *)
Lemma inSharedFolder_nonempty p : inSharedFolder c p = true -> p <> "".
Proof.
  unfold inSharedFolder, getSharedFolder, GoStrings.HasPrefix.
  intros H ->. cbn in H. discriminate.
Qed.
End Classification.

(** ** Paths of the shared folder that have no shape, and rejected operations *)

Section ShareAware.
Import Gateway.
Context {S : Type} (B : Backend S) (c : config).

(** Running an operation up to the point where the shape is known. *)
Ltac enter op H :=
  unfold op; rewrite (bind_Returned _ _ _ _ _ H); cbn beta iota.
Ltac decided H := rewrite H; cbn [negb andb orb and_then or_else].
Ltac lifted H :=
  unfold bind at 1; rewrite lift_run; decided H; cbn beta iota.


(** C2, as the code has it: on the share folder and on a share name,
    [CreateContainer], [InitiateFileUpload] and [InitiateFileDownload]
    answer with an invalid-argument status and make no remote call after
    the effective path is known ([InitiateFileDownload] stats the reference
    first and rejects when that stat is OK). *)
Theorem share_folder_or_name_rejected (p : string) :
  classify c p = Returned (Some SharedFolder) \/
  classify c p = Returned (Some ShareName) ->
  let rejected :=
    mkStatus CODE_INVALID_ARGUMENT "path points to share folder or share name" in
  (forall req w w1,
      getPath B c (create_Ref req) [] w = (Returned (inl p), w1) ->
      CreateContainer B c req w
      = (Returned (inl (mkCreateContainerResponse rejected)), w1)) /\
  (forall req w w1,
      getPath B c (upload_Ref req) [] w = (Returned (inl p), w1) ->
      InitiateFileUpload B c req w
      = (Returned (inl (mkInitiateFileUploadResponse rejected "" [] "")), w1)) /\
  (forall req statRes w w1 w2,
      stat B c (mkStatRequest (download_Ref req) []) w = (Returned (inl statRes), w1) ->
      code (stat_Status statRes) = CODE_OK ->
      getPath B c (download_Ref req) [] w1 = (Returned (inl p), w2) ->
      InitiateFileDownload B c req w
      = (Returned (inl (mkInitiateFileDownloadResponse rejected "" "")), w2)).
Proof.
  intros Hc rejected.
  assert (Hin : inSharedFolder c p = true).
  { destruct Hc as [Hc|Hc];
      [apply classify_SharedFolder in Hc|apply classify_ShareName in Hc]; tauto. }
  assert (Hor : or_else (isSharedFolder c p) (isShareName c p) = Returned true).
  { destruct Hc as [Hc|Hc].
    - apply classify_SharedFolder in Hc. destruct Hc as (_ & ->). reflexivity.
    - apply classify_ShareName in Hc. destruct Hc as (_ & -> & ->). reflexivity. }
  repeat split.
  - intros req w w1 Hp. enter @CreateContainer Hp. decided Hin.
    unfold bind at 1. rewrite lift_run, Hor. reflexivity.
  - intros req w w1 Hp. enter @InitiateFileUpload Hp. decided Hin.
    unfold bind at 1. rewrite lift_run, Hor. reflexivity.
  - intros req statRes w w1 w2 Hs Hok Hp. enter @InitiateFileDownload Hs.
    destruct (decide (code (stat_Status statRes) <> CODE_OK)) as [Hne|_]; [contradiction|].
    rewrite (bind_Returned _ _ _ _ _ Hp). cbn beta iota. decided Hin.
    unfold bind at 1. rewrite lift_run, Hor. reflexivity.
Qed.
End ShareAware.

(** ** Reference resolution *)

Section References.
Import Gateway.
Context {S : Type} (B : Backend S) (c : config).

(** The remote calls of [findProvider] and [stat]: one registry lookup at
    most, and one [Stat] on a provider at most. *)
Lemma findProvider_calls ref w o w' :
  findProvider B c ref w = (o, w') ->
  calls w' = calls w \/ calls w' = calls w ++ [RegistryGetStorageProvider ref].
Proof.
  unfold findProvider, bind, query, remote, ret.
  destruct (pool_GetStorageRegistryClient B (StorageRegistryEndpoint c) (outside w)).
  - intros [= <- <-]. now left.
  - destruct (registry_GetStorageProvider B ref (outside w)) as [[res|err] s'].
    + cbn [calls outside].
      destruct (decide (code (gsp_Status res) <> CODE_OK)).
      * destruct (decide (code (gsp_Status res) = CODE_NOT_FOUND));
          intros [= <- <-]; now right.
      * destruct (Provider res); intros [= <- <-]; now right.
    + intros [= <- <-]. now right.
Qed.

Lemma findProvider_success ref w p w' :
  findProvider B c ref w = (Returned (inl p), w') ->
  calls w' = calls w ++ [RegistryGetStorageProvider ref].
Proof.
  unfold findProvider, bind, query, remote, ret.
  destruct (pool_GetStorageRegistryClient B (StorageRegistryEndpoint c) (outside w)).
  - intros [=].
  - destruct (registry_GetStorageProvider B ref (outside w)) as [[res|err] s'].
    + cbn [calls outside].
      destruct (decide (code (gsp_Status res) <> CODE_OK)).
      * destruct (decide (code (gsp_Status res) = CODE_NOT_FOUND)); intros [=].
      * destruct (Provider res); intros [= <- <-]; reflexivity.
    + intros [=].
Qed.

Lemma find_calls ref w o w' :
  find B c ref w = (o, w') ->
  calls w' = calls w \/ calls w' = calls w ++ [RegistryGetStorageProvider ref].
Proof.
  unfold find, bind.
  destruct (findProvider B c ref w) as [[[p|err]|msg] w1] eqn:E;
    apply findProvider_calls in E.
  - unfold getStorageProviderClient, bind, query, ret.
    destruct (pool_GetStorageProviderServiceClient B (Address p) (outside w1));
      intros [= <- <-]; exact E.
  - intros [= <- <-]. exact E.
  - intros [= <- <-]. exact E.
Qed.

Lemma stat_calls req w o w' :
  stat B c req w = (o, w') ->
  exists l, calls w' = calls w ++ l /\
            (List.length (List.filter is_provider_stat l) <= 1)%nat /\
            (List.length (List.filter is_registry_call l) <= 1)%nat /\
            (List.length l <= 2)%nat.
Proof.
  unfold stat, bind.
  destruct (find B c (stat_Ref req) w) as [[[client|err]|msg] w1] eqn:E;
    apply find_calls in E.
  - unfold remote.
    destruct (provider_Stat B client req (outside w1)) as [r s'].
    intros [= <- <-]. cbn [calls].
    destruct E as [-> | ->].
    + exists [ProviderStat client req]. cbn. repeat split; lia.
    + exists [RegistryGetStorageProvider (stat_Ref req); ProviderStat client req].
      rewrite <- app_assoc. cbn. repeat split; lia.
  - destruct (IsNotFound err); intros [= <- <-];
      (destruct E as [-> | ->];
       [exists []; rewrite app_nil_r; cbn; repeat split; lia
       |exists [RegistryGetStorageProvider (stat_Ref req)]; cbn; repeat split; lia]).
  - intros [= <- <-].
    destruct E as [-> | ->];
      [exists []; rewrite app_nil_r; cbn; repeat split; lia
      |exists [RegistryGetStorageProvider (stat_Ref req)]; cbn; repeat split; lia].
Qed.

(** A cs3 reference whose target is itself a reference: [handleCS3Ref]
    fails after its single [stat], in the world that [stat] leaves. *)
Lemma handleCS3Ref_chain opaque sid oid w res info w1 :
  GoStrings.SplitN opaque "/"%char 2 = [sid; oid] ->
  stat B c (mkStatRequest (Reference_Id (mkResourceId sid oid)) []) w
  = (Returned (inl res), w1) ->
  code (stat_Status res) = CODE_OK ->
  stat_Info res = Some info ->
  Type_ info = RESOURCE_TYPE_REFERENCE ->
  handleCS3Ref B c opaque w
  = (Returned (inr (errors_New
                      "gateway: error the target of a reference cannot be another reference")),
     w1).
Proof.
  intros Hparts Hstat Hok Hinfo Hty. unfold handleCS3Ref.
  rewrite Hparts. cbn [List.length Nat.ltb Nat.leb nth].
  rewrite (bind_Returned _ _ _ _ _ Hstat). cbn beta iota.
  destruct (decide (code (stat_Status res) <> CODE_OK)); [contradiction|].
  rewrite Hinfo. cbn [deref]. rewrite bind_ret.
  destruct (decide (Type_ info = RESOURCE_TYPE_REFERENCE)); [reflexivity|contradiction].
Qed.

Lemma checkRef_chain ri uri sid oid w res info w1 :
  Type_ ri = RESOURCE_TYPE_REFERENCE ->
  Target ri <> "" ->
  url_Parse B (Target ri) = inl uri ->
  Scheme uri = "cs3" ->
  GoStrings.SplitN (Opaque uri) "/"%char 2 = [sid; oid] ->
  stat B c (mkStatRequest (Reference_Id (mkResourceId sid oid)) []) w
  = (Returned (inl res), w1) ->
  code (stat_Status res) = CODE_OK ->
  stat_Info res = Some info ->
  Type_ info = RESOURCE_TYPE_REFERENCE ->
  exists err, checkRef B c (Some ri) w = (Returned (inr err), w1).
Proof.
  intros Hty Htgt Hurl Hsch Hparts Hstat Hok Hinfo Hity.
  unfold checkRef. cbn [deref]. rewrite bind_ret.
  destruct (decide (Type_ ri <> RESOURCE_TYPE_REFERENCE)); [contradiction|].
  apply String.eqb_neq in Htgt. rewrite Htgt.
  unfold handleRef. rewrite Hurl, Hsch. cbn [String.eqb Ascii.eqb Bool.eqb].
  rewrite (bind_Returned _ _ _ _ _
             (handleCS3Ref_chain _ _ _ _ _ _ _ Hparts Hstat Hok Hinfo Hity)).
  cbn beta iota. eexists. reflexivity.
Qed.

(** [checkRef] returns (a resource or an error) on references only. *)
Lemma checkRef_returned ri w r w' :
  checkRef B c (Some ri) w = (Returned r, w') ->
  Type_ ri = RESOURCE_TYPE_REFERENCE.
Proof.
  unfold checkRef. cbn [deref]. rewrite bind_ret.
  destruct (decide (Type_ ri <> RESOURCE_TYPE_REFERENCE)) as [|Hn].
  - intros [=].
  - intros _. destruct (decide (Type_ ri = RESOURCE_TYPE_REFERENCE)); [assumption|contradiction].
Qed.

(** The callers of [checkRef] other than the listing of the shared folder
    turn its error into an internal status; for [Stat] on a share name: *)
Lemma Stat_share_name_unresolved req p w w1 res info err w2 w3 :
  getPath B c (stat_Ref req) (stat_Keys req) w = (Returned (inl p), w1) ->
  classify c p = Returned (Some ShareName) ->
  stat B c req w1 = (Returned (inl res), w2) ->
  code (stat_Status res) = CODE_OK ->
  stat_Info res = Some info ->
  checkRef B c (Some info) w2 = (Returned (inr err), w3) ->
  Stat B c req w
  = (Returned (inl (mkStatResponse
                      (mkStatus CODE_INTERNAL ("gateway: error resolving reference:" ++ p))
                      None)), w3).
Proof.
  intros Hp Hc Hs Hok Hinfo Hcr.
  apply classify_ShareName in Hc. destruct Hc as (Hin & HF & HN).
  pose proof (checkRef_returned _ _ _ _ Hcr) as Hty.
  unfold Stat. rewrite (bind_Returned _ _ _ _ _ Hp). cbn beta iota.
  rewrite Hin. cbn [negb].
  unfold bind at 1. rewrite lift_run, HF. cbn beta iota.
  unfold bind at 1. rewrite lift_run, HN. cbn beta iota.
  rewrite (bind_Returned _ _ _ _ _ Hs). cbn beta iota.
  destruct (decide (code (stat_Status res) <> CODE_OK)); [contradiction|].
  rewrite Hinfo. cbn [deref]. rewrite bind_ret.
  destruct (decide (Type_ info <> RESOURCE_TYPE_REFERENCE)); [contradiction|].
  rewrite (bind_Returned _ _ _ _ _ Hcr). reflexivity.
Qed.

(** In the listing of the shared folder a child that does not resolve makes
    the loop read [info.Path] through the nil [info]. *)
Lemma resolveSharedFolderChildren_unresolved p ref rest w err w1 :
  checkRef B c (Some ref) w = (Returned (inr err), w1) ->
  resolveSharedFolderChildren B c p (ref :: rest) w = (Panicked nil_dereference, w1).
Proof.
  intros Hcr. cbn [resolveSharedFolderChildren].
  rewrite (bind_Returned _ _ _ _ _ Hcr). reflexivity.
Qed.

Lemma ListContainer_shared_folder_unresolved req p w w1 lcr w2 ref rest err w3 :
  getPath B c (list_Ref req) (list_Keys req) w = (Returned (inl p), w1) ->
  classify c p = Returned (Some SharedFolder) ->
  listContainer B c req w1 = (Returned (inl lcr), w2) ->
  list_Infos lcr = ref :: rest ->
  checkRef B c (Some ref) w2 = (Returned (inr err), w3) ->
  ListContainer B c req w = (Panicked nil_dereference, w3).
Proof.
  intros Hp Hc Hl Hinfos Hcr.
  apply classify_SharedFolder in Hc. destruct Hc as (Hin & HF).
  unfold ListContainer. rewrite (bind_Returned _ _ _ _ _ Hp). cbn beta iota.
  rewrite Hin. cbn [negb].
  unfold bind at 1. rewrite lift_run, HF. cbn beta iota.
  rewrite (bind_Returned _ _ _ _ _ Hl). cbn beta iota.
  rewrite Hinfos.
  rewrite (bind_Panicked _ _ _ _ _
             (resolveSharedFolderChildren_unresolved p ref rest w2 err w3 Hcr)).
  reflexivity.
Qed.

(** C1, as the code has it: [Stat] on a share name whose reference
    resolves returns the resolved target with its path replaced by the path
    that the provider reported for the reference itself; every other field
    is the target's. *)
Theorem Stat_share_name req p w w1 res info ri w2 w3 :
  getPath B c (stat_Ref req) (stat_Keys req) w = (Returned (inl p), w1) ->
  classify c p = Returned (Some ShareName) ->
  stat B c req w1 = (Returned (inl res), w2) ->
  code (stat_Status res) = CODE_OK ->
  stat_Info res = Some info ->
  checkRef B c (Some info) w2 = (Returned (inl ri), w3) ->
  exists out,
    Stat B c req w = (Returned (inl (mkStatResponse (stat_Status res) (Some out))), w3) /\
    Path out = Path info /\
    Type_ out = Type_ ri /\ Id out = Id ri /\ Etag out = Etag ri /\
    MimeType out = MimeType ri /\ Mtime out = Mtime ri /\ Size out = Size ri /\
    Owner out = Owner ri /\ Target out = Target ri.
Proof.
  intros Hp Hc Hs Hok Hinfo Hcr.
  apply classify_ShareName in Hc. destruct Hc as (Hin & HF & HN).
  pose proof (checkRef_returned _ _ _ _ Hcr) as Hty.
  exists (set_Path ri (Path info)). split; [|cbn; tauto].
  unfold Stat. rewrite (bind_Returned _ _ _ _ _ Hp). cbn beta iota.
  rewrite Hin. cbn [negb].
  unfold bind at 1. rewrite lift_run, HF. cbn beta iota.
  unfold bind at 1. rewrite lift_run, HN. cbn beta iota.
  rewrite (bind_Returned _ _ _ _ _ Hs). cbn beta iota.
  destruct (decide (code (stat_Status res) <> CODE_OK)); [contradiction|].
  rewrite Hinfo. cbn [deref]. rewrite bind_ret.
  destruct (decide (Type_ info <> RESOURCE_TYPE_REFERENCE)); [contradiction|].
  rewrite (bind_Returned _ _ _ _ _ Hcr). reflexivity.
Qed.
End References.

(** ** Moves across providers *)

Section Moves.
Import Gateway.
Context {S : Type} (B : Backend S) (c : config).

Lemma getPath_of_path p keys (w : World S) :
  p <> "" -> getPath B c (Reference_Path p) keys w = (Returned (inl p), w).
Proof.
  intros Hp. unfold getPath. cbn [GetPath].
  apply String.eqb_neq in Hp. rewrite Hp. reflexivity.
Qed.

(** C6, as the code has it: when the providers of source and destination
    have different addresses, [move] answers unimplemented with the message
    "gateway: cross storage copy not yet implemented"; its only remote
    calls are the two registry lookups, so no provider is asked to move.
    [Move] on two plain paths is [move]. *)
Theorem move_across_providers req w srcP w1 dstP w2 :
  findProvider B c (Source req) w = (Returned (inl srcP), w1) ->
  findProvider B c (Destination req) w1 = (Returned (inl dstP), w2) ->
  Address srcP <> Address dstP ->
  move B c req w
  = (Returned (inl (mkMoveResponse
                      (mkStatus CODE_UNIMPLEMENTED
                                "gateway: cross storage copy not yet implemented"))), w2) /\
  calls w2 = calls w ++ [RegistryGetStorageProvider (Source req);
                         RegistryGetStorageProvider (Destination req)] /\
  (forall p dp,
      Source req = Reference_Path p -> Destination req = Reference_Path dp ->
      p <> "" -> dp <> "" ->
      inSharedFolder c p = false -> inSharedFolder c dp = false ->
      Move B c req w = move B c req w).
Proof.
  intros Hsrc Hdst Hne. repeat split.
  - unfold move. rewrite (bind_Returned _ _ _ _ _ Hsrc). cbn beta iota.
    rewrite (bind_Returned _ _ _ _ _ Hdst). cbn beta iota.
    apply String.eqb_neq in Hne. rewrite Hne. reflexivity.
  - apply findProvider_success in Hsrc, Hdst. rewrite Hdst, Hsrc.
    now rewrite <- app_assoc.
  - intros p dp Hs Hd Hp Hdp Hin Hdin. unfold Move.
    rewrite Hs, Hd.
    rewrite (bind_Returned _ _ _ _ _ (getPath_of_path p [] w Hp)). cbn beta iota.
    rewrite (bind_Returned _ _ _ _ _ (getPath_of_path dp [] w Hdp)). cbn beta iota.
    rewrite Hin, Hdin. reflexivity.
Qed.
End Moves.

(** ** Transfer tokens and the data-plane handoff *)

Section Transfers.
Import Gateway.
Context {S : Type} (B : Backend S) (c : config).

Lemma wrap64_small z : (- 2 ^ 63 <= z < 2 ^ 63)%Z -> wrap64 z = z.
Proof.
  intros H. unfold wrap64. rewrite Z.mod_small; lia.
Qed.

Lemma expiry_seconds now ttl :
  (- 2 ^ 63 <= ttl * Second < 2 ^ 63)%Z ->
  time_Unix (time_Add now (wrap64 (ttl * Second))) = (time_Unix now + ttl)%Z.
Proof.
  intros H. rewrite wrap64_small by assumption.
  unfold time_Unix, time_Add, Second. now rewrite Z.div_add by lia.
Qed.

(** [sign] reads the clock twice and hands the claims to the library. *)
Lemma sign_run target w now1 s1 now2 s2 :
  time_Now B (outside w) = (now1, s1) ->
  time_Now B s1 = (now2, s2) ->
  sign B c target w
  = (Returned
       match jwt_SignedString B "HS256"
               {| ExpiresAt := time_Unix (time_Add now1 (wrap64 (TransferExpires c * Second)));
                  Audience := "reva";
                  IssuedAt := time_Unix now2;
                  claim_Target := target |}
               (TransferSharedSecret c) with
       | inr err => inr (errors_Wrap err "error signing token with claims")
       | inl tkn => inl tkn
       end,
     mkWorld s2 (calls w)).
Proof.
  intros H1 H2. unfold sign, bind, local. rewrite H1. cbn [outside calls].
  rewrite H2. cbn [calls].
  destruct (jwt_SignedString B "HS256" _ (TransferSharedSecret c)); reflexivity.
Qed.

Lemma sign_inv target w tok w' :
  sign B c target w = (Returned (inl tok), w') ->
  exists e i,
    jwt_SignedString B "HS256"
      {| ExpiresAt := e; Audience := "reva"; IssuedAt := i; claim_Target := target |}
      (TransferSharedSecret c) = inl tok.
Proof.
  destruct (time_Now B (outside w)) as [now1 s1] eqn:H1.
  destruct (time_Now B s1) as [now2 s2] eqn:H2.
  rewrite (sign_run target w now1 s1 now2 s2 H1 H2).
  destruct (jwt_SignedString B "HS256" _ (TransferSharedSecret c)) as [tkn|err] eqn:E;
    intros [= <- <-].
  eauto.
Qed.

(** C8, as the code has it: the token is the library's HS256 signature,
    under the shared secret, of the claims target, aud = "reva", exp = the
    seconds of the first clock reading plus the TTL, iat = the seconds of
    the second clock reading; a verifier that inverts the signing decodes
    exactly these claims; exp > iat holds exactly when the TTL exceeds the
    whole seconds between the two readings, and exp = iat + TTL when both
    readings fall in the same second. *)
Theorem sign_claims target w now1 s1 now2 s2 tok
        (verify : string -> string -> option transferClaims) :
  time_Now B (outside w) = (now1, s1) ->
  time_Now B s1 = (now2, s2) ->
  (- 2 ^ 63 <= TransferExpires c * Second < 2 ^ 63)%Z ->
  let claims :=
    {| ExpiresAt := (time_Unix now1 + TransferExpires c)%Z;
       Audience := "reva";
       IssuedAt := time_Unix now2;
       claim_Target := target |} in
  jwt_SignedString B "HS256" claims (TransferSharedSecret c) = inl tok ->
  (forall cl,
      jwt_SignedString B "HS256" cl (TransferSharedSecret c) = inl tok ->
      verify (TransferSharedSecret c) tok = Some cl) ->
  sign B c target w = (Returned (inl tok), mkWorld s2 (calls w)) /\
  verify (TransferSharedSecret c) tok = Some claims /\
  ((ExpiresAt claims > IssuedAt claims)%Z <->
   (time_Unix now2 - time_Unix now1 < TransferExpires c)%Z) /\
  (time_Unix now1 = time_Unix now2 ->
   ExpiresAt claims = (IssuedAt claims + TransferExpires c)%Z).
Proof.
  intros H1 H2 Httl claims Hsig Hver. repeat split.
  - rewrite (sign_run target w now1 s1 now2 s2 H1 H2).
    rewrite expiry_seconds by assumption. fold claims. now rewrite Hsig.
  - apply Hver, Hsig.
  - cbn. lia.
  - cbn. lia.
  - cbn. intros ->. reflexivity.
Qed.
End Transfers.

Section Handoff.
Import Gateway.
Context {S : Type} (B : Backend S) (c : config).

(** C7, as the code has it. Once the provider has answered (for an upload:
    with an OK status): an exposed endpoint is returned as it is, with no
    token; an endpoint that does not parse gives an internal status; an
    endpoint that parses is replaced by the data-gateway endpoint, and the
    token is the signature of claims whose target is the text of the parsed
    URL, so a verifier that inverts the signing decodes that target. *)
Theorem transfer_handoff :
  (forall req client storageRes w w1 s2,
      find B c (download_Ref req) w = (Returned (inl client), w1) ->
      provider_InitiateFileDownload B client req (outside w1) = (inl storageRes, s2) ->
      let w2 := mkWorld s2 (calls w1 ++ [ProviderInitiateFileDownload client req]) in
      (pdl_Expose storageRes = true ->
       initiateFileDownload B c req w
       = (Returned (inl (mkInitiateFileDownloadResponse
                           (pdl_Status storageRes) (pdl_DownloadEndpoint storageRes) "")),
          w2)) /\
      (pdl_Expose storageRes = false ->
       forall err,
         url_Parse B (pdl_DownloadEndpoint storageRes) = inr err ->
         initiateFileDownload B c req w
         = (Returned (inl (mkInitiateFileDownloadResponse
                             (mkStatus CODE_INTERNAL "wrong format for download endpoint")
                             "" "")),
            w2)) /\
      (pdl_Expose storageRes = false ->
       forall u tok w3,
         url_Parse B (pdl_DownloadEndpoint storageRes) = inl u ->
         sign B c (URL_String u) w2 = (Returned (inl tok), w3) ->
         initiateFileDownload B c req w
         = (Returned (inl (mkInitiateFileDownloadResponse
                             (pdl_Status storageRes) (DataGatewayEndpoint c) tok)),
            w3) /\
         forall verify : string -> string -> option transferClaims,
           (forall cl,
               jwt_SignedString B "HS256" cl (TransferSharedSecret c) = inl tok ->
               verify (TransferSharedSecret c) tok = Some cl) ->
           exists cl,
             verify (TransferSharedSecret c) tok = Some cl /\
             claim_Target cl = URL_String u /\ Audience cl = "reva")) /\
  (forall req client storageRes w w1 s2,
      find B c (upload_Ref req) w = (Returned (inl client), w1) ->
      provider_InitiateFileUpload B client req (outside w1) = (inl storageRes, s2) ->
      code (pul_Status storageRes) = CODE_OK ->
      let w2 := mkWorld s2 (calls w1 ++ [ProviderInitiateFileUpload client req]) in
      (pul_Expose storageRes = true ->
       initiateFileUpload B c req w
       = (Returned (inl (mkInitiateFileUploadResponse
                           (pul_Status storageRes) (pul_UploadEndpoint storageRes)
                           (pul_AvailableChecksums storageRes) "")),
          w2)) /\
      (pul_Expose storageRes = false ->
       forall err,
         url_Parse B (pul_UploadEndpoint storageRes) = inr err ->
         initiateFileUpload B c req w
         = (Returned (inl (mkInitiateFileUploadResponse
                             (mkStatus CODE_INTERNAL "wrong format for upload endpoint")
                             "" [] "")),
            w2)) /\
      (pul_Expose storageRes = false ->
       forall u tok w3,
         url_Parse B (pul_UploadEndpoint storageRes) = inl u ->
         sign B c (URL_String u) w2 = (Returned (inl tok), w3) ->
         initiateFileUpload B c req w
         = (Returned (inl (mkInitiateFileUploadResponse
                             (pul_Status storageRes) (DataGatewayEndpoint c)
                             (pul_AvailableChecksums storageRes) tok)),
            w3) /\
         forall verify : string -> string -> option transferClaims,
           (forall cl,
               jwt_SignedString B "HS256" cl (TransferSharedSecret c) = inl tok ->
               verify (TransferSharedSecret c) tok = Some cl) ->
           exists cl,
             verify (TransferSharedSecret c) tok = Some cl /\
             claim_Target cl = URL_String u /\ Audience cl = "reva")).
Proof.
  split.
  - intros req client storageRes w w1 s2 Hfind Hprov w2.
    assert (Hremote :
             remote (ProviderInitiateFileDownload client req)
                    (provider_InitiateFileDownload B client req) w1
             = (Returned (inl storageRes), w2)).
    { unfold remote. now rewrite Hprov. }
    unfold initiateFileDownload.
    rewrite (bind_Returned _ _ _ _ _ Hfind). cbn beta iota.
    rewrite (bind_Returned _ _ _ _ _ Hremote). cbn beta iota.
    split; [|split].
    + intros Hexp. rewrite Hexp. reflexivity.
    + intros Hexp err Hurl.
      rewrite Hexp. cbn [DownloadEndpoint]. rewrite Hurl. reflexivity.
    + intros Hexp u tok w3 Hurl Hsign. split.
      * rewrite Hexp. cbn [DownloadEndpoint]. rewrite Hurl.
        rewrite (bind_Returned _ _ _ _ _ Hsign). reflexivity.
      * intros verify Hver.
        destruct (sign_inv B c _ _ _ _ Hsign) as (e & i & Hsig).
        eexists. split; [apply Hver, Hsig|]. split; reflexivity.
  - intros req client storageRes w w1 s2 Hfind Hprov Hok w2.
    assert (Hremote :
             remote (ProviderInitiateFileUpload client req)
                    (provider_InitiateFileUpload B client req) w1
             = (Returned (inl storageRes), w2)).
    { unfold remote. now rewrite Hprov. }
    unfold initiateFileUpload.
    rewrite (bind_Returned _ _ _ _ _ Hfind). cbn beta iota.
    rewrite (bind_Returned _ _ _ _ _ Hremote). cbn beta iota.
    destruct (decide (code (pul_Status storageRes) <> CODE_OK)); [contradiction|].
    split; [|split].
    + intros Hexp. rewrite Hexp. reflexivity.
    + intros Hexp err Hurl.
      rewrite Hexp. cbn [UploadEndpoint]. rewrite Hurl. reflexivity.
    + intros Hexp u tok w3 Hurl Hsign. split.
      * rewrite Hexp. cbn [UploadEndpoint]. rewrite Hurl.
        rewrite (bind_Returned _ _ _ _ _ Hsign). reflexivity.
      * intros verify Hver.
        destruct (sign_inv B c _ _ _ _ Hsign) as (e & i & Hsig).
        eexists. split; [apply Hver, Hsig|]. split; reflexivity.
Qed.
End Handoff.

(** * Properties of the provider authorizer *)

Section AuthorizerFacts.
Import Authorizer.
Import Gateway (outcome, Returned, Panicked, nil_dereference).

Lemma domainListed_true ps d : domainListed ps d true = true.
Proof.
  induction ps as [|p ps IH]; cbn [domainListed]; [reflexivity|].
  destruct (String.eqb (Domain p) d); exact IH.
Qed.

Lemma domainListed_In ps d :
  (exists p, In p ps /\ Domain p = d) -> domainListed ps d false = true.
Proof.
  intros (p & Hin & Hd). induction ps as [|q ps IH]; [contradiction|].
  cbn [domainListed]. destruct Hin as [-> | Hin].
  - rewrite Hd, String.eqb_refl. apply domainListed_true.
  - destruct (String.eqb (Domain q) d); [apply domainListed_true|apply IH, Hin].
Qed.

Lemma getOCMHost_services provider host :
  getOCMHost provider = Returned (inl host) -> Services provider <> [].
Proof.
  unfold getOCMHost. intros H E. rewrite E in H. discriminate.
Qed.

Context (net_LookupIP : string -> list string + error).

(** C9, as the code has it: an authorizer built by [New] has a nil
    [providerIPs]; with host verification on, a domain that is empty or
    listed, and a service of type OCM (so that [getOCMHost] returns a host),
    [IsProviderAllowed] panics on the nil map and leaves the authorizer as
    it was. *)
Theorem New_cache_is_nil {ConfMap : Type}
        (mapstructure_Decode : ConfMap -> config + error)
        (ioutil_ReadFile : string -> string + error)
        (json_Unmarshal : string -> list ProviderInfo + error)
        (m : ConfMap) (a : authorizer) (provider : ProviderInfo) :
  New mapstructure_Decode ioutil_ReadFile json_Unmarshal m = inl a ->
  providerIPs a = None /\
  (VerifyRequestHostname (conf a) = true ->
   Domain provider = "" \/
   (exists p, In p (providers a) /\ Domain p = Domain provider) ->
   forall host,
     getOCMHost provider = Returned (inl host) ->
     IsProviderAllowed net_LookupIP a provider = (Panicked nil_dereference, a)).
Proof.
  intros Hnew.
  assert (Hnil : providerIPs a = None).
  { unfold New in Hnew.
    destruct (mapstructure_Decode m) as [c0|]; [|discriminate].
    destruct (ioutil_ReadFile _) as [f|]; [|discriminate].
    destruct (json_Unmarshal f) as [ps|]; [|discriminate].
    injection Hnew as <-. reflexivity. }
  split; [exact Hnil|].
  intros Hverify Hdom host Hhost.
  pose proof (getOCMHost_services _ _ Hhost) as Hsvc.
  unfold IsProviderAllowed.
  assert (Hauth : (if negb (String.eqb (Domain provider) "")
                   then domainListed (providers a) (Domain provider) false
                   else true) = true).
  { destruct (String.eqb (Domain provider) "") eqn:E; cbn [negb]; [reflexivity|].
    destruct Hdom as [Hd|Hd].
    - rewrite Hd in E. discriminate.
    - now apply domainListed_In. }
  rewrite Hauth, Hverify. cbn [negb].
  destruct (Services provider) as [|s0 rest]; [contradiction|].
  cbn [List.length Nat.eqb]. rewrite Hhost, Hnil. reflexivity.
Qed.

End AuthorizerFacts.

(** * The examples *)

Section CodecFacts.
Import Gateway Scenario.

Lemma append_String (x : ascii) (a b : string) :
  (String x a ++ b)%string = String x (a ++ b).
Proof. reflexivity. Qed.

Lemma append_nil (b : string) : ("" ++ b)%string = b.
Proof. reflexivity. Qed.

Lemma append_assoc (a b d : string) : ((a ++ b) ++ d)%string = (a ++ (b ++ d))%string.
Proof.
  induction a as [|x a IH]; [reflexivity|].
  rewrite !append_String. now rewrite IH.
Qed.

Lemma append_empty (a : string) : (a ++ "")%string = a.
Proof.
  induction a as [|x a IH]; [reflexivity|]. rewrite append_String. now rewrite IH.
Qed.

Lemma read_unary_unary n r : read_unary (unary n ++ r) = Some (n, r).
Proof.
  induction n as [|n IH]; cbn [unary]; rewrite append_String; cbn [read_unary].
  - reflexivity.
  - rewrite IH. reflexivity.
Qed.

Lemma read_Z_write_Z z r : read_Z (write_Z z ++ r) = Some (z, r).
Proof.
  unfold write_Z.
  destruct (Z.ltb_spec z 0) as [Hneg|Hpos];
    rewrite append_assoc, append_String, append_nil; cbn [read_Z];
    rewrite read_unary_unary; cbn [Ascii.eqb Bool.eqb]; f_equal; f_equal; lia.
Qed.

Lemma split_at_app a b : split_at (String.length a) (a ++ b) = Some (a, b).
Proof.
  induction a as [|x a IH]; [reflexivity|].
  rewrite append_String. cbn [String.length split_at]. now rewrite IH.
Qed.

Lemma read_string_write_string s r : read_string (write_string s ++ r) = Some (s, r).
Proof.
  unfold read_string, write_string.
  rewrite append_assoc, read_unary_unary. apply split_at_app.
Qed.

Lemma read_claims_write_claims cl : read_claims (write_claims cl) = Some cl.
Proof.
  destruct cl as [e aud i tgt]. unfold read_claims, write_claims.
  cbn [ExpiresAt IssuedAt Audience claim_Target].
  rewrite read_Z_write_Z, read_Z_write_Z, read_string_write_string.
  rewrite <- (append_empty (write_string tgt)), read_string_write_string.
  reflexivity.
Qed.

(** The verifier inverts the signing. *)
Lemma verify_sign_token alg cl key tok :
  sign_token alg cl key = inl tok -> verify_token key tok = Some cl.
Proof.
  unfold sign_token, verify_token. destruct (String.eqb alg "HS256"); [|discriminate].
  intros [= <-]. rewrite read_string_write_string, String.eqb_refl.
  apply read_claims_write_claims.
Qed.
End CodecFacts.

Section GatewayExamples.
Import Gateway Scenario.

(** C4: with the share folder [MyShares], the path [/home/MySharesX] has the
    shared folder as a prefix and none of the four shapes; [Stat] on it
    runs into the final panic. *)
Theorem prefix_only_path_has_no_shape :
  inSharedFolder cfg "/home/MySharesX" = true /\
  isSharedFolder cfg "/home/MySharesX" = Returned false /\
  isShareName cfg "/home/MySharesX" = Returned false /\
  isShareChild cfg "/home/MySharesX" = Returned false /\
  classify cfg "/home/MySharesX" = Returned None /\
  Stat backend cfg (stat_of_path "/home/MySharesX") (world_at 0)
  = (Panicked "gateway: stating an unknown path:/home/MySharesX", world_at 0).
Proof. repeat split; vm_compute; reflexivity. Qed.

(** The four shapes on the paths of the specification. *)
Example classify_shapes :
  classify cfg "/eos/user/a/file.txt" = Returned (Some PlainPath) /\
  classify cfg "/home/MyShares" = Returned (Some SharedFolder) /\
  classify cfg "/home/MyShares/photos" = Returned (Some ShareName) /\
  classify cfg "/home/MyShares/photos/Ibiza/beach.png" = Returned (Some ShareChild) /\
  splitShare "/home/MyShares/photos/Ibiza/beach.png"
  = Returned ("/home/MyShares/photos", "/Ibiza/beach.png").
Proof. repeat split; vm_compute; reflexivity. Qed.



Lemma share_folder_or_name_rejected_witness :
  classify cfg "/home/MyShares/photos" = Returned (Some ShareName) /\
  CreateContainer backend cfg
    (mkCreateContainerRequest (Reference_Path "/home/MyShares/photos")) (world_at 0)
  = (Returned (inl (mkCreateContainerResponse
                      (mkStatus CODE_INVALID_ARGUMENT
                                "path points to share folder or share name"))),
     world_at 0).
Proof.
  split; [vm_compute; reflexivity|].
  apply (proj1 (share_folder_or_name_rejected backend cfg "/home/MyShares/photos"
                  (or_intror eq_refl))).
  vm_compute. reflexivity.
Defined.

(** C2 fails as stated: the status of the rejection is not
    permission-denied. *)
Lemma share_name_not_permission_denied :
  classify cfg "/home/MyShares/photos" = Returned (Some ShareName) /\
  ~ (exists res w',
        CreateContainer backend cfg
          (mkCreateContainerRequest (Reference_Path "/home/MyShares/photos")) (world_at 0)
        = (Returned (inl res), w') /\
        code (create_Status res) = CODE_PERMISSION_DENIED).
Proof.
  split; [vm_compute; reflexivity|].
  intros (res & w' & H & Hcode). vm_compute in H.
  injection H as <- _. discriminate.
Qed.

(** C3: listing the shared folder when a child is a reference to a
    reference: the resolution fails after its one stat, and the listing
    then panics on the nil [info] instead of answering with an internal
    status. *)
Theorem ListContainer_chain_panics :
  checkRef backend cfg (Some chain) (world_at 0)
  = (Returned (inr (errors_Wrap
                      (errors_New
                         "gateway: error the target of a reference cannot be another reference")
                      "gateway: error handling ref target:cs3:abc/ref")),
     mkWorld 0%Z
       [RegistryGetStorageProvider (Reference_Id (mkResourceId "abc" "ref"));
        ProviderStat "p2.example:9000"
          (mkStatRequest (Reference_Id (mkResourceId "abc" "ref")) [])]) /\
  fst (ListContainer backend cfg
         (mkListContainerRequest (Reference_Path "/home/MyShares") []) (world_at 0))
  = Panicked nil_dereference /\
  fst (Stat backend cfg (stat_of_path "/home/MyShares/chain") (world_at 0))
  = Returned (inl (mkStatResponse
                     (mkStatus CODE_INTERNAL
                               "gateway: error resolving reference:/home/MyShares/chain")
                     None)).
Proof. repeat split; vm_compute; reflexivity. Qed.

Lemma Stat_share_name_witness :
  exists out,
    Stat backend cfg (stat_of_path "/home/MyShares/photos") (world_at 0)
    = (Returned (inl (mkStatResponse ok (Some out))),
       snd (Stat backend cfg (stat_of_path "/home/MyShares/photos") (world_at 0))) /\
    Path out = "/home/MyShares/photos" /\
    Type_ out = RESOURCE_TYPE_CONTAINER.
Proof.
  destruct (Stat_share_name backend cfg (stat_of_path "/home/MyShares/photos")
              "/home/MyShares/photos" (world_at 0) (world_at 0)
              (mkStatResponse ok (Some photos)) photos photos_target
              (snd (stat backend cfg (stat_of_path "/home/MyShares/photos") (world_at 0)))
              (snd (Stat backend cfg (stat_of_path "/home/MyShares/photos") (world_at 0)))
              eq_refl eq_refl eq_refl eq_refl eq_refl eq_refl)
    as (out & Hrun & Hpath & Hty & _).
  exists out. split; [exact Hrun|]. split; [exact Hpath|exact Hty].
Defined.

(** C1 fails as stated: for the request path [/home/MyShares/photos/] (a
    share name), the provider reports the reference at
    [/home/MyShares/photos], and that is the path returned. *)
Lemma Stat_share_name_path_differs :
  classify cfg "/home/MyShares/photos/" = Returned (Some ShareName) /\
  exists res out w',
    Stat backend cfg (stat_of_path "/home/MyShares/photos/") (world_at 0)
    = (Returned (inl res), w') /\
    stat_Info res = Some out /\
    Path out <> "/home/MyShares/photos/".
Proof.
  split; [vm_compute; reflexivity|].
  eexists _, _, _. split; [vm_compute; reflexivity|].
  split; [reflexivity|]. cbn. discriminate.
Qed.
End GatewayExamples.

Section TransferExamples.
Import Gateway Scenario.

Lemma move_across_providers_witness :
  move backend cfg move_across (world_at 0)
  = (Returned (inl (mkMoveResponse
                      (mkStatus CODE_UNIMPLEMENTED
                                "gateway: cross storage copy not yet implemented"))),
     mkWorld 0%Z [RegistryGetStorageProvider (Reference_Path "/eos/user/a/f");
                  RegistryGetStorageProvider (Reference_Path "/eos/user/b/f")]).
Proof.
  apply (proj1 (move_across_providers backend cfg move_across (world_at 0)
                  (mkProviderInfo "p1.example:9000" "/eos/user/a")
                  (mkWorld 0%Z [RegistryGetStorageProvider (Reference_Path "/eos/user/a/f")])
                  (mkProviderInfo "p2.example:9000" "/eos/user/b")
                  (mkWorld 0%Z [RegistryGetStorageProvider (Reference_Path "/eos/user/a/f");
                                RegistryGetStorageProvider (Reference_Path "/eos/user/b/f")])
                  eq_refl eq_refl ltac:(discriminate))).
Defined.

(** C6 fails as stated: the message of the unimplemented status is not
    "cross storage copy not yet implemented" but carries the prefix
    "gateway: ". *)
Lemma move_across_providers_message :
  exists res w',
    Move backend cfg move_across (world_at 0) = (Returned (inl res), w') /\
    code (move_Status res) = CODE_UNIMPLEMENTED /\
    message (move_Status res) <> "cross storage copy not yet implemented".
Proof.
  eexists _, _. split; [vm_compute; reflexivity|].
  split; [reflexivity|]. cbn. discriminate.
Qed.

Lemma sign_claims_witness :
  sign backend cfg "https://data.p1/blob/xyz" (world_at 1000000000)
  = (Returned (sign_token "HS256"
                 (mkTransferClaims 3601 "reva" 1 "https://data.p1/blob/xyz") "s3cr3t"),
     world_at 1000002000) /\
  verify_token "s3cr3t"
    (write_string "s3cr3t"
       ++ write_claims (mkTransferClaims 3601 "reva" 1 "https://data.p1/blob/xyz"))
  = Some (mkTransferClaims 3601 "reva" 1 "https://data.p1/blob/xyz").
Proof.
  destruct (sign_claims backend cfg "https://data.p1/blob/xyz" (world_at 1000000000)
              1000000000%Z 1000001000%Z 1000001000%Z 1000002000%Z
              (write_string "s3cr3t"
                 ++ write_claims (mkTransferClaims 3601 "reva" 1 "https://data.p1/blob/xyz"))
              verify_token eq_refl eq_refl ltac:(vm_compute; split; [discriminate|reflexivity])
              eq_refl
              (fun cl => verify_sign_token "HS256" cl "s3cr3t" _))
    as (Hrun & Hver & _).
  split; [exact Hrun|exact Hver].
Defined.

(** C8 fails as stated: when the clock passes a second between the two
    readings (here from 1.9999995 s to 2.0000005 s), the expiry is not the
    issue time plus the TTL. *)
Lemma sign_expiry_is_not_issue_plus_ttl :
  exists tok cl w',
    sign backend cfg "https://data.p1/blob/xyz" (world_at 1999999500)
    = (Returned (inl tok), w') /\
    verify_token (TransferSharedSecret cfg) tok = Some cl /\
    claim_Target cl = "https://data.p1/blob/xyz" /\
    ExpiresAt cl <> (IssuedAt cl + TransferExpires cfg)%Z.
Proof.
  eexists _, _, _. split; [vm_compute; reflexivity|].
  split; [vm_compute; reflexivity|]. split; [reflexivity|]. cbn. discriminate.
Qed.
End TransferExamples.

Section HandoffExamples.
Import Gateway Scenario.

Lemma transfer_handoff_witness :
  exists tok,
    initiateFileDownload backend cfg (download_of_path "/eos/user/a/f") (world_at 1000000000)
    = (Returned (inl (mkInitiateFileDownloadResponse
                        ok "https://datagateway.example/data" tok)),
       mkWorld 1000002000%Z
         [RegistryGetStorageProvider (Reference_Path "/eos/user/a/f");
          ProviderInitiateFileDownload "p1.example:9000" (download_of_path "/eos/user/a/f")]) /\
    exists cl,
      verify_token "s3cr3t" tok = Some cl /\
      claim_Target cl = "https://data.p1/blob/xyz" /\ Audience cl = "reva".
Proof.
  pose (req := download_of_path "/eos/user/a/f").
  pose (w1 := mkWorld 1000000000%Z [RegistryGetStorageProvider (Reference_Path "/eos/user/a/f")]).
  pose (tok := (write_string "s3cr3t"
                  ++ write_claims (mkTransferClaims 3601 "reva" 1 "https://data.p1/blob/xyz"))%string).
  destruct (proj1 (transfer_handoff backend cfg) req "p1.example:9000" (download_of req)
              (world_at 1000000000) w1 1000000000%Z eq_refl eq_refl)
    as (_ & _ & Hsigned).
  destruct (Hsigned eq_refl
              (mkURL "https" "" "https://data.p1/blob/xyz") tok
              (mkWorld 1000002000%Z
                 [RegistryGetStorageProvider (Reference_Path "/eos/user/a/f");
                  ProviderInitiateFileDownload "p1.example:9000" req])
              eq_refl eq_refl)
    as (Hrun & Hver).
  exists tok. split; [exact Hrun|].
  apply (Hver verify_token). intros cl. apply verify_sign_token.
Defined.

(** C7 fails as stated: an endpoint that does not parse gives an internal
    status, not invalid-argument. *)
Lemma malformed_endpoint_is_internal :
  (exists err, url_Parse backend ":data.p1/blob" = inr err) /\
  exists res w',
    InitiateFileDownload backend cfg (download_of_path "/eos/user/a/broken") (world_at 0)
    = (Returned (inl res), w') /\
    code (download_Status res) = CODE_INTERNAL /\
    code (download_Status res) <> CODE_INVALID_ARGUMENT.
Proof.
  split; [eexists; vm_compute; reflexivity|].
  eexists _, _. split; [vm_compute; reflexivity|].
  split; [reflexivity|]. cbn. discriminate.
Qed.
End HandoffExamples.

Section AuthorizerExamples.
Import Authorizer AuthScenario.
Import Gateway (Returned, Panicked, nil_dereference).

Lemma New_cache_is_nil_witness :
  New decode read_file unmarshal true = inl (built true) /\
  providerIPs (built true) = None /\
  IsProviderAllowed lookup (built true) cernbox = (Panicked nil_dereference, built true).
Proof.
  split; [reflexivity|].
  destruct (New_cache_is_nil lookup decode read_file unmarshal true (built true) cernbox
              eq_refl) as (Hnil & Hpanic).
  split; [exact Hnil|].
  apply (Hpanic eq_refl (or_intror (ex_intro _ cernbox (conj (or_introl eq_refl) eq_refl)))
                "cernbox.cern.ch" eq_refl).
Defined.

(** C9 fails as stated: with host verification on, an empty domain and a
    list of services none of which is of type OCM, the call returns an
    error before the cache is looked up. *)
Lemma no_ocm_service_no_lookup :
  New decode read_file unmarshal true = inl (built true) /\
  VerifyRequestHostname (conf (built true)) = true /\
  Domain webdav_only = "" /\
  Services webdav_only <> [] /\
  IsProviderAllowed lookup (built true) webdav_only
  = (Returned (Some (errors_Wrap (errtypes_NotFound "OCM Host")
                                 "json: ocm host not specified for mesh provider")),
     built true).
Proof. repeat split; try reflexivity. discriminate. Qed.

End AuthorizerExamples.

(** * Further properties of the gateway *)

(** ** Routing and reference resolution *)

Section Routing.
Import Gateway.
Context {S : Type} (B : Backend S) (c : config).

(** X1: when the registry knows no provider for a reference, [stat] asks no
    provider and answers with a status only: not-found when the registry
    said not-found, internal for every other status of the registry and for
    a failed call to the registry. It returns no error in these cases. *)
Theorem stat_without_provider req w :
  pool_GetStorageRegistryClient B (StorageRegistryEndpoint c) (outside w) = None ->
  (forall res s',
      registry_GetStorageProvider B (stat_Ref req) (outside w) = (inl res, s') ->
      code (gsp_Status res) <> CODE_OK ->
      stat B c req w
      = (Returned (inl (mkStatResponse
                          (if decide (code (gsp_Status res) = CODE_NOT_FOUND)
                           then mkStatus CODE_NOT_FOUND "storage provider not found"
                           else mkStatus CODE_INTERNAL "error finding storage provider")
                          None)),
         mkWorld s' (calls w ++ [RegistryGetStorageProvider (stat_Ref req)]))) /\
  (forall err s',
      registry_GetStorageProvider B (stat_Ref req) (outside w) = (inr err, s') ->
      stat B c req w
      = (Returned (inl (mkStatResponse
                          (mkStatus CODE_INTERNAL "error finding storage provider") None)),
         mkWorld s' (calls w ++ [RegistryGetStorageProvider (stat_Ref req)]))).
Proof.
  intros Hpool. split.
  - intros res s' Hreg Hcode.
    unfold stat, find, findProvider, bind, query, remote, ret.
    rewrite Hpool, Hreg.
    destruct (decide (code (gsp_Status res) <> CODE_OK)); [|contradiction].
    destruct (decide (code (gsp_Status res) = CODE_NOT_FOUND)); reflexivity.
  - intros err s' Hreg.
    unfold stat, find, findProvider, bind, query, remote, ret.
    rewrite Hpool, Hreg. reflexivity.
Qed.

Lemma find_success ref w client w' :
  find B c ref w = (Returned (inl client), w') ->
  calls w' = calls w ++ [RegistryGetStorageProvider ref].
Proof.
  unfold find, bind.
  destruct (findProvider B c ref w) as [[[p|err]|msg] w1] eqn:E;
    [|intros [=]|intros [=]].
  apply findProvider_success in E.
  unfold getStorageProviderClient, bind, query, ret.
  destruct (pool_GetStorageProviderServiceClient B (Address p) (outside w1));
    intros [= _ <-]; exact E.
Qed.

(** The remote calls of one [stat]: none, the registry lookup of its
    reference, or that lookup and the [Stat] of the request on one
    provider. *)
Lemma stat_calls_exact req w o w' :
  stat B c req w = (o, w') ->
  calls w' = calls w \/
  calls w' = calls w ++ [RegistryGetStorageProvider (stat_Ref req)] \/
  exists addr,
    calls w' = calls w ++ [RegistryGetStorageProvider (stat_Ref req); ProviderStat addr req].
Proof.
  unfold stat, bind.
  destruct (find B c (stat_Ref req) w) as [[[client|err]|msg] w1] eqn:E.
  - apply find_success in E. unfold remote.
    destruct (provider_Stat B client req (outside w1)) as [r s'].
    intros [= _ <-]. cbn [calls]. right. right. exists client.
    rewrite E, <- app_assoc. reflexivity.
  - apply find_calls in E.
    destruct (IsNotFound err); intros [= _ <-];
      (destruct E as [E|E]; [left|right; left]; exact E).
  - apply find_calls in E. intros [= _ <-].
    destruct E as [E|E]; [left|right; left]; exact E.
Qed.

Lemma handleCS3Ref_calls opaque w o w' :
  handleCS3Ref B c opaque w = (o, w') ->
  calls w' = calls w \/
  exists id,
    calls w' = calls w ++ [RegistryGetStorageProvider (Reference_Id id)] \/
    exists addr,
      calls w' = calls w ++ [RegistryGetStorageProvider (Reference_Id id);
                             ProviderStat addr (mkStatRequest (Reference_Id id) [])].
Proof.
  unfold handleCS3Ref.
  destruct (List.length (GoStrings.SplitN opaque "/"%char 2) <? 2)%nat.
  - intros [= _ <-]. now left.
  - set (id := mkResourceId _ _). unfold bind.
    assert (Hcalls : forall w1 : World S,
               calls w1 = calls w \/
               calls w1 = calls w ++ [RegistryGetStorageProvider (Reference_Id id)] \/
               (exists addr,
                   calls w1 = calls w ++ [RegistryGetStorageProvider (Reference_Id id);
                                          ProviderStat addr
                                            (mkStatRequest (Reference_Id id) [])]) ->
               calls w1 = calls w \/
               exists id,
                 calls w1 = calls w ++ [RegistryGetStorageProvider (Reference_Id id)] \/
                 exists addr,
                   calls w1 = calls w ++ [RegistryGetStorageProvider (Reference_Id id);
                                          ProviderStat addr
                                            (mkStatRequest (Reference_Id id) [])]).
    { intros w1 [E|[E|E]]; [now left|right; exists id; now left|].
      right. exists id. now right. }
    destruct (stat B c _ w) as [[[res|err]|msg] w1] eqn:E;
      apply stat_calls_exact in E; cbn [stat_Ref] in E; apply Hcalls in E.
    + destruct (decide (code (stat_Status res) <> CODE_OK)).
      * intros [= _ <-]. exact E.
      * destruct (stat_Info res) as [info|]; cbn [deref].
        -- unfold ret. destruct (decide (Type_ info = RESOURCE_TYPE_REFERENCE));
             intros [= _ <-]; exact E.
        -- unfold panic. intros [= _ <-]. exact E.
    + intros [= _ <-]. exact E.
    + intros [= _ <-]. exact E.
Qed.

(** X2: resolving a reference follows one hop at most: whatever it
    returns, the remote calls of [checkRef] are none at all, or the
    registry lookup of one resource id, or that lookup followed by one
    [Stat] of that id on a provider; it makes no other remote call. *)
Theorem checkRef_one_hop ri w o w' :
  checkRef B c ri w = (o, w') ->
  calls w' = calls w \/
  exists id,
    calls w' = calls w ++ [RegistryGetStorageProvider (Reference_Id id)] \/
    exists addr,
      calls w' = calls w ++ [RegistryGetStorageProvider (Reference_Id id);
                             ProviderStat addr (mkStatRequest (Reference_Id id) [])].
Proof.
  assert (Hsame : forall (x : outcome (ResourceInfo + error)),
             (x, w) = (o, w') ->
             calls w' = calls w \/
             exists id,
               calls w' = calls w ++ [RegistryGetStorageProvider (Reference_Id id)] \/
               exists addr,
                 calls w' = calls w ++ [RegistryGetStorageProvider (Reference_Id id);
                                        ProviderStat addr
                                          (mkStatRequest (Reference_Id id) [])]).
  { intros x [= _ <-]. now left. }
  unfold checkRef. destruct ri as [info|]; cbn [deref].
  - rewrite bind_ret.
    destruct (decide (Type_ info <> RESOURCE_TYPE_REFERENCE)); [apply Hsame|].
    destruct (String.eqb (Target info) ""); [apply Hsame|].
    unfold bind, handleRef.
    destruct (url_Parse B (Target info)) as [uri|err]; [|apply Hsame].
    destruct (String.eqb (Scheme uri) "cs3"); [|apply Hsame].
    destruct (handleCS3Ref B c (Opaque uri) w) as [[[out|err]|msg] w1] eqn:E;
      apply handleCS3Ref_calls in E; intros [= _ <-]; exact E.
  - unfold bind, panic. apply Hsame.
Qed.

Lemma handleCS3Ref_not_reference opaque w out w' :
  handleCS3Ref B c opaque w = (Returned (inl out), w') ->
  Type_ out <> RESOURCE_TYPE_REFERENCE.
Proof.
  unfold handleCS3Ref.
  destruct (List.length (GoStrings.SplitN opaque "/"%char 2) <? 2)%nat; [intros [=]|].
  unfold bind.
  destruct (stat B c _ w) as [[[res|err]|msg] w1]; try (intros [=]; fail).
  destruct (decide (code (stat_Status res) <> CODE_OK)); [intros [=]|].
  destruct (stat_Info res) as [info|]; cbn [deref]; [|intros [=]].
  unfold ret. destruct (decide (Type_ info = RESOURCE_TYPE_REFERENCE)); [intros [=]|].
  intros [= <- _]. assumption.
Qed.

(** What [checkRef] answers with is what [handleCS3Ref] found for the
    opaque part of a [cs3] target. *)
Lemma checkRef_resolved ri w out w' :
  checkRef B c ri w = (Returned (inl out), w') ->
  exists info uri,
    ri = Some info /\ Type_ info = RESOURCE_TYPE_REFERENCE /\ Target info <> "" /\
    url_Parse B (Target info) = inl uri /\ Scheme uri = "cs3" /\
    handleCS3Ref B c (Opaque uri) w = (Returned (inl out), w').
Proof.
  unfold checkRef. destruct ri as [info|]; cbn [deref]; [|intros [=]].
  rewrite bind_ret.
  destruct (decide (Type_ info <> RESOURCE_TYPE_REFERENCE)) as [|Hty]; [intros [=]|].
  destruct (String.eqb_spec (Target info) "") as [|Ht]; [intros [=]|].
  unfold bind, handleRef.
  destruct (url_Parse B (Target info)) as [uri|err] eqn:Hp; [|intros [=]].
  destruct (String.eqb_spec (Scheme uri) "cs3") as [Hs|]; [|intros [=]].
  destruct (handleCS3Ref B c (Opaque uri) w) as [[[res|err]|msg] w1] eqn:E;
    try (intros [=]; fail).
  intros [= <- <-]. exists info, uri. repeat split; try assumption.
  destruct (decide (Type_ info = RESOURCE_TYPE_REFERENCE)); [assumption|contradiction].
Qed.

Lemma checkRef_resolved_type ri w out w' :
  checkRef B c ri w = (Returned (inl out), w') ->
  Type_ out <> RESOURCE_TYPE_REFERENCE.
Proof.
  intros H. destruct (checkRef_resolved _ _ _ _ H) as (info & uri & _ & _ & _ & _ & _ & E).
  eapply handleCS3Ref_not_reference, E.
Qed.

(** X3: [checkRef] answers with a resource only for a reference whose
    target is not empty, parses and has the scheme [cs3]; the resource is
    what [handleCS3Ref] found for the opaque part of the target, and it is
    never itself a reference. *)
Theorem checkRef_not_reference ri w out w' :
  checkRef B c ri w = (Returned (inl out), w') ->
  Type_ out <> RESOURCE_TYPE_REFERENCE /\
  exists info uri,
    ri = Some info /\ Type_ info = RESOURCE_TYPE_REFERENCE /\ Target info <> "" /\
    url_Parse B (Target info) = inl uri /\ Scheme uri = "cs3" /\
    handleCS3Ref B c (Opaque uri) w = (Returned (inl out), w').
Proof.
  intros H. split; [exact (checkRef_resolved_type _ _ _ _ H)|exact (checkRef_resolved _ _ _ _ H)].
Qed.

(** X4: a reference that is malformed fails without any remote call: an
    empty target, a target that does not parse, a scheme other than [cs3],
    or an opaque part without a slash. *)
Theorem checkRef_malformed ri w :
  Type_ ri = RESOURCE_TYPE_REFERENCE ->
  Target ri = "" \/
  (exists err, url_Parse B (Target ri) = inr err) \/
  (exists uri, url_Parse B (Target ri) = inl uri /\
               (Scheme uri <> "cs3" \/ GoStrings.cut (Opaque uri) "/"%char = None)) ->
  exists err, checkRef B c (Some ri) w = (Returned (inr err), w).
Proof.
  intros Hty Hbad. unfold checkRef. cbn [deref]. rewrite bind_ret.
  destruct (decide (Type_ ri <> RESOURCE_TYPE_REFERENCE)); [contradiction|].
  destruct (String.eqb_spec (Target ri) "") as [Ht|Ht]; [eexists; reflexivity|].
  destruct Hbad as [Hbad|[(err & Hp)|(uri & Hp & Hbad)]]; [contradiction| |].
  - unfold bind, handleRef. rewrite Hp. eexists. reflexivity.
  - unfold bind, handleRef. rewrite Hp.
    destruct (String.eqb_spec (Scheme uri) "cs3") as [Hs|Hs]; [|eexists; reflexivity].
    destruct Hbad as [Hbad|Hcut]; [contradiction|].
    unfold handleCS3Ref. cbn [GoStrings.SplitN]. rewrite Hcut.
    cbn [List.length Nat.ltb Nat.leb]. eexists. reflexivity.
Qed.

(** X5: [getPath] on a reference without a path: an id with an empty opaque
    id, or no id at all, is invalid and rejected without a remote call; an
    id whose stat answers OK without a resource makes [getPath] panic on the
    nil info. *)
Theorem getPath_without_path ref keys w :
  GetPath ref = "" ->
  (GetId ref = None \/ (exists id, GetId ref = Some id /\ OpaqueId id = "") ->
   getPath B c ref keys w
   = (Returned (inr (errors_New ("gateway: ref is invalid:" ++ Reference_String ref))), w)) /\
  (forall id res w1,
      GetId ref = Some id -> OpaqueId id <> "" ->
      stat B c (mkStatRequest ref keys) w = (Returned (inl res), w1) ->
      code (stat_Status res) = CODE_OK ->
      getPath B c ref keys w
      = (match stat_Info res with
         | Some info => Returned (inl (Path info))
         | None => Panicked nil_dereference
         end, w1)).
Proof.
  intros Hpath. unfold getPath. rewrite Hpath. cbn [String.eqb negb]. split.
  - intros [Hid|(id & Hid & Hop)]; rewrite Hid; [reflexivity|].
    rewrite Hop. reflexivity.
  - intros id res w1 Hid Hop Hstat Hok. rewrite Hid.
    apply String.eqb_neq in Hop. rewrite Hop. cbn [negb].
    rewrite (bind_Returned _ _ _ _ _ Hstat). cbn beta iota.
    destruct (decide (code (stat_Status res) <> CODE_OK)); [contradiction|].
    destruct (stat_Info res); reflexivity.
Qed.

(** X6: [GetPath] answers with a response only when the stat of the
    resource id answered with the status OK, and the response then has that
    status and the path of the answer's info. An OK answer that carries no
    info gives the empty path (the getters read through nil, where
    [getPath] panics); an answer with another status gives the error of its
    code and no response. *)
Theorem GetPath_response req w :
  (forall resp w',
      GetPath_rpc B c req w = (Returned (inl resp), w') ->
      code (getpath_Status resp) = CODE_OK /\
      exists res,
        stat B c (mkStatRequest (Reference_Id (getpath_ResourceId req)) []) w
        = (Returned (inl res), w') /\
        getpath_Status resp = stat_Status res /\
        getpath_Path resp
        = match stat_Info res with Some info => Path info | None => "" end) /\
  (forall res w1,
      stat B c (mkStatRequest (Reference_Id (getpath_ResourceId req)) []) w
      = (Returned (inl res), w1) ->
      code (stat_Status res) = CODE_OK ->
      stat_Info res = None ->
      GetPath_rpc B c req w
      = (Returned (inl (mkGetPathResponse (stat_Status res) "")), w1)) /\
  (forall res w1,
      stat B c (mkStatRequest (Reference_Id (getpath_ResourceId req)) []) w
      = (Returned (inl res), w1) ->
      code (stat_Status res) <> CODE_OK ->
      GetPath_rpc B c req w
      = (Returned (inr (status_NewErrorFromCode (code (stat_Status res)) "gateway")), w1)).
Proof.
  split; [|split].
  - intros resp w'. unfold GetPath_rpc, bind.
    destruct (stat B c _ w) as [[[res|err]|msg] w1] eqn:E; try (intros [=]; fail).
    destruct (decide (code (stat_Status res) <> CODE_OK)) as [Hne|Hok]; [intros [=]|].
    intros [= <- <-]. cbn [getpath_Status getpath_Path].
    split; [destruct (decide (code (stat_Status res) = CODE_OK)); [assumption|contradiction]|].
    exists res. repeat split.
  - intros res w1 Hs Hok Hinfo. unfold GetPath_rpc.
    rewrite (bind_Returned _ _ _ _ _ Hs). cbn beta iota.
    destruct (decide (code (stat_Status res) <> CODE_OK)); [contradiction|].
    now rewrite Hinfo.
  - intros res w1 Hs Hne. unfold GetPath_rpc.
    rewrite (bind_Returned _ _ _ _ _ Hs). cbn beta iota.
    destruct (decide (code (stat_Status res) <> CODE_OK)); [reflexivity|contradiction].
Qed.
End Routing.

(** ** What the share-aware operations forward *)

Section Forwarding.
Import Gateway.
Context {S : Type} (B : Backend S) (c : config).

Ltac enter op H :=
  unfold op; rewrite (bind_Returned _ _ _ _ _ H); cbn beta iota.
Ltac lifted H :=
  unfold bind at 1; rewrite lift_run, H; cbn [and_then or_else]; cbn beta iota.

(** X7: a plain path is forwarded as it is: on a path outside the shared
    folder each share-aware operation is its plain counterpart on the
    unchanged request. *)
Theorem plain_path_forwarded (p : string) :
  classify c p = Returned (Some PlainPath) ->
  (forall req w w1,
      getPath B c (stat_Ref req) (stat_Keys req) w = (Returned (inl p), w1) ->
      Stat B c req w = stat B c req w1) /\
  (forall req w w1,
      getPath B c (list_Ref req) (list_Keys req) w = (Returned (inl p), w1) ->
      ListContainer B c req w = listContainer B c req w1) /\
  (forall req w w1,
      getPath B c (create_Ref req) [] w = (Returned (inl p), w1) ->
      CreateContainer B c req w = createContainer B c req w1) /\
  (forall req w w1,
      getPath B c (delete_Ref req) [] w = (Returned (inl p), w1) ->
      Delete B c req w = delete B c req w1) /\
  (forall req w w1,
      getPath B c (upload_Ref req) [] w = (Returned (inl p), w1) ->
      InitiateFileUpload B c req w = initiateFileUpload B c req w1).
Proof.
  intros Hc. apply classify_Plain in Hc.
  repeat split; intros req w w1 Hp.
  - enter @Stat Hp. now rewrite Hc.
  - enter @ListContainer Hp. now rewrite Hc.
  - enter @CreateContainer Hp. now rewrite Hc.
  - enter @Delete Hp. now rewrite Hc.
  - enter @InitiateFileUpload Hp. now rewrite Hc.
Qed.

(** X8: on a share child whose share name is a reference that resolves to
    [ri], the request is rewritten to the child below the target and
    forwarded: the path becomes [path.Join(ri.Path, shareChild)]. *)
Theorem share_child_rewritten p shareName shareChild statRes info ri :
  classify c p = Returned (Some ShareChild) ->
  splitShare p = Returned (shareName, shareChild) ->
  code (stat_Status statRes) = CODE_OK ->
  stat_Info statRes = Some info ->
  let target := Reference_Path (GoPath.Join [Path ri; shareChild]) in
  (forall req w w1 w2 w3,
      getPath B c (stat_Ref req) (stat_Keys req) w = (Returned (inl p), w1) ->
      stat B c (mkStatRequest (Reference_Path shareName) []) w1
      = (Returned (inl statRes), w2) ->
      checkRef B c (Some info) w2 = (Returned (inl ri), w3) ->
      Stat B c req w = stat B c (mkStatRequest target (stat_Keys req)) w3) /\
  (forall req w w1 w2 w3,
      getPath B c (create_Ref req) [] w = (Returned (inl p), w1) ->
      stat B c (mkStatRequest (Reference_Path shareName) []) w1
      = (Returned (inl statRes), w2) ->
      checkRef B c (Some info) w2 = (Returned (inl ri), w3) ->
      CreateContainer B c req w
      = createContainer B c (mkCreateContainerRequest target) w3) /\
  (forall req w w1 w2 w3,
      getPath B c (delete_Ref req) [] w = (Returned (inl p), w1) ->
      stat B c (mkStatRequest (Reference_Path shareName) []) w1
      = (Returned (inl statRes), w2) ->
      checkRef B c (Some info) w2 = (Returned (inl ri), w3) ->
      Delete B c req w = delete B c (mkDeleteRequest target) w3) /\
  (forall req w w1 w2 w3,
      getPath B c (upload_Ref req) [] w = (Returned (inl p), w1) ->
      stat B c (mkStatRequest (Reference_Path shareName) []) w1
      = (Returned (inl statRes), w2) ->
      checkRef B c (Some info) w2 = (Returned (inl ri), w3) ->
      InitiateFileUpload B c req w
      = initiateFileUpload B c (mkInitiateFileUploadRequest target) w3).
Proof.
  intros Hc Hsplit Hok Hinfo target.
  apply classify_ShareChild in Hc. destruct Hc as (Hin & HF & HN & HC).
  assert (Hor : or_else (isSharedFolder c p) (isShareName c p) = Returned false).
  { now rewrite HF, HN. }
  repeat split; intros req w w1 w2 w3 Hp Hs Hcr;
    pose proof (checkRef_returned _ _ _ _ _ _ Hcr) as Hty.
  - enter @Stat Hp. rewrite Hin. cbn [negb].
    lifted HF. lifted HN. lifted HC. lifted Hsplit. cbn [fst snd].
    rewrite (bind_Returned _ _ _ _ _ Hs). cbn beta iota.
    destruct (decide (code (stat_Status statRes) <> CODE_OK)); [contradiction|].
    rewrite Hinfo, (bind_Returned _ _ _ _ _ Hcr). reflexivity.
  - enter @CreateContainer Hp. rewrite Hin. cbn [negb].
    lifted Hor. lifted HC. lifted Hsplit. cbn [fst snd].
    rewrite (bind_Returned _ _ _ _ _ Hs). cbn beta iota.
    destruct (decide (code (stat_Status statRes) <> CODE_OK)); [contradiction|].
    rewrite Hinfo. cbn [deref]. rewrite bind_ret.
    destruct (decide (Type_ info <> RESOURCE_TYPE_REFERENCE)); [contradiction|].
    rewrite (bind_Returned _ _ _ _ _ Hcr). reflexivity.
  - enter @Delete Hp. rewrite Hin. cbn [negb].
    lifted HF. lifted HN. lifted HC. lifted Hsplit. cbn [fst snd].
    rewrite (bind_Returned _ _ _ _ _ Hs). cbn beta iota.
    destruct (decide (code (stat_Status statRes) <> CODE_OK)); [contradiction|].
    rewrite Hinfo. cbn [deref]. rewrite bind_ret.
    destruct (decide (Type_ info <> RESOURCE_TYPE_REFERENCE)); [contradiction|].
    rewrite (bind_Returned _ _ _ _ _ Hcr). reflexivity.
  - enter @InitiateFileUpload Hp. rewrite Hin. cbn [negb].
    lifted Hor. lifted HC. lifted Hsplit. cbn [fst snd].
    rewrite (bind_Returned _ _ _ _ _ Hs). cbn beta iota.
    destruct (decide (code (stat_Status statRes) <> CODE_OK)); [contradiction|].
    rewrite Hinfo. cbn [deref]. rewrite bind_ret.
    destruct (decide (Type_ info <> RESOURCE_TYPE_REFERENCE)); [contradiction|].
    rewrite (bind_Returned _ _ _ _ _ Hcr). reflexivity.
Qed.

Lemma checkRef_non_reference info (w : World S) :
  Type_ info <> RESOURCE_TYPE_REFERENCE ->
  checkRef B c (Some info) w
  = (Panicked ("gateway: calling checkRef on a non reference type:"
                 ++ ResourceInfo_String info), w).
Proof.
  intros Hty. unfold checkRef. cbn [deref]. rewrite bind_ret.
  destruct (decide (Type_ info <> RESOURCE_TYPE_REFERENCE)); [reflexivity|contradiction].
Qed.

(** X9: on a share child whose share name is not a reference, [Stat] calls
    [checkRef] unchecked and panics, while [CreateContainer] and [Delete]
    check the type and answer with an internal status. *)
Theorem share_child_of_non_reference p shareName shareChild statRes info :
  classify c p = Returned (Some ShareChild) ->
  splitShare p = Returned (shareName, shareChild) ->
  code (stat_Status statRes) = CODE_OK ->
  stat_Info statRes = Some info ->
  Type_ info <> RESOURCE_TYPE_REFERENCE ->
  (forall req w w1 w2,
      getPath B c (stat_Ref req) (stat_Keys req) w = (Returned (inl p), w1) ->
      stat B c (mkStatRequest (Reference_Path shareName) []) w1
      = (Returned (inl statRes), w2) ->
      Stat B c req w
      = (Panicked ("gateway: calling checkRef on a non reference type:"
                     ++ ResourceInfo_String info), w2)) /\
  (forall req w w1 w2,
      getPath B c (create_Ref req) [] w = (Returned (inl p), w1) ->
      stat B c (mkStatRequest (Reference_Path shareName) []) w1
      = (Returned (inl statRes), w2) ->
      CreateContainer B c req w
      = (Returned (inl (mkCreateContainerResponse
                          (mkStatus CODE_INTERNAL "gateway: error creating container"))),
         w2)) /\
  (forall req w w1 w2,
      getPath B c (delete_Ref req) [] w = (Returned (inl p), w1) ->
      stat B c (mkStatRequest (Reference_Path shareName) []) w1
      = (Returned (inl statRes), w2) ->
      Delete B c req w
      = (Returned (inl (mkDeleteResponse (mkStatus CODE_INTERNAL "gateway: error deleting"))),
         w2)).
Proof.
  intros Hc Hsplit Hok Hinfo Hty.
  apply classify_ShareChild in Hc. destruct Hc as (Hin & HF & HN & HC).
  assert (Hor : or_else (isSharedFolder c p) (isShareName c p) = Returned false).
  { now rewrite HF, HN. }
  repeat split; intros req w w1 w2 Hp Hs.
  - enter @Stat Hp. rewrite Hin. cbn [negb].
    lifted HF. lifted HN. lifted HC. lifted Hsplit. cbn [fst snd].
    rewrite (bind_Returned _ _ _ _ _ Hs). cbn beta iota.
    destruct (decide (code (stat_Status statRes) <> CODE_OK)); [contradiction|].
    rewrite Hinfo.
    rewrite (bind_Panicked _ _ _ _ _ (checkRef_non_reference info w2 Hty)). reflexivity.
  - enter @CreateContainer Hp. rewrite Hin. cbn [negb].
    lifted Hor. lifted HC. lifted Hsplit. cbn [fst snd].
    rewrite (bind_Returned _ _ _ _ _ Hs). cbn beta iota.
    destruct (decide (code (stat_Status statRes) <> CODE_OK)); [contradiction|].
    rewrite Hinfo. cbn [deref]. rewrite bind_ret.
    destruct (decide (Type_ info <> RESOURCE_TYPE_REFERENCE)); [reflexivity|contradiction].
  - enter @Delete Hp. rewrite Hin. cbn [negb].
    lifted HF. lifted HN. lifted HC. lifted Hsplit. cbn [fst snd].
    rewrite (bind_Returned _ _ _ _ _ Hs). cbn beta iota.
    destruct (decide (code (stat_Status statRes) <> CODE_OK)); [contradiction|].
    rewrite Hinfo. cbn [deref]. rewrite bind_ret.
    destruct (decide (Type_ info <> RESOURCE_TYPE_REFERENCE)); [reflexivity|contradiction].
Qed.

(** X10: [Delete] is refused on the share folder with an invalid-argument
    status and no remote call; on a share name it deletes the mount point
    itself: the request goes out with the path [p], not with the target. *)
Theorem Delete_share_folder_and_name (p : string) :
  (classify c p = Returned (Some SharedFolder) ->
   forall req w w1,
     getPath B c (delete_Ref req) [] w = (Returned (inl p), w1) ->
     Delete B c req w
     = (Returned (inl (mkDeleteResponse
                         (mkStatus CODE_INVALID_ARGUMENT
                                   "path points to share folder or share name"))), w1)) /\
  (classify c p = Returned (Some ShareName) ->
   forall req w w1,
     getPath B c (delete_Ref req) [] w = (Returned (inl p), w1) ->
     Delete B c req w = delete B c (mkDeleteRequest (Reference_Path p)) w1).
Proof.
  split; intros Hc req w w1 Hp.
  - apply classify_SharedFolder in Hc. destruct Hc as (Hin & HF).
    enter @Delete Hp. rewrite Hin. cbn [negb]. lifted HF. reflexivity.
  - apply classify_ShareName in Hc. destruct Hc as (Hin & HF & HN).
    enter @Delete Hp. rewrite Hin. cbn [negb]. lifted HF. lifted HN. reflexivity.
Qed.
End Forwarding.

(** ** Moves and listings *)

Section MovesAndListings.
Import Gateway.
Context {S : Type} (B : Backend S) (c : config).

Ltac lifted H :=
  unfold bind at 1; rewrite lift_run, H; cbn [and_then or_else]; cbn beta iota.


(** X11: [Move] between two share names goes out unchanged (the mount point
    is renamed); between children of two different shares it is refused with
    an internal status and no remote call; between children of one share
    both sides are rewritten below the target, which is resolved once. *)
Theorem Move_inside_shares req p dp w w1 w2 :
  getPath B c (Source req) [] w = (Returned (inl p), w1) ->
  getPath B c (Destination req) [] w1 = (Returned (inl dp), w2) ->
  inSharedFolder c p = true ->
  (isShareName c p = Returned true -> isShareName c dp = Returned true ->
   Move B c req w = move B c req w2) /\
  (forall shareName shareChild dshareName dshareChild,
      isShareName c p = Returned false ->
      isShareChild c p = Returned true -> isShareChild c dp = Returned true ->
      splitShare p = Returned (shareName, shareChild) ->
      splitShare dp = Returned (dshareName, dshareChild) ->
      (shareName <> dshareName ->
       Move B c req w
       = (Returned (inl (mkMoveResponse (mkStatus CODE_INTERNAL "gateway: error moving"))),
          w2)) /\
      (shareName = dshareName ->
       forall statRes info ri w3 w4,
         stat B c (mkStatRequest (Reference_Path shareName) []) w2
         = (Returned (inl statRes), w3) ->
         code (stat_Status statRes) = CODE_OK ->
         stat_Info statRes = Some info ->
         checkRef B c (Some info) w3 = (Returned (inl ri), w4) ->
         Move B c req w
         = move B c (mkMoveRequest
                       (Reference_Path (GoPath.Join [Path ri; shareChild]))
                       (Reference_Path (GoPath.Join [Path ri; dshareChild]))) w4)).
Proof.
  intros Hp Hdp Hin. split.
  - intros HN HdN. unfold Move.
    rewrite (bind_Returned _ _ _ _ _ Hp). cbn beta iota.
    rewrite (bind_Returned _ _ _ _ _ Hdp). cbn beta iota.
    rewrite Hin. cbn [negb andb].
    unfold bind at 1. rewrite lift_run, HN, HdN. reflexivity.
  - intros shareName shareChild dshareName dshareChild HN HC HdC Hsp Hdsp.
    split.
    + intros Hne. unfold Move.
      rewrite (bind_Returned _ _ _ _ _ Hp). cbn beta iota.
      rewrite (bind_Returned _ _ _ _ _ Hdp). cbn beta iota.
      rewrite Hin. cbn [negb andb].
      unfold bind at 1. rewrite lift_run, HN. cbn [and_then]. cbn beta iota.
      unfold bind at 1. rewrite lift_run, HC, HdC. cbn [and_then]. cbn beta iota.
      lifted Hsp. lifted Hdsp. cbn [fst snd].
      apply String.eqb_neq in Hne. rewrite Hne. reflexivity.
    + intros Heq statRes info ri w3 w4 Hs Hok Hinfo Hcr.
      pose proof (checkRef_returned _ _ _ _ _ _ Hcr) as Hty.
      unfold Move.
      rewrite (bind_Returned _ _ _ _ _ Hp). cbn beta iota.
      rewrite (bind_Returned _ _ _ _ _ Hdp). cbn beta iota.
      rewrite Hin. cbn [negb andb].
      unfold bind at 1. rewrite lift_run, HN. cbn [and_then]. cbn beta iota.
      unfold bind at 1. rewrite lift_run, HC, HdC. cbn [and_then]. cbn beta iota.
      lifted Hsp. lifted Hdsp. cbn [fst snd].
      rewrite <- Heq, String.eqb_refl. cbn [negb].
      rewrite (bind_Returned _ _ _ _ _ Hs). cbn beta iota.
      destruct (decide (code (stat_Status statRes) <> CODE_OK)); [contradiction|].
      rewrite Hinfo. cbn [deref]. rewrite bind_ret.
      destruct (decide (Type_ info <> RESOURCE_TYPE_REFERENCE)); [contradiction|].
      rewrite (bind_Returned _ _ _ _ _ Hcr). reflexivity.
Qed.


(** X13: when source and destination have the same provider address, [move]
    asks that provider once, with the request as it is, and returns its
    answer (response or error) as it is. *)
Theorem move_same_provider req w srcP w1 dstP w2 r s3 :
  findProvider B c (Source req) w = (Returned (inl srcP), w1) ->
  findProvider B c (Destination req) w1 = (Returned (inl dstP), w2) ->
  Address srcP = Address dstP ->
  pool_GetStorageProviderServiceClient B (Address srcP) (outside w2) = None ->
  provider_Move B (Address srcP) req (outside w2) = (r, s3) ->
  move B c req w
  = (Returned r,
     mkWorld s3 (calls w ++ [RegistryGetStorageProvider (Source req);
                            RegistryGetStorageProvider (Destination req);
                            ProviderMove (Address srcP) req])).
Proof.
  intros Hsrc Hdst Haddr Hpool Hmove. unfold move.
  rewrite (bind_Returned _ _ _ _ _ Hsrc). cbn beta iota.
  rewrite (bind_Returned _ _ _ _ _ Hdst). cbn beta iota.
  rewrite <- Haddr, String.eqb_refl. cbn [negb].
  unfold getStorageProviderClient, bind, query, ret, remote.
  rewrite Hpool, Hmove.
  apply findProvider_success in Hsrc, Hdst. rewrite Hdst, Hsrc.
  now rewrite <- !app_assoc.
Qed.

(** The loop of the shared-folder listing returns only with all children
    resolved. *)
Lemma resolveSharedFolderChildren_returned p infos w r w' :
  resolveSharedFolderChildren B c p infos w = (Returned r, w') ->
  exists out, r = inr out /\ resolved_children B c p infos out w w'.
Proof.
  revert w r w'. induction infos as [|ref rest IH]; intros w r w'.
  - cbn [resolveSharedFolderChildren]. intros [= <- <-].
    exists []. split; reflexivity.
  - cbn [resolveSharedFolderChildren]. unfold bind at 1.
    destruct (checkRef B c (Some ref) w) as [[[info|err]|msg] w1] eqn:Hcr;
      [|intros [=]|intros [=]].
    unfold bind at 1.
    destruct (resolveSharedFolderChildren B c p rest w1) as [[r1|msg] w2] eqn:Hrest;
      [|intros [=]].
    destruct (IH _ _ _ Hrest) as (out & -> & Hout).
    intros [= <- <-]. exists (set_Path info (GoPath.Join [p; GoPath.Base (Path ref)]) :: out).
    split; [reflexivity|]. cbn [resolved_children].
    exists info, w1. repeat split; assumption.
Qed.

Lemma resolved_children_shape p refs out w w' :
  resolved_children B c p refs out w w' ->
  List.length out = List.length refs /\
  Forall (fun info => Type_ info <> RESOURCE_TYPE_REFERENCE) out /\
  Forall2 (fun ref info => Path info = GoPath.Join [p; GoPath.Base (Path ref)]) refs out.
Proof.
  revert out w. induction refs as [|ref refs IH]; intros [|info out] w;
    cbn [resolved_children]; try contradiction.
  - intros _. repeat split; constructor.
  - intros (ri & w1 & Hcr & -> & Hrest).
    destruct (IH _ _ Hrest) as (Hlen & Hty & Hpaths).
    split; [cbn [List.length]; now rewrite Hlen|]. split.
    + constructor; [|assumption]. cbn [Type_ set_Path].
      eapply checkRef_resolved_type, Hcr.
    + constructor; [reflexivity|assumption].
Qed.

(** X14: a listing of the shared folder that returns a response has the
    status of the provider's listing, and its entries are, in order, the
    targets that [checkRef] resolved the listed references to, one after
    the other, each with its path replaced by [path.Join(p, base)] of the
    mount point it came from. So there are as many entries as the provider
    listed and none is a reference. *)
Theorem ListContainer_shared_folder_resolved req p w w1 lcr w2 res w3 :
  getPath B c (list_Ref req) (list_Keys req) w = (Returned (inl p), w1) ->
  classify c p = Returned (Some SharedFolder) ->
  listContainer B c req w1 = (Returned (inl lcr), w2) ->
  ListContainer B c req w = (Returned (inl res), w3) ->
  list_Status res = list_Status lcr /\
  resolved_children B c p (list_Infos lcr) (list_Infos res) w2 w3 /\
  List.length (list_Infos res) = List.length (list_Infos lcr) /\
  Forall (fun info => Type_ info <> RESOURCE_TYPE_REFERENCE) (list_Infos res) /\
  Forall2 (fun ref info => Path info = GoPath.Join [p; GoPath.Base (Path ref)])
          (list_Infos lcr) (list_Infos res).
Proof.
  intros Hp Hc Hl.
  apply classify_SharedFolder in Hc. destruct Hc as (Hin & HF).
  unfold ListContainer. rewrite (bind_Returned _ _ _ _ _ Hp). cbn beta iota.
  rewrite Hin. cbn [negb]. lifted HF.
  rewrite (bind_Returned _ _ _ _ _ Hl). cbn beta iota.
  unfold bind at 1.
  destruct (resolveSharedFolderChildren B c p (list_Infos lcr) w2) as [[r|msg] w'] eqn:E;
    [|intros [=]].
  destruct (resolveSharedFolderChildren_returned _ _ _ _ _ E) as (out & -> & Hout).
  intros [= <- <-]. cbn [list_Status list_Infos].
  split; [reflexivity|]. split; [exact Hout|].
  exact (resolved_children_shape _ _ _ _ _ Hout).
Qed.

(** X15: listing a share name lists the target and gives every child the
    path [path.Join(p, base)]; a target that is not a container is refused
    with an invalid-argument status before any listing. *)
Theorem ListContainer_share_name req p w w1 res info ri w2 w3 :
  getPath B c (list_Ref req) (list_Keys req) w = (Returned (inl p), w1) ->
  classify c p = Returned (Some ShareName) ->
  stat B c (mkStatRequest (Reference_Path p) []) w1 = (Returned (inl res), w2) ->
  code (stat_Status res) = CODE_OK ->
  stat_Info res = Some info ->
  checkRef B c (Some info) w2 = (Returned (inl ri), w3) ->
  (Type_ ri <> RESOURCE_TYPE_CONTAINER ->
   ListContainer B c req w
   = (Returned (inl (mkListContainerResponse
                       (mkStatus CODE_INVALID_ARGUMENT "resource is not a container") [])),
      w3)) /\
  (Type_ ri = RESOURCE_TYPE_CONTAINER ->
   forall newRes w4,
     listContainer B c (mkListContainerRequest (Reference_Path (Path ri)) (list_Keys req)) w3
     = (Returned (inl newRes), w4) ->
     code (list_Status newRes) = CODE_OK ->
     ListContainer B c req w
     = (Returned (inl (mkListContainerResponse
                         (list_Status newRes)
                         (map (fun child =>
                                 set_Path child (GoPath.Join [p; GoPath.Base (Path child)]))
                              (list_Infos newRes)))),
        w4)).
Proof.
  intros Hp Hc Hs Hok Hinfo Hcr.
  apply classify_ShareName in Hc. destruct Hc as (Hin & HF & HN).
  assert (Hrun :
           ListContainer B c req w
           = (if decide (Type_ ri <> RESOURCE_TYPE_CONTAINER)
              then ret (list_status (NewInvalidArg "resource is not a container"))
              else
                r <- listContainer B c
                       (mkListContainerRequest (Reference_Path (Path ri)) (list_Keys req)) ;;
                match r with
                | inr err => ret (list_status (NewInternal err "gateway: error listing"))
                | inl newRes =>
                    if decide (code (list_Status newRes) <> CODE_OK) then
                      ret (list_status
                             (NewInternal
                                (status_NewErrorFromCode (code (list_Status newRes)) "gateway")
                                "gateway: error listing"))
                    else
                      ret (inl (mkListContainerResponse
                                  (list_Status newRes)
                                  (map (fun child =>
                                          set_Path child
                                            (GoPath.Join [p; GoPath.Base (Path child)]))
                                       (list_Infos newRes))))
                end) w3).
  { unfold ListContainer. rewrite (bind_Returned _ _ _ _ _ Hp). cbn beta iota.
    rewrite Hin. cbn [negb]. lifted HF. lifted HN.
    rewrite (bind_Returned _ _ _ _ _ Hs). cbn beta iota.
    destruct (decide (code (stat_Status res) <> CODE_OK)); [contradiction|].
    rewrite Hinfo, (bind_Returned _ _ _ _ _ Hcr). reflexivity. }
  rewrite Hrun. split.
  - intros Hty. destruct (decide (Type_ ri <> RESOURCE_TYPE_CONTAINER)); [reflexivity|contradiction].
  - intros Hty newRes w4 Hl Hlok.
    destruct (decide (Type_ ri <> RESOURCE_TYPE_CONTAINER)); [contradiction|].
    rewrite (bind_Returned _ _ _ _ _ Hl). cbn beta iota.
    destruct (decide (code (list_Status newRes) <> CODE_OK)); [contradiction|reflexivity].
Qed.

(** X16: an upload that the provider answers with a status other than OK
    is answered with an internal status, after the one call to the
    provider; nothing is signed and the clock is not read. *)
Theorem initiateFileUpload_refused req client storageRes w w1 s2 :
  find B c (upload_Ref req) w = (Returned (inl client), w1) ->
  provider_InitiateFileUpload B client req (outside w1) = (inl storageRes, s2) ->
  code (pul_Status storageRes) <> CODE_OK ->
  initiateFileUpload B c req w
  = (Returned (inl (mkInitiateFileUploadResponse
                      (mkStatus CODE_INTERNAL "error initiating upload") "" [] "")),
     mkWorld s2 (calls w1 ++ [ProviderInitiateFileUpload client req])).
Proof.
  intros Hfind Hprov Hcode. unfold initiateFileUpload.
  rewrite (bind_Returned _ _ _ _ _ Hfind). cbn beta iota.
  unfold bind at 1, remote. rewrite Hprov.
  destruct (decide (code (pul_Status storageRes) <> CODE_OK)); [reflexivity|contradiction].
Qed.

(** X27: [splitShare] does not panic on a share child, the only paths it is
    called on: it answers with the share name, whose second element is the
    share folder, and with the child below it, which is not the root. *)
Theorem share_child_splits p :
  isShareChild c p = Returned true ->
  exists e0 e2 e3,
    splitPath p = [e0; ShareFolder c; e2; e3] /\ e3 <> "" /\
    splitShare p = Returned (GoPath.Join ["/"; e0; ShareFolder c; e2],
                             GoPath.Join ["/"; e3]).
Proof.
  unfold isShareChild, split, splitShare. change (4 <? 2)%nat with false. cbn iota.
  destruct (List.length (splitPath p) <? 2)%nat; [discriminate|].
  destruct (String.eqb_spec (nth 1 (splitPath p) "") (ShareFolder c)) as [E|E];
    cbn [negb]; [|discriminate].
  destruct (Nat.eqb_spec (List.length (splitPath p)) 4) as [Hlen|Hlen];
    cbn [andb negb]; [|discriminate].
  destruct (splitPath p) as [|e0 [|e1 [|e2 [|e3 [|? ?]]]]]; try discriminate.
  cbn [nth Nat.sub] in *. subst e1.
  destruct (String.eqb_spec e3 "") as [E3|E3]; cbn [negb]; [discriminate|].
  intros _. now exists e0, e2, e3.
Qed.

(** X28: [InitiateFileDownload] begins with the plain [stat] of the
    reference as the request has it, whatever the shape of its path: when
    that stat answers with a status other than OK the download is answered
    with not-found ("gateway: file not found") for a not-found status and
    with an internal status otherwise, after the calls of that stat
    alone. *)
Theorem download_stats_first req statRes w w1 :
  stat B c (mkStatRequest (download_Ref req) []) w = (Returned (inl statRes), w1) ->
  code (stat_Status statRes) <> CODE_OK ->
  InitiateFileDownload B c req w
  = (Returned (inl (mkInitiateFileDownloadResponse
                      (if decide (code (stat_Status statRes) = CODE_NOT_FOUND)
                       then mkStatus CODE_NOT_FOUND "gateway: file not found"
                       else mkStatus CODE_INTERNAL "gateway: error stating ref")
                      "" "")),
     w1).
Proof.
  intros Hs Hcode. unfold InitiateFileDownload.
  rewrite (bind_Returned _ _ _ _ _ Hs). cbn beta iota.
  destruct (decide (code (stat_Status statRes) <> CODE_OK)); [|contradiction].
  destruct (decide (code (stat_Status statRes) = CODE_NOT_FOUND)); reflexivity.
Qed.

(** X29: once that stat has answered OK, a download on a plain path is
    the plain download of the unchanged request, and a download on a share
    child whose share name resolves is the plain download of
    [path.Join(target, child)]. *)
Theorem download_forwarded req statRes p w w1 w2 :
  stat B c (mkStatRequest (download_Ref req) []) w = (Returned (inl statRes), w1) ->
  code (stat_Status statRes) = CODE_OK ->
  getPath B c (download_Ref req) [] w1 = (Returned (inl p), w2) ->
  (classify c p = Returned (Some PlainPath) ->
   InitiateFileDownload B c req w = initiateFileDownload B c req w2) /\
  (classify c p = Returned (Some ShareChild) ->
   forall shareName shareChild nameRes info ri w3 w4,
     splitShare p = Returned (shareName, shareChild) ->
     stat B c (mkStatRequest (Reference_Path shareName) []) w2
     = (Returned (inl nameRes), w3) ->
     code (stat_Status nameRes) = CODE_OK ->
     stat_Info nameRes = Some info ->
     checkRef B c (Some info) w3 = (Returned (inl ri), w4) ->
     InitiateFileDownload B c req w
     = initiateFileDownload B c
         (mkInitiateFileDownloadRequest
            (Reference_Path (GoPath.Join [Path ri; shareChild]))) w4).
Proof.
  intros Hs Hok Hp.
  assert (Hstart :
           InitiateFileDownload B c req w
           = (if negb (inSharedFolder c p) then initiateFileDownload B c req
              else
                denied <- lift (or_else (isSharedFolder c p) (isShareName c p)) ;;
                if denied : bool then
                  ret (download_status
                         (NewInvalidArg "path points to share folder or share name"))
                else
                  isChild <- lift (isShareChild c p) ;;
                  if isChild : bool then
                    sh <- lift (splitShare p) ;;
                    r <- stat B c (mkStatRequest (Reference_Path (fst sh)) []) ;;
                    match r with
                    | inr err =>
                        ret (download_status
                               (NewInternal err "gateway: error creating container"))
                    | inl statRes =>
                        if decide (code (stat_Status statRes) <> CODE_OK) then
                          ret (download_status
                                 (NewInternal
                                    (status_NewErrorFromCode (code (stat_Status statRes))
                                                             "gateway")
                                    "gateway: error creating container"))
                        else
                          info <- deref (stat_Info statRes) ;;
                          if decide (Type_ info <> RESOURCE_TYPE_REFERENCE) then
                            ret (download_status
                                   (NewInternal
                                      (errors_New ("gateway: expected reference: got:"
                                                     ++ ResourceInfo_String info))
                                      "gateway: error creating container"))
                          else
                            r <- checkRef B c (stat_Info statRes) ;;
                            match r with
                            | inr err =>
                                ret (download_status
                                       (NewInternal err "error creating container"))
                            | inl ri =>
                                initiateFileDownload B c
                                  (mkInitiateFileDownloadRequest
                                     (Reference_Path (GoPath.Join [Path ri; snd sh])))
                            end
                    end
                  else panic ("gateway: download: unknown path:" ++ p)) w2).
  { unfold InitiateFileDownload.
    rewrite (bind_Returned _ _ _ _ _ Hs). cbn beta iota.
    destruct (decide (code (stat_Status statRes) <> CODE_OK)); [contradiction|].
    rewrite (bind_Returned _ _ _ _ _ Hp). reflexivity. }
  rewrite Hstart. split.
  - intros Hc. apply classify_Plain in Hc. now rewrite Hc.
  - intros Hc shareName shareChild nameRes info ri w3 w4 Hsp Hn Hnok Hinfo Hcr.
    apply classify_ShareChild in Hc. destruct Hc as (Hin & HF & HN & HC).
    pose proof (checkRef_returned _ _ _ _ _ _ Hcr) as Hty.
    rewrite Hin. cbn [negb].
    unfold bind at 1. rewrite lift_run, HF, HN. cbn [or_else]. cbn beta iota.
    lifted HC. lifted Hsp. cbn [fst snd].
    rewrite (bind_Returned _ _ _ _ _ Hn). cbn beta iota.
    destruct (decide (code (stat_Status nameRes) <> CODE_OK)); [contradiction|].
    rewrite Hinfo. cbn [deref]. rewrite bind_ret.
    destruct (decide (Type_ info <> RESOURCE_TYPE_REFERENCE)); [contradiction|].
    rewrite (bind_Returned _ _ _ _ _ Hcr). reflexivity.
Qed.
End MovesAndListings.

(** * Further properties of the authorizer *)

Section AuthorizerLookups.
Import Authorizer.
Import Gateway (outcome, Returned, Panicked, nil_dereference).







Context (net_LookupIP : string -> list string + error).


(** X19: with [verify_request_hostname] on, an authorizer built by [New]
    accepts no provider: whatever the provider and the resolver, the call
    does not return nil (it returns an error or panics), it does not
    depend on the resolver, which is never asked, and it leaves the
    authorizer as it was. The cache that the lookups would fill is nil and
    stays nil. *)
Theorem New_never_verifies {ConfMap : Type}
        (mapstructure_Decode : ConfMap -> config + error)
        (ioutil_ReadFile : string -> string + error)
        (json_Unmarshal : string -> list ProviderInfo + error)
        (m : ConfMap) (a : authorizer) (provider : ProviderInfo) :
  New mapstructure_Decode ioutil_ReadFile json_Unmarshal m = inl a ->
  VerifyRequestHostname (conf a) = true ->
  fst (IsProviderAllowed net_LookupIP a provider) <> Returned None /\
  snd (IsProviderAllowed net_LookupIP a provider) = a /\
  forall lookup' : string -> list string + error,
    IsProviderAllowed lookup' a provider = IsProviderAllowed net_LookupIP a provider.
Proof.
  intros Hnew Hverify.
  assert (Hnil : providerIPs a = None).
  { unfold New in Hnew.
    destruct (mapstructure_Decode m) as [c0|]; [|discriminate].
    destruct (ioutil_ReadFile _) as [f|]; [|discriminate].
    destruct (json_Unmarshal f) as [ps|]; [|discriminate].
    injection Hnew as <-. reflexivity. }
  unfold IsProviderAllowed. rewrite Hverify, Hnil. cbn [negb Load].
  destruct (negb (if negb (String.eqb (Domain provider) "")
                  then domainListed (providers a) (Domain provider) false
                  else true)).
  - repeat split. discriminate.
  - destruct (List.length (Services provider) =? 0)%nat.
    + repeat split. discriminate.
    + destruct (getOCMHost provider) as [[host|err]|msg]; repeat split; discriminate.
Qed.
End AuthorizerLookups.

(** * Properties of the invite manager *)

Section Invites.
Import InviteManager.
Import Gateway (outcome, Returned, Panicked, nil_dereference).

Implicit Types (m : manager) (u v : User) (l : list User) (rid : UserId).

(** A refusal of the loop of [AcceptInvite] says that nobody accepted so
    far has both ids of the new user. *)
Lemma alreadyAccepted_false l u :
  alreadyAccepted l u = Returned false ->
  Forall (fun v => (GetOpaqueId (Id v), GetIdp (Id v))
                   <> (GetOpaqueId (Id u), GetIdp (Id u))) l.
Proof.
  induction l as [|v l IH]; cbn [alreadyAccepted]; [constructor|].
  destruct (Id u) as [rid|] eqn:Hid; [|discriminate].
  destruct (String.eqb_spec (GetOpaqueId (Id v)) (OpaqueId rid)) as [E1|E1];
    [destruct (String.eqb_spec (GetIdp (Id v)) (Idp rid)) as [E2|E2]|];
    cbn [andb]; [discriminate| |]; intros H; constructor; auto;
    cbn [GetOpaqueId GetIdp]; congruence.
Qed.


Lemma findRemoteUser_appended l u rid :
  Id u = Some rid ->
  (exists v, findRemoteUser (l ++ [u]) (Some rid) = Returned (inl v) /\
             GetOpaqueId (Id v) = OpaqueId rid) /\
  (Idp rid <> "" ->
   Forall (fun v => (GetOpaqueId (Id v), GetIdp (Id v))
                    <> (GetOpaqueId (Id u), GetIdp (Id u))) l ->
   findRemoteUser (l ++ [u]) (Some rid) = Returned (inl u)).
Proof.
  intros Hid. induction l as [|v l [IH1 IH2]]; cbn [findRemoteUser app].
  - rewrite Hid. cbn [GetOpaqueId GetIdp]. rewrite !String.eqb_refl, orb_true_r.
    cbn [andb]. split; [|reflexivity]. exists u. now rewrite Hid.
  - split.
    + destruct (String.eqb_spec (GetOpaqueId (Id v)) (OpaqueId rid)) as [E|E];
        cbn [andb]; [|exact IH1].
      destruct (_ || _); [|exact IH1]. now exists v.
    + intros Hidp Hall. inversion Hall as [|? ? Hv Hl]; subst.
      rewrite Hid in Hv. cbn [GetOpaqueId GetIdp] in Hv.
      apply String.eqb_neq in Hidp. rewrite Hidp. cbn [orb].
      destruct (String.eqb_spec (GetOpaqueId (Id v)) (OpaqueId rid)) as [E1|E1];
        [destruct (String.eqb_spec (GetIdp (Id v)) (Idp rid)) as [E2|E2]|];
        cbn [andb]; [congruence| |]; apply IH2; auto; now apply String.eqb_neq.
Qed.

(** X21: a user that [AcceptInvite] has accepted is found by
    [GetRemoteUser] when the inviting user asks with the ids of that user:
    the answer has the opaque id asked for, and is the accepted user itself
    when the idp asked for is not empty (an empty idp matches the first
    accepted user with the opaque id). *)
Theorem accepted_user_is_found m (now : Z) (invite : option InviteToken) tok u rid
        (ctxUser : User) m' :
  getTokenIfValid m now invite = Returned (inl tok) ->
  AcceptInvite m now invite u = (Returned None, m') ->
  Id u = Some rid ->
  GetOpaqueId (Id ctxUser) = GetOpaqueId (token_UserId tok) ->
  (exists v, GetRemoteUser m' ctxUser (Some rid) = Returned (inl v) /\
             GetOpaqueId (Id v) = OpaqueId rid) /\
  (Idp rid <> "" -> GetRemoteUser m' ctxUser (Some rid) = Returned (inl u)).
Proof.
  intros Htok Hacc Hid Hctx. unfold AcceptInvite in Hacc. rewrite Htok in Hacc.
  unfold GetRemoteUser. rewrite Hctx.
  destruct (AcceptedUsers m !! GetOpaqueId (token_UserId tok)) as [l|] eqn:Hl.
  - destruct (alreadyAccepted l u) as [[|]|] eqn:Hno; try discriminate.
    injection Hacc as <-. cbn [AcceptedUsers]. rewrite lookup_insert_eq.
    destruct (findRemoteUser_appended l u rid Hid) as [H1 H2].
    split; [exact H1|]. intros Hidp. apply H2; [exact Hidp|].
    now apply alreadyAccepted_false.
  - injection Hacc as <-. cbn [AcceptedUsers]. rewrite lookup_insert_eq.
    destruct (findRemoteUser_appended [] u rid Hid) as [H1 H2].
    split; [exact H1|]. intros Hidp. apply H2; [exact Hidp|constructor].
Qed.



(** X24: no inviting user ever holds two accepted users with the same
    opaque id and idp: when this is so before [AcceptInvite], it is so
    after it. *)
Theorem accepted_ids_stay_distinct m (now : Z) (invite : option InviteToken) u
        (o : outcome (option error)) m' :
  (forall k l, AcceptedUsers m !! k = Some l ->
               NoDup (map (fun v => (GetOpaqueId (Id v), GetIdp (Id v))) l)) ->
  AcceptInvite m now invite u = (o, m') ->
  forall k l, AcceptedUsers m' !! k = Some l ->
              NoDup (map (fun v => (GetOpaqueId (Id v), GetIdp (Id v))) l).
Proof.
  intros Hinv. unfold AcceptInvite.
  destruct (getTokenIfValid m now invite) as [[tok|err]|msg] eqn:Htok.
  2, 3: intros [= <- <-]; exact Hinv.
  destruct (AcceptedUsers m !! GetOpaqueId (token_UserId tok)) as [l0|] eqn:Hl.
  - destruct (alreadyAccepted l0 u) as [[|]|msg] eqn:Hno.
    1, 3: intros [= <- <-]; exact Hinv.
    intros [= <- <-] k l. cbn [AcceptedUsers].
    destruct (decide (k = GetOpaqueId (token_UserId tok))) as [->|Hne].
    + rewrite lookup_insert_eq. intros [= <-].
      rewrite map_app. cbn [map].
      apply NoDup_app. split; [now apply (Hinv _ _ Hl)|]. split.
      * intros x Hx Hu. apply list_elem_of_singleton in Hu. subst x.
        apply list_elem_of_In, in_map_iff in Hx. destruct Hx as (v & Hv & Hin).
        pose proof (alreadyAccepted_false _ _ Hno) as Hall.
        rewrite List.Forall_forall in Hall. now apply (Hall v Hin).
      * apply NoDup_singleton.
    + rewrite lookup_insert_ne by congruence. apply Hinv.
  - intros [= <- <-] k l. cbn [AcceptedUsers].
    destruct (decide (k = GetOpaqueId (token_UserId tok))) as [->|Hne].
    + rewrite lookup_insert_eq. intros [= <-]. apply NoDup_singleton.
    + rewrite lookup_insert_ne by congruence. apply Hinv.
Qed.

(** X25: a token that [GenerateToken] has handed out is accepted by
    [getTokenIfValid] up to and including the second of its expiration and
    refused after it, and a clock before 1970 makes it expired (the reading
    is converted to [uint64]); the tokens handed out before under other
    names stay, and no accepted user changes. *)
Theorem generated_token_valid_until_expiry
        (token_CreateToken : string -> option UserId -> InviteToken + error)
        m (ctxUser : User) tok (e : Timestamp) m' :
  GenerateToken token_CreateToken m ctxUser = (inl tok, m') ->
  Expiration tok = Some e ->
  (0 <= Seconds e < 2 ^ 63)%Z ->
  (forall now, (- 2 ^ 63 <= now < 2 ^ 63)%Z ->
               ((0 <= now <= Seconds e)%Z ->
                getTokenIfValid m' now (Some tok) = Returned (inl tok)) /\
               (~ (0 <= now <= Seconds e)%Z ->
                getTokenIfValid m' now (Some tok)
                = Returned (inr (errors_New "memory: token expired")))) /\
  (forall t, t <> Token tok -> Invites m' !! t = Invites m !! t) /\
  AcceptedUsers m' = AcceptedUsers m.
Proof.
  intros Hgen Hexp He. unfold GenerateToken in Hgen.
  destruct (token_CreateToken _ _) as [t|err]; [|discriminate].
  injection Hgen as -> <-. cbn [Invites AcceptedUsers].
  split; [|split; [|reflexivity]].
  - intros now Hnow. unfold getTokenIfValid. cbn [Invites GetToken].
    rewrite lookup_insert_eq, Hexp. unfold uint64. split; intros H.
    + rewrite Z.mod_small by lia.
      destruct (Z.gtb_spec now (Seconds e)); [lia|reflexivity].
    + destruct (Z.gtb_spec (now mod 2 ^ 64) (Seconds e)) as [_|Hle]; [reflexivity|].
      exfalso. destruct (Z.lt_ge_cases now 0) as [Hneg|Hpos].
      * assert (now mod 2 ^ 64 = now + 2 ^ 64)%Z.
        { symmetry. apply (Z.mod_unique _ _ (-1)); lia. }
        lia.
      * rewrite Z.mod_small in Hle by lia. lia.
  - intros t0 Hne. now rewrite lookup_insert_ne.
Qed.

(** X26: what [GetRemoteUser] returns comes from the list of the asking
    user alone. A user it returns is the first of that list that has the
    opaque id asked for and, unless the idp asked for is empty, that idp;
    an error it returns is not-found with the opaque id as message, and
    then no user of that list has these ids. Asked with a nil user id it
    panics, whoever asks. *)
Theorem GetRemoteUser_first_match m (ctxUser : User) rid :
  (forall v,
      GetRemoteUser m ctxUser (Some rid) = Returned (inl v) ->
      exists before after,
        AcceptedUsers m !! GetOpaqueId (Id ctxUser) = Some (before ++ v :: after) /\
        (GetOpaqueId (Id v) = OpaqueId rid /\
         (Idp rid = "" \/ GetIdp (Id v) = Idp rid)) /\
        Forall (fun x => ~ (GetOpaqueId (Id x) = OpaqueId rid /\
                            (Idp rid = "" \/ GetIdp (Id x) = Idp rid))) before) /\
  (forall err,
      GetRemoteUser m ctxUser (Some rid) = Returned (inr err) ->
      err = errtypes_NotFound (OpaqueId rid) /\
      forall l,
        AcceptedUsers m !! GetOpaqueId (Id ctxUser) = Some l ->
        Forall (fun x => ~ (GetOpaqueId (Id x) = OpaqueId rid /\
                            (Idp rid = "" \/ GetIdp (Id x) = Idp rid))) l) /\
  GetRemoteUser m ctxUser None = Panicked nil_dereference.
Proof.
  assert (Hmatch : forall v,
             String.eqb (GetOpaqueId (Id v)) (OpaqueId rid)
             && (String.eqb (Idp rid) "" || String.eqb (GetIdp (Id v)) (Idp rid)) = true <->
             GetOpaqueId (Id v) = OpaqueId rid /\
             (Idp rid = "" \/ GetIdp (Id v) = Idp rid)).
  { intros v. now rewrite andb_true_iff, orb_true_iff, !String.eqb_eq. }
  assert (Hloop : forall l,
             (forall v, findRemoteUser l (Some rid) = Returned (inl v) ->
                        exists before after,
                          l = before ++ v :: after /\
                          (GetOpaqueId (Id v) = OpaqueId rid /\
                           (Idp rid = "" \/ GetIdp (Id v) = Idp rid)) /\
                          Forall (fun x => ~ (GetOpaqueId (Id x) = OpaqueId rid /\
                                              (Idp rid = "" \/ GetIdp (Id x) = Idp rid)))
                                 before) /\
             (forall err, findRemoteUser l (Some rid) = Returned (inr err) ->
                          err = errtypes_NotFound (OpaqueId rid) /\
                          Forall (fun x => ~ (GetOpaqueId (Id x) = OpaqueId rid /\
                                              (Idp rid = "" \/ GetIdp (Id x) = Idp rid)))
                                 l)).
  { induction l as [|x l (IH1 & IH2)]; cbn [findRemoteUser].
    - split; [discriminate|]. intros err [= <-]. split; [reflexivity|constructor].
    - destruct (_ && _) eqn:E.
      + apply Hmatch in E. split; [|discriminate].
        intros v [= <-]. exists [], l. repeat split; try apply E. constructor.
      + assert (Hx : ~ (GetOpaqueId (Id x) = OpaqueId rid /\
                        (Idp rid = "" \/ GetIdp (Id x) = Idp rid))).
        { rewrite <- Hmatch, E. discriminate. }
        split.
        * intros v H. destruct (IH1 _ H) as (before & after & -> & Hv & Hb).
          exists (x :: before), after. repeat split; try apply Hv. now constructor.
        * intros err H. destruct (IH2 _ H) as (-> & Hl).
          split; [reflexivity|now constructor]. }
  unfold GetRemoteUser. split; [|split].
  - destruct (AcceptedUsers m !! GetOpaqueId (Id ctxUser)) as [l|]; [|discriminate].
    intros v H. destruct (proj1 (Hloop l) _ H) as (before & after & -> & Hv & Hb).
    now exists before, after.
  - destruct (AcceptedUsers m !! GetOpaqueId (Id ctxUser)) as [l|].
    + intros err H. destruct (proj2 (Hloop l) _ H) as (-> & Hl).
      split; [reflexivity|]. now intros l' [= <-].
    + intros err [= <-]. split; [reflexivity|discriminate].
  - destruct (AcceptedUsers m !! GetOpaqueId (Id ctxUser)) as [l|]; [|reflexivity].
    now destruct l.
Qed.
End Invites.

(** * Properties of the invite manager that keeps a file *)

Section InviteFiles.
Import InviteManager (UserId(..), User(..), InviteToken(..), error(..),
                      Id, token_UserId, GetOpaqueId, alreadyAccepted).
Import InviteFile.
Import Gateway (outcome, Returned, Panicked).
Context {FS : Type}
        (json_Marshal : inviteModel -> string + error)
        (ioutil_WriteFile : string -> string -> FS -> option error * FS).

End InviteFiles.

(** * Further examples *)

Section RoutingExamples.
Import Gateway Scenario.

Lemma stat_without_provider_witness :
  stat backend cfg (stat_of_path "/nowhere") (world_at 0)
  = (Returned (inl (mkStatResponse
                      (mkStatus CODE_NOT_FOUND "storage provider not found") None)),
     mkWorld 0%Z [RegistryGetStorageProvider (Reference_Path "/nowhere")]).
Proof.
  apply (proj1 (stat_without_provider backend cfg (stat_of_path "/nowhere") (world_at 0)
                  eq_refl)
               (registry (Reference_Path "/nowhere")) 0%Z eq_refl).
  vm_compute. discriminate.
Defined.

Lemma checkRef_one_hop_witness :
  checkRef backend cfg (Some photos) (world_at 0)
  = (Returned (inl photos_target), mkWorld 0%Z Resolving.resolve_calls) /\
  (Resolving.resolve_calls = [] \/
   exists id,
     Resolving.resolve_calls = [] ++ [RegistryGetStorageProvider (Reference_Id id)] \/
     exists addr,
       Resolving.resolve_calls
       = [] ++ [RegistryGetStorageProvider (Reference_Id id);
                ProviderStat addr (mkStatRequest (Reference_Id id) [])]).
Proof.
  split; [reflexivity|].
  apply (checkRef_one_hop backend cfg (Some photos) (world_at 0)
           (Returned (inl photos_target)) (mkWorld 0%Z Resolving.resolve_calls) eq_refl).
Defined.

Lemma checkRef_not_reference_witness :
  checkRef backend cfg (Some photos) (world_at 0)
  = (Returned (inl photos_target), mkWorld 0%Z Resolving.resolve_calls) /\
  Type_ photos_target <> RESOURCE_TYPE_REFERENCE.
Proof.
  split; [reflexivity|].
  apply (proj1 (checkRef_not_reference backend cfg (Some photos) (world_at 0) photos_target
                  (mkWorld 0%Z Resolving.resolve_calls) eq_refl)).
Defined.

Lemma checkRef_malformed_witness :
  exists err,
    checkRef backend cfg
      (Some (info RESOURCE_TYPE_REFERENCE "/home/MyShares/dav" "webdav:abc/def")) (world_at 0)
    = (Returned (inr err), world_at 0).
Proof.
  apply (checkRef_malformed backend cfg
           (info RESOURCE_TYPE_REFERENCE "/home/MyShares/dav" "webdav:abc/def")
           (world_at 0) eq_refl).
  right. right. exists (mkURL "webdav" "abc/def" "webdav:abc/def").
  split; [reflexivity|]. left. vm_compute. discriminate.
Defined.

Lemma getPath_without_path_witness :
  getPath backend cfg (Reference_Id (mkResourceId "abc" "")) [] (world_at 0)
  = (Returned (inr (errors_New
                      ("gateway: ref is invalid:"
                         ++ Reference_String (Reference_Id (mkResourceId "abc" ""))))),
     world_at 0) /\
  getPath backend cfg (Reference_Id (mkResourceId "abc" "def")) [] (world_at 0)
  = (Returned (inl "/eos/user/b/photos"), mkWorld 0%Z Resolving.resolve_calls).
Proof.
  split.
  - apply (proj1 (getPath_without_path backend cfg (Reference_Id (mkResourceId "abc" ""))
                    [] (world_at 0) eq_refl)).
    right. exists (mkResourceId "abc" ""). split; reflexivity.
  - apply (proj2 (getPath_without_path backend cfg (Reference_Id (mkResourceId "abc" "def"))
                    [] (world_at 0) eq_refl)
                 (mkResourceId "abc" "def") (mkStatResponse ok (Some photos_target))
                 (mkWorld 0%Z Resolving.resolve_calls) eq_refl);
      [vm_compute; discriminate|reflexivity|reflexivity].
Defined.

Lemma plain_path_forwarded_witness :
  classify cfg "/eos/user/a/f" = Returned (Some PlainPath) /\
  Stat backend cfg (stat_of_path "/eos/user/a/f") (world_at 0)
  = stat backend cfg (stat_of_path "/eos/user/a/f") (world_at 0) /\
  Delete backend cfg (mkDeleteRequest (Reference_Path "/eos/user/a/f")) (world_at 0)
  = delete backend cfg (mkDeleteRequest (Reference_Path "/eos/user/a/f")) (world_at 0).
Proof.
  split; [reflexivity|].
  destruct (plain_path_forwarded backend cfg "/eos/user/a/f" eq_refl)
    as (HStat & _ & _ & HDelete & _).
  split.
  - apply (HStat (stat_of_path "/eos/user/a/f") (world_at 0) (world_at 0) eq_refl).
  - apply (HDelete (mkDeleteRequest (Reference_Path "/eos/user/a/f"))
                   (world_at 0) (world_at 0) eq_refl).
Defined.

Lemma share_child_rewritten_witness :
  Stat backend cfg (stat_of_path "/home/MyShares/photos/Ibiza/beach.png") (world_at 0)
  = stat backend cfg (stat_of_path "/eos/user/b/photos/Ibiza/beach.png")
         (mkWorld 0%Z (Resolving.stat_calls_of "home.example:9000" "/home/MyShares/photos"
                         ++ Resolving.resolve_calls)).
Proof.
  apply (proj1 (share_child_rewritten backend cfg
                  "/home/MyShares/photos/Ibiza/beach.png"
                  "/home/MyShares/photos" "/Ibiza/beach.png"
                  (mkStatResponse ok (Some photos)) photos photos_target
                  eq_refl eq_refl eq_refl eq_refl)
               (stat_of_path "/home/MyShares/photos/Ibiza/beach.png")
               (world_at 0) (world_at 0)
               (mkWorld 0%Z (Resolving.stat_calls_of "home.example:9000"
                               "/home/MyShares/photos"))
               (mkWorld 0%Z (Resolving.stat_calls_of "home.example:9000"
                               "/home/MyShares/photos"
                               ++ Resolving.resolve_calls))
               eq_refl eq_refl eq_refl).
Defined.

Lemma share_child_of_non_reference_witness :
  Stat Resolving.backend cfg (stat_of_path "/home/MyShares/notes/a") (world_at 0)
  = (Panicked ("gateway: calling checkRef on a non reference type:"
                 ++ ResourceInfo_String Resolving.notes),
     mkWorld 0%Z (Resolving.stat_calls_of "home.example:9000" "/home/MyShares/notes")) /\
  Delete Resolving.backend cfg
    (mkDeleteRequest (Reference_Path "/home/MyShares/notes/a")) (world_at 0)
  = (Returned (inl (mkDeleteResponse (mkStatus CODE_INTERNAL "gateway: error deleting"))),
     mkWorld 0%Z (Resolving.stat_calls_of "home.example:9000" "/home/MyShares/notes")).
Proof.
  destruct (share_child_of_non_reference Resolving.backend cfg
              "/home/MyShares/notes/a" "/home/MyShares/notes" "/a"
              (mkStatResponse ok (Some Resolving.notes)) Resolving.notes
              eq_refl eq_refl eq_refl eq_refl ltac:(vm_compute; discriminate))
    as (HStat & _ & HDelete).
  split.
  - apply (HStat (stat_of_path "/home/MyShares/notes/a") (world_at 0) (world_at 0)
                 (mkWorld 0%Z (Resolving.stat_calls_of "home.example:9000"
                                 "/home/MyShares/notes"))
                 eq_refl eq_refl).
  - apply (HDelete (mkDeleteRequest (Reference_Path "/home/MyShares/notes/a"))
                   (world_at 0) (world_at 0)
                   (mkWorld 0%Z (Resolving.stat_calls_of "home.example:9000"
                                   "/home/MyShares/notes"))
                   eq_refl eq_refl).
Defined.

Lemma Delete_share_folder_and_name_witness :
  Delete backend cfg (mkDeleteRequest (Reference_Path "/home/MyShares")) (world_at 0)
  = (Returned (inl (mkDeleteResponse
                      (mkStatus CODE_INVALID_ARGUMENT
                                "path points to share folder or share name"))),
     world_at 0) /\
  Delete backend cfg (mkDeleteRequest (Reference_Path "/home/MyShares/photos")) (world_at 0)
  = delete backend cfg (mkDeleteRequest (Reference_Path "/home/MyShares/photos")) (world_at 0).
Proof.
  split.
  - apply (proj1 (Delete_share_folder_and_name backend cfg "/home/MyShares") eq_refl
                 (mkDeleteRequest (Reference_Path "/home/MyShares"))
                 (world_at 0) (world_at 0) eq_refl).
  - apply (proj2 (Delete_share_folder_and_name backend cfg "/home/MyShares/photos") eq_refl
                 (mkDeleteRequest (Reference_Path "/home/MyShares/photos"))
                 (world_at 0) (world_at 0) eq_refl).
Defined.

Lemma Move_inside_shares_witness :
  Move backend cfg
    (Resolving.move_of_paths "/home/MyShares/photos" "/home/MyShares/pics") (world_at 0)
  = move backend cfg
      (Resolving.move_of_paths "/home/MyShares/photos" "/home/MyShares/pics") (world_at 0) /\
  Move backend cfg
    (Resolving.move_of_paths "/home/MyShares/photos/a" "/home/MyShares/chain/b") (world_at 0)
  = (Returned (inl (mkMoveResponse (mkStatus CODE_INTERNAL "gateway: error moving"))),
     world_at 0) /\
  Move backend cfg
    (Resolving.move_of_paths "/home/MyShares/photos/a" "/home/MyShares/photos/b") (world_at 0)
  = move backend cfg
      (Resolving.move_of_paths "/eos/user/b/photos/a" "/eos/user/b/photos/b")
      (mkWorld 0%Z (Resolving.stat_calls_of "home.example:9000" "/home/MyShares/photos"
                      ++ Resolving.resolve_calls)).
Proof.
  split; [|split].
  - apply (proj1 (Move_inside_shares backend cfg
                    (Resolving.move_of_paths "/home/MyShares/photos" "/home/MyShares/pics")
                    "/home/MyShares/photos" "/home/MyShares/pics"
                    (world_at 0) (world_at 0) (world_at 0) eq_refl eq_refl eq_refl)
                 eq_refl eq_refl).
  - apply (proj1 (proj2 (Move_inside_shares backend cfg
                           (Resolving.move_of_paths "/home/MyShares/photos/a"
                                                    "/home/MyShares/chain/b")
                           "/home/MyShares/photos/a" "/home/MyShares/chain/b"
                           (world_at 0) (world_at 0) (world_at 0) eq_refl eq_refl eq_refl)
                        "/home/MyShares/photos" "/a" "/home/MyShares/chain" "/b"
                        eq_refl eq_refl eq_refl eq_refl eq_refl)).
    vm_compute. discriminate.
  - apply (proj2 (proj2 (Move_inside_shares backend cfg
                           (Resolving.move_of_paths "/home/MyShares/photos/a"
                                                    "/home/MyShares/photos/b")
                           "/home/MyShares/photos/a" "/home/MyShares/photos/b"
                           (world_at 0) (world_at 0) (world_at 0) eq_refl eq_refl eq_refl)
                        "/home/MyShares/photos" "/a" "/home/MyShares/photos" "/b"
                        eq_refl eq_refl eq_refl eq_refl eq_refl)
                 eq_refl
                 (mkStatResponse ok (Some photos)) photos photos_target
                 (mkWorld 0%Z (Resolving.stat_calls_of "home.example:9000"
                                 "/home/MyShares/photos"))
                 (mkWorld 0%Z (Resolving.stat_calls_of "home.example:9000"
                                 "/home/MyShares/photos"
                                 ++ Resolving.resolve_calls))
                 eq_refl eq_refl eq_refl eq_refl).
Defined.


Lemma move_same_provider_witness :
  move backend cfg (Resolving.move_of_paths "/eos/user/a/f" "/eos/user/a/g") (world_at 0)
  = (Returned (inl (mkMoveResponse ok)),
     mkWorld 0%Z
       [RegistryGetStorageProvider (Reference_Path "/eos/user/a/f");
        RegistryGetStorageProvider (Reference_Path "/eos/user/a/g");
        ProviderMove "p1.example:9000"
          (Resolving.move_of_paths "/eos/user/a/f" "/eos/user/a/g")]).
Proof.
  apply (move_same_provider backend cfg
           (Resolving.move_of_paths "/eos/user/a/f" "/eos/user/a/g") (world_at 0)
           (mkProviderInfo "p1.example:9000" "/eos/user/a")
           (mkWorld 0%Z [RegistryGetStorageProvider (Reference_Path "/eos/user/a/f")])
           (mkProviderInfo "p1.example:9000" "/eos/user/a")
           (mkWorld 0%Z [RegistryGetStorageProvider (Reference_Path "/eos/user/a/f");
                         RegistryGetStorageProvider (Reference_Path "/eos/user/a/g")])
           (inl (mkMoveResponse ok)) 0%Z
           eq_refl eq_refl eq_refl eq_refl eq_refl).
Defined.

Lemma ListContainer_shared_folder_resolved_witness :
  ListContainer Resolving.backend cfg (Resolving.list_of_path "/home/MyShares") (world_at 0)
  = (Returned (inl (mkListContainerResponse
                      ok [set_Path photos_target "/home/MyShares/photos"])),
     mkWorld 0%Z ([RegistryGetStorageProvider (Reference_Path "/home/MyShares");
                   ProviderListContainer "home.example:9000"
                     (Resolving.list_of_path "/home/MyShares")]
                    ++ Resolving.resolve_calls)) /\
  resolved_children Resolving.backend cfg "/home/MyShares" [photos]
    [set_Path photos_target "/home/MyShares/photos"]
    (mkWorld 0%Z [RegistryGetStorageProvider (Reference_Path "/home/MyShares");
                  ProviderListContainer "home.example:9000"
                    (Resolving.list_of_path "/home/MyShares")])
    (mkWorld 0%Z ([RegistryGetStorageProvider (Reference_Path "/home/MyShares");
                   ProviderListContainer "home.example:9000"
                     (Resolving.list_of_path "/home/MyShares")]
                    ++ Resolving.resolve_calls)).
Proof.
  split; [reflexivity|].
  apply (ListContainer_shared_folder_resolved Resolving.backend cfg
           (Resolving.list_of_path "/home/MyShares") "/home/MyShares"
           (world_at 0) (world_at 0)
           (mkListContainerResponse ok [photos])
           (mkWorld 0%Z [RegistryGetStorageProvider (Reference_Path "/home/MyShares");
                         ProviderListContainer "home.example:9000"
                           (Resolving.list_of_path "/home/MyShares")])
           (mkListContainerResponse ok [set_Path photos_target "/home/MyShares/photos"])
           (mkWorld 0%Z ([RegistryGetStorageProvider (Reference_Path "/home/MyShares");
                          ProviderListContainer "home.example:9000"
                            (Resolving.list_of_path "/home/MyShares")]
                           ++ Resolving.resolve_calls))
           eq_refl eq_refl eq_refl eq_refl).
Defined.

Lemma ListContainer_share_name_witness :
  ListContainer Resolving.backend cfg
    (Resolving.list_of_path "/home/MyShares/photos") (world_at 0)
  = (Returned (inl (mkListContainerResponse
                      ok [set_Path Resolving.beach "/home/MyShares/photos/beach.png"])),
     mkWorld 0%Z
       (Resolving.stat_calls_of "home.example:9000" "/home/MyShares/photos"
          ++ Resolving.resolve_calls
          ++ [RegistryGetStorageProvider (Reference_Path "/eos/user/b/photos");
              ProviderListContainer "p2.example:9000"
                (Resolving.list_of_path "/eos/user/b/photos")])).
Proof.
  apply (proj2 (ListContainer_share_name Resolving.backend cfg
                  (Resolving.list_of_path "/home/MyShares/photos") "/home/MyShares/photos"
                  (world_at 0) (world_at 0)
                  (mkStatResponse ok (Some photos)) photos photos_target
                  (mkWorld 0%Z (Resolving.stat_calls_of "home.example:9000"
                                  "/home/MyShares/photos"))
                  (mkWorld 0%Z (Resolving.stat_calls_of "home.example:9000"
                                  "/home/MyShares/photos"
                                  ++ Resolving.resolve_calls))
                  eq_refl eq_refl eq_refl eq_refl eq_refl eq_refl)
               eq_refl
               (mkListContainerResponse ok [Resolving.beach])
               (mkWorld 0%Z
                  (Resolving.stat_calls_of "home.example:9000" "/home/MyShares/photos"
                     ++ Resolving.resolve_calls
                     ++ [RegistryGetStorageProvider (Reference_Path "/eos/user/b/photos");
                         ProviderListContainer "p2.example:9000"
                           (Resolving.list_of_path "/eos/user/b/photos")]))
               eq_refl eq_refl).
Defined.

Lemma initiateFileUpload_refused_witness :
  initiateFileUpload backend cfg
    (mkInitiateFileUploadRequest (Reference_Id (mkResourceId "abc" "def"))) (world_at 5)
  = (Returned (inl (mkInitiateFileUploadResponse
                      (mkStatus CODE_INTERNAL "error initiating upload") "" [] "")),
     mkWorld 5%Z
       [RegistryGetStorageProvider (Reference_Id (mkResourceId "abc" "def"));
        ProviderInitiateFileUpload "p2.example:9000"
          (mkInitiateFileUploadRequest (Reference_Id (mkResourceId "abc" "def")))]).
Proof.
  apply (initiateFileUpload_refused backend cfg
           (mkInitiateFileUploadRequest (Reference_Id (mkResourceId "abc" "def")))
           "p2.example:9000"
           (mkProviderInitiateFileUploadResponse (mkStatus CODE_NOT_FOUND "") "" false [])
           (world_at 5)
           (mkWorld 5%Z [RegistryGetStorageProvider (Reference_Id (mkResourceId "abc" "def"))])
           5%Z eq_refl eq_refl).
  vm_compute. discriminate.
Defined.

Lemma share_child_splits_witness :
  exists e0 e2 e3,
    splitPath "/home/MyShares/photos/Ibiza/beach.png" = [e0; ShareFolder cfg; e2; e3] /\
    e3 <> "" /\
    splitShare "/home/MyShares/photos/Ibiza/beach.png"
    = Returned (GoPath.Join ["/"; e0; ShareFolder cfg; e2], GoPath.Join ["/"; e3]).
Proof.
  apply (share_child_splits cfg "/home/MyShares/photos/Ibiza/beach.png" eq_refl).
Defined.

Lemma download_stats_first_witness :
  classify cfg "/home/MyShares/photos/Ibiza/beach.png" = Returned (Some ShareChild) /\
  InitiateFileDownload backend cfg
    (download_of_path "/home/MyShares/photos/Ibiza/beach.png") (world_at 0)
  = (Returned (inl (mkInitiateFileDownloadResponse
                      (mkStatus CODE_NOT_FOUND "gateway: file not found") "" "")),
     mkWorld 0%Z (Resolving.stat_calls_of "home.example:9000"
                    "/home/MyShares/photos/Ibiza/beach.png")).
Proof.
  split; [reflexivity|].
  apply (download_stats_first backend cfg
           (download_of_path "/home/MyShares/photos/Ibiza/beach.png")
           (mkStatResponse (mkStatus CODE_NOT_FOUND "") None)
           (world_at 0)
           (mkWorld 0%Z (Resolving.stat_calls_of "home.example:9000"
                           "/home/MyShares/photos/Ibiza/beach.png"))
           eq_refl).
  vm_compute. discriminate.
Defined.

Lemma download_forwarded_witness :
  InitiateFileDownload backend cfg (download_of_path "/eos/user/a/f") (world_at 0)
  = initiateFileDownload backend cfg (download_of_path "/eos/user/a/f")
      (mkWorld 0%Z (Resolving.stat_calls_of "p1.example:9000" "/eos/user/a/f")) /\
  InitiateFileDownload Resolving.backend cfg
    (download_of_path "/home/MyShares/photos/beach.png") (world_at 0)
  = initiateFileDownload Resolving.backend cfg
      (download_of_path "/eos/user/b/photos/beach.png")
      (mkWorld 0%Z
         (Resolving.stat_calls_of "home.example:9000" "/home/MyShares/photos/beach.png"
            ++ Resolving.stat_calls_of "home.example:9000" "/home/MyShares/photos"
            ++ Resolving.resolve_calls)).
Proof.
  split.
  - apply (proj1 (download_forwarded backend cfg (download_of_path "/eos/user/a/f")
                    (mkStatResponse ok (Some (info RESOURCE_TYPE_FILE "/eos/user/a/f" "")))
                    "/eos/user/a/f" (world_at 0)
                    (mkWorld 0%Z (Resolving.stat_calls_of "p1.example:9000" "/eos/user/a/f"))
                    (mkWorld 0%Z (Resolving.stat_calls_of "p1.example:9000" "/eos/user/a/f"))
                    eq_refl eq_refl eq_refl)
                 eq_refl).
  - apply (proj2 (download_forwarded Resolving.backend cfg
                    (download_of_path "/home/MyShares/photos/beach.png")
                    (mkStatResponse
                       ok (Some (info RESOURCE_TYPE_FILE "/home/MyShares/photos/beach.png" "")))
                    "/home/MyShares/photos/beach.png" (world_at 0)
                    (mkWorld 0%Z (Resolving.stat_calls_of "home.example:9000"
                                    "/home/MyShares/photos/beach.png"))
                    (mkWorld 0%Z (Resolving.stat_calls_of "home.example:9000"
                                    "/home/MyShares/photos/beach.png"))
                    eq_refl eq_refl eq_refl)
                 eq_refl
                 "/home/MyShares/photos" "/beach.png"
                 (mkStatResponse ok (Some photos)) photos photos_target
                 (mkWorld 0%Z
                    (Resolving.stat_calls_of "home.example:9000"
                                             "/home/MyShares/photos/beach.png"
                       ++ Resolving.stat_calls_of "home.example:9000" "/home/MyShares/photos"))
                 (mkWorld 0%Z
                    (Resolving.stat_calls_of "home.example:9000"
                                             "/home/MyShares/photos/beach.png"
                       ++ Resolving.stat_calls_of "home.example:9000" "/home/MyShares/photos"
                       ++ Resolving.resolve_calls))
                 eq_refl eq_refl eq_refl eq_refl eq_refl).
Defined.
Lemma GetPath_response_witness :
  GetPath_rpc backend cfg (mkGetPathRequest (mkResourceId "abc" "def")) (world_at 0)
  = (Returned (inl (mkGetPathResponse ok "/eos/user/b/photos")),
     mkWorld 0%Z Resolving.resolve_calls) /\
  code (getpath_Status (mkGetPathResponse ok "/eos/user/b/photos")) = CODE_OK /\
  GetPath_rpc backend cfg (mkGetPathRequest (mkResourceId "abc" "gone")) (world_at 0)
  = (Returned (inr (status_NewErrorFromCode CODE_NOT_FOUND "gateway")),
     mkWorld 0%Z
       [RegistryGetStorageProvider (Reference_Id (mkResourceId "abc" "gone"));
        ProviderStat "p2.example:9000"
          (mkStatRequest (Reference_Id (mkResourceId "abc" "gone")) [])]).
Proof.
  split; [reflexivity|]. split.
  - apply (proj1 (GetPath_response backend cfg
                    (mkGetPathRequest (mkResourceId "abc" "def")) (world_at 0))
                 (mkGetPathResponse ok "/eos/user/b/photos")
                 (mkWorld 0%Z Resolving.resolve_calls) eq_refl).
  - apply (proj2 (proj2 (GetPath_response backend cfg
                           (mkGetPathRequest (mkResourceId "abc" "gone")) (world_at 0)))
                 (mkStatResponse (mkStatus CODE_NOT_FOUND "") None)
                 (mkWorld 0%Z
                    [RegistryGetStorageProvider (Reference_Id (mkResourceId "abc" "gone"));
                     ProviderStat "p2.example:9000"
                       (mkStatRequest (Reference_Id (mkResourceId "abc" "gone")) [])])
                 eq_refl).
    vm_compute. discriminate.
Defined.
End RoutingExamples.

Section LookupExamples.
Import Authorizer AuthScenario RequestScenario.
Import Gateway (Returned, Panicked).


Lemma New_never_verifies_witness :
  New decode read_file unmarshal true = inl (built true) /\
  fst (IsProviderAllowed lookup (built true) client) <> Returned None /\
  snd (IsProviderAllowed lookup (built true) client) = built true.
Proof.
  split; [reflexivity|].
  destruct (New_never_verifies lookup decode read_file unmarshal true (built true) client
              eq_refl eq_refl) as (Hrefused & Hsame & _).
  split; [exact Hrefused|exact Hsame].
Defined.
End LookupExamples.

Section InviteExamples.
Import InviteManager InviteScenario.
Import Gateway (Returned, Panicked).

Lemma accepted_user_is_found_witness :
  AcceptInvite invited 1000 (Some tok1) bob = (Returned None, accepted) /\
  GetRemoteUser accepted alice (Id bob) = Returned (inl bob).
Proof.
  split; [reflexivity|].
  apply (proj2 (accepted_user_is_found invited 1000 (Some tok1) tok1 bob
                  (mkUserId "example.org" "bob") alice accepted
                  eq_refl eq_refl eq_refl eq_refl)).
  vm_compute. discriminate.
Defined.



Lemma accepted_ids_stay_distinct_witness :
  AcceptInvite accepted 1500 (Some tok1) carol = (Returned None, accepted_two) /\
  NoDup (map (fun v => (GetOpaqueId (Id v), GetIdp (Id v))) [bob; carol]).
Proof.
  split; [reflexivity|].
  apply (accepted_ids_stay_distinct accepted 1500 (Some tok1) carol (Returned None)
           accepted_two)
    with (k := "alice"); [|reflexivity|reflexivity].
  intros k l. cbn [AcceptedUsers accepted].
  destruct (decide (k = "alice")) as [->|Hne].
  - rewrite lookup_insert_eq. intros [= <-]. apply NoDup_singleton.
  - rewrite lookup_insert_ne by congruence. rewrite lookup_empty. discriminate.
Defined.

Lemma generated_token_valid_until_expiry_witness :
  GenerateToken create_token empty alice = (inl tok1, invited) /\
  getTokenIfValid invited 2000 (Some tok1) = Returned (inl tok1) /\
  getTokenIfValid invited 2001 (Some tok1)
  = Returned (inr (errors_New "memory: token expired")) /\
  getTokenIfValid invited (-1) (Some tok1)
  = Returned (inr (errors_New "memory: token expired")).
Proof.
  split; [reflexivity|].
  destruct (generated_token_valid_until_expiry create_token empty alice tok1
              (mkTimestamp 2000 0) invited eq_refl eq_refl ltac:(cbn; lia))
    as (Hvalid & _).
  split; [|split].
  - apply (proj1 (Hvalid 2000%Z ltac:(lia))). cbn. lia.
  - apply (proj2 (Hvalid 2001%Z ltac:(lia))). cbn. lia.
  - apply (proj2 (Hvalid (-1)%Z ltac:(lia))). lia.
Defined.
End InviteExamples.

Section InviteFileExamples.
Import InviteManager (error(..)).
Import InviteFile InviteFileScenario.
Import Gateway (Returned, Panicked).

End InviteFileExamples.
